(** * Sockeye encoder: embedding of [sockeye/encoder.py]

    The file models the two encoders of [sockeye/encoder.py], the factored
    [Embedding] and the [TransformerEncoder], over nested lists standing for
    torch tensors, and proves the properties of the specification about them.

    Conventions.
    - A tensor of shape (batch, seq, width) is a [list (list (list T))]; the
      element type [T] is the torch dtype, with its arithmetic in [DType].
    - Exceptions are values of [error]; a computation that may raise has type
      [result A].
    - The torch random generator, which only dropout reads, is an explicit
      state of type [RNG] passed through the forward functions. *)

From Stdlib Require Import String ZArith Bool Lia Uint63 PrimFloat List Permutation.
Import ListNotations.
Local Open Scope list_scope.

Set Implicit Arguments.

(** ** Exceptions *)

Inductive error : Type :=
| ValueError (msg : string)
| IndexError
| RuntimeError.

Inductive result (A : Type) : Type :=
| Ok (a : A)
| Raise (e : error).

Arguments Ok {A} a.
Arguments Raise {A} e.

Definition bind {A B : Type} (c : result A) (k : A -> result B) : result B :=
  match c with
  | Ok a => k a
  | Raise e => Raise e
  end.

Notation "x <- c ;; k" := (bind c (fun x => k))
  (at level 61, c at next level, right associativity).

Fixpoint mapM {A B : Type} (f : A -> result B) (l : list A) : result (list B) :=
  match l with
  | [] => Ok []
  | x :: l' => y <- f x ;; ys <- mapM f l' ;; Ok (y :: ys)
  end.

Fixpoint foldM {A B : Type} (f : A -> B -> result A) (l : list B) (a : A) : result A :=
  match l with
  | [] => Ok a
  | x :: l' => a' <- f a x ;; foldM f l' a'
  end.

(** Two lists walked together; unequal lengths are a shape mismatch. *)
Fixpoint zipM {A B C : Type} (f : A -> B -> result C) (l1 : list A) (l2 : list B)
  : result (list C) :=
  match l1, l2 with
  | [], [] => Ok []
  | x :: l1', y :: l2' => z <- f x y ;; zs <- zipM f l1' l2' ;; Ok (z :: zs)
  | _, _ => Raise RuntimeError
  end.

Definition zip_with {A B C : Type} (f : A -> B -> C) (l1 : list A) (l2 : list B) : list C :=
  map (fun p => f (fst p) (snd p)) (combine l1 l2).

(** ** Element arithmetic of a torch dtype *)

Class DType (T : Type) : Type := {
  zero : T;
  add : T -> T -> T;
  (* division of a sum by the number of stacked entries, as [pt.mean] does *)
  div_count : T -> nat -> T
}.

(** ** Tensor operations of the torch runtime used by the encoders *)

Module Torch.
Section Ops.
Context {T : Type} {DT : DType T}.

Definition tensor2 (A : Type) := list (list A).
Definition tensor3 := list (list (list T)).

(** [nn.Embedding]: a table of [num_embeddings] rows of [embedding_dim]
    learned parameters each. *)
Record nnEmbedding : Type := {
  num_embeddings : nat;
  embedding_dim : nat;
  sparse : bool;
  weight : nat -> nat -> T
}.

Definition row (e : nnEmbedding) (id : Z) : list T :=
  map (weight e (Z.to_nat id)) (seq 0 (embedding_dim e)).

(** One lookup; torch raises on an index outside [0, num_embeddings). *)
Definition lookup (e : nnEmbedding) (id : Z) : result (list T) :=
  if (0 <=? id)%Z && (id <? Z.of_nat (num_embeddings e))%Z
  then Ok (row e id)
  else Raise IndexError.

(** [e(ids)] for a 2D tensor of indices. *)
Definition embedding_forward (e : nnEmbedding) (ids : tensor2 Z) : result tensor3 :=
  mapM (mapM (lookup e)) ids.

(** [data[:, :, i]] *)
Definition select_last (data : list (list (list Z))) (i : nat) : result (tensor2 Z) :=
  mapM (mapM (fun ids : list Z =>
                match nth_error ids i with
                | Some id => Ok id
                | None => Raise IndexError
                end)) data.

(** Elementwise operation on tensors of one shape. *)
Definition strict3 (f : T -> T -> T) (a b : tensor3) : result tensor3 :=
  zipM (zipM (zipM (fun x y => Ok (f x y)))) a b.

Definition map3 (f : T -> T) (a : tensor3) : tensor3 :=
  map (map (map f)) a.

(** [pt.mean(pt.stack(ts, dim=0), dim=0)]: the entries summed in stacking
    order and divided by their number; [pt.stack] wants one shape. *)
Definition mean_stack (ts : list tensor3) : result tensor3 :=
  match ts with
  | [] => Raise RuntimeError
  | t :: rest =>
      s <- foldM (strict3 add) rest t ;;
      Ok (map3 (fun x => div_count x (length ts)) s)
  end.

(** [u + v] along the feature axis, a width of one being broadcast. *)
Definition add_broadcast (u v : list T) : result (list T) :=
  if Nat.eqb (length u) (length v) then Ok (zip_with add u v)
  else match u, v with
       | _, [y] => Ok (map (fun x => add x y) u)
       | [x], _ => Ok (map (add x) v)
       | _, _ => Raise RuntimeError
       end.

(** [a + b] for two tensors over the same batch and sequence axes. *)
Definition tensor_add (a b : tensor3) : result tensor3 :=
  zipM (zipM add_broadcast) a b.

(** [pt.cat(ts, dim=2)] *)
Definition cat_last (ts : list tensor3) : result tensor3 :=
  match ts with
  | [] => Raise RuntimeError
  | t :: rest => foldM (zipM (zipM (fun u v : list T => Ok (u ++ v)))) rest t
  end.

(** [t.transpose(1, 0)]. A nested list does not hold the trailing sizes of
    an empty tensor: for an empty batch, of shape (0, S, W), this gives the
    empty list again where torch gives a tensor of shape (S, 0, W). The
    properties that read the shape of a transposed tensor take a non-empty
    batch. *)
Definition transpose01 (t : tensor3) : tensor3 :=
  match t with
  | [] => []
  | r :: _ => map (fun j => map (fun r' => nth j r' []) t) (seq 0 (length r))
  end.

(** [t.size(1)] *)
Definition size1 (t : tensor3) : nat :=
  match t with
  | [] => 0
  | r :: _ => length r
  end.
End Ops.
Arguments nnEmbedding T : clear implicits.
Arguments tensor3 T : clear implicits.
End Torch.

(** ** [sockeye.constants]: the factor combination modes

    The constants module lies outside [encoder.py]; its three strings are
    parameters of the development. *)

Record Constants : Type := {
  FACTORS_COMBINE_SUM : string;
  FACTORS_COMBINE_AVERAGE : string;
  FACTORS_COMBINE_CONCAT : string
}.

Definition distinct_modes (C : Constants) : Prop :=
  FACTORS_COMBINE_CONCAT C <> FACTORS_COMBINE_SUM C /\
  FACTORS_COMBINE_CONCAT C <> FACTORS_COMBINE_AVERAGE C /\
  FACTORS_COMBINE_SUM C <> FACTORS_COMBINE_AVERAGE C.

Definition known_mode (C : Constants) (m : string) : Prop :=
  m = FACTORS_COMBINE_SUM C \/ m = FACTORS_COMBINE_AVERAGE C \/ m = FACTORS_COMBINE_CONCAT C.

(** ** Configurations *)

Module FactorConfig.
Record t : Type := {
  vocab_size : nat;
  num_embed : nat;
  combine : string;
  share_embedding : bool
}.
End FactorConfig.

Module EmbeddingConfig.
Record t : Type := {
  vocab_size : nat;
  num_embed : nat;
  dropout : float;
  factor_configs : option (list FactorConfig.t);
  allow_sparse_grad : bool
}.

(** [num_factors] is the field [__post_init__] derives. *)
Definition num_factors (c : t) : nat :=
  match factor_configs c with
  | Some fcs => 1 + length fcs
  | None => 1
  end.
End EmbeddingConfig.

(** ** The generic encoder interface *)

Class Encoder (E : Type) : Type := {
  get_num_hidden : E -> nat;
  get_encoded_seq_len : E -> Z -> Z;
  get_max_seq_len : E -> option Z
}.

(** The methods [class Encoder] implements itself. *)
Definition Encoder_get_encoded_seq_len (seq_len : Z) : Z := seq_len.
Definition Encoder_get_max_seq_len : option Z := None.

(** ** The torch runtime beyond tensor arithmetic

    Dropout draws from the generator state it is given and hands the next
    state on. *)

Class Runtime (T : Type) : Type := {
  RNG : Type;
  Dropout_forward : float -> Torch.tensor3 T -> RNG -> Torch.tensor3 T * RNG
}.

Definition nn_Embedding {T : Type} (num_embeddings embedding_dim : nat) (sparse : bool)
    (weight : nat -> nat -> T) : Torch.nnEmbedding T :=
  {| Torch.num_embeddings := num_embeddings;
     Torch.embedding_dim := embedding_dim;
     Torch.sparse := sparse;
     Torch.weight := weight |}.

Definition enumerate {A : Type} (l : list A) (start : nat) : list (nat * A) :=
  combine (seq start (length l)) l.

Definition is_empty {A : Type} (l : list A) : bool :=
  match l with
  | [] => true
  | _ :: _ => false
  end.

(** ** [class Embedding] *)

Module Embedding.
Section Def.
Context {T : Type} {DT : DType T} {RT : Runtime T}.
Variable C : Constants.

Record t : Type := {
  config : EmbeddingConfig.t;
  embedding : Torch.nnEmbedding T;
  num_factors : nat;
  factor_embeds : list (Torch.nnEmbedding T);
  factor_combinations : list string;
  dropout : option float
}.

(** [params i] are the learned parameters of the table created for stream
    [i]: the primary table is stream 0, the factors follow from 1. *)
Definition __init__ (config : EmbeddingConfig.t)
    (embedding : option (Torch.nnEmbedding T))
    (params : nat -> nat -> nat -> T) : t :=
  let embedding :=
    match embedding with
    | Some e => e
    | None => nn_Embedding (EmbeddingConfig.vocab_size config)
                           (EmbeddingConfig.num_embed config)
                           (EmbeddingConfig.allow_sparse_grad config) (params 0)
    end in
  let fcs :=
    match EmbeddingConfig.factor_configs config with
    | Some fcs => enumerate fcs 1
    | None => []
    end in
  {| config := config;
     embedding := embedding;
     num_factors := EmbeddingConfig.num_factors config;
     factor_embeds :=
       map (fun ifc : nat * FactorConfig.t =>
              let (i, fc) := ifc in
              if FactorConfig.share_embedding fc then embedding
              else nn_Embedding (FactorConfig.vocab_size fc) (FactorConfig.num_embed fc)
                                (EmbeddingConfig.allow_sparse_grad config) (params i))
           fcs;
     factor_combinations := map (fun ifc => FactorConfig.combine (snd ifc)) fcs;
     dropout := if PrimFloat.ltb 0 (EmbeddingConfig.dropout config)
                then Some (EmbeddingConfig.dropout config) else None |}.

Record buckets : Type := {
  average_factors_embeds : list (Torch.tensor3 T);
  concat_factors_embeds : list (Torch.tensor3 T);
  sum_factors_embeds : list (Torch.tensor3 T)
}.

(** One turn of the loop over the factors. *)
Definition loop_body (data : list (list (list Z))) (b : buckets)
    (it : nat * (Torch.nnEmbedding T * string)) : result buckets :=
  let '(i, (factor_embedding, factor_combination)) := it in
  factor_data <- Torch.select_last data i ;;
  factor_embedded <- Torch.embedding_forward factor_embedding factor_data ;;
  if String.eqb factor_combination (FACTORS_COMBINE_CONCAT C) then
    Ok {| average_factors_embeds := average_factors_embeds b;
          concat_factors_embeds := concat_factors_embeds b ++ [factor_embedded];
          sum_factors_embeds := sum_factors_embeds b |}
  else if String.eqb factor_combination (FACTORS_COMBINE_SUM C) then
    Ok {| average_factors_embeds := average_factors_embeds b;
          concat_factors_embeds := concat_factors_embeds b;
          sum_factors_embeds := sum_factors_embeds b ++ [factor_embedded] |}
  else if String.eqb factor_combination (FACTORS_COMBINE_AVERAGE C) then
    Ok {| average_factors_embeds := average_factors_embeds b ++ [factor_embedded];
          concat_factors_embeds := concat_factors_embeds b;
          sum_factors_embeds := sum_factors_embeds b |}
  else
    Raise (ValueError ("Unknown combine value for factors: " ++ factor_combination)%string).

(** [forward] up to the dropout: lookup and combination of the factors. *)
Definition forward_embedded (self : t) (data : list (list (list Z)))
  : result (Torch.tensor3 T) :=
  primary_data <- Torch.select_last data 0 ;;
  embedded <- Torch.embedding_forward (embedding self) primary_data ;;
  if 1 <? num_factors self then
    b <- foldM (loop_body data)
               (enumerate (combine (factor_embeds self) (factor_combinations self)) 1)
               {| average_factors_embeds := [];
                  concat_factors_embeds := [];
                  sum_factors_embeds := [] |} ;;
    embedded <- (if is_empty (average_factors_embeds b) then Ok embedded
                 else Torch.mean_stack (embedded :: average_factors_embeds b)) ;;
    embedded <- (if is_empty (sum_factors_embeds b) then Ok embedded
                 else foldM Torch.tensor_add (sum_factors_embeds b) embedded) ;;
    if is_empty (concat_factors_embeds b) then Ok embedded
    else Torch.cat_last (embedded :: concat_factors_embeds b)
  else Ok embedded.

Definition forward (self : t) (data : list (list (list Z))) (rng : RNG)
  : result (Torch.tensor3 T * RNG) :=
  embedded <- forward_embedded self data ;;
  match dropout self with
  | Some p => Ok (Dropout_forward p embedded rng)
  | None => Ok (embedded, rng)
  end.

#[global] Instance encoder : Encoder t := {|
  get_num_hidden := fun self => EmbeddingConfig.num_embed (config self);
  get_encoded_seq_len := fun _ => Encoder_get_encoded_seq_len;
  get_max_seq_len := fun _ => Encoder_get_max_seq_len
|}.
End Def.
Arguments t T : clear implicits.
End Embedding.

(** ** Collaborators of the transformer encoder *)

Module TransformerConfig.
(** Modelled from the spec: [transformer.TransformerConfig] is declared
    outside [encoder.py]; the record holds the fields of the configuration
    (model width, layers, heads, dropout, maximum length, positional
    embedding type) that the encoder reads. *)
Record t : Type := {
  model_size : nat;
  attention_heads : nat;
  num_layers : nat;
  dropout_prepost : float;
  positional_embedding_type : string;
  preprocess_sequence : string;
  max_seq_len_source : Z
}.
End TransformerConfig.

Module Layers.
(** Modelled from the spec: [layers.prepare_source_length_mask] is defined
    outside [encoder.py]. With [expand=False] it builds the length mask of
    shape (batch, max_length): position [j] of row [i] is valid iff
    [j < lengths[i]]; [true] marks a valid position. *)
Definition prepare_source_length_mask (lengths : list Z) (heads : nat) (max_length : nat)
  : list (list bool) :=
  map (fun len => map (fun j => (Z.of_nat j <? len)%Z) (seq 0 max_length)) lengths.

(** The arguments [layers.PositionalEmbeddings] is built from. *)
Record PositionalEmbeddings : Type := {
  weight_type : string;
  num_embed : nat;
  max_seq_len : Z;
  scale_up_input : bool;
  scale_down_positions : bool
}.
End Layers.

Module Transformer.
(** The arguments of [transformer.TransformerEncoderBlock]; [index] tells
    the blocks of one encoder, and their parameters, apart. *)
Record TransformerEncoderBlock : Type := {
  block_config : TransformerConfig.t;
  block_inference_only : bool;
  index : nat
}.

Record TransformerProcessBlock : Type := {
  sequence : string;
  dropout : float;
  num_hidden : nat
}.

(** The mask handed to the blocks: per head and query position, or the
    single-head mask itself. *)
Inductive att_mask : Type :=
| PerHead (m : list (list (list bool)))
| SingleHead (m : list (list bool)).
End Transformer.

(** Forward functions of the collaborating modules, and the capability probe
    [hasattr(pt, '_native_multi_head_attention')]. *)
Class Collaborators (T : Type) {RT : Runtime T} : Type := {
  PositionalEmbeddings_forward :
    Layers.PositionalEmbeddings -> Torch.tensor3 T -> result (Torch.tensor3 T);
  TransformerEncoderBlock_forward :
    Transformer.TransformerEncoderBlock -> Torch.tensor3 T -> Transformer.att_mask ->
    option (list T) -> option (list T) -> RNG -> result (Torch.tensor3 T * RNG);
  TransformerProcessBlock_forward :
    Transformer.TransformerProcessBlock -> Torch.tensor3 T -> RNG ->
    result (Torch.tensor3 T * RNG);
  has_native_multi_head_attention : bool
}.

Arguments Collaborators T {RT}.

(** ** [class TransformerEncoder] *)

Module TransformerEncoder.
Section Def.
Context {T : Type} {DT : DType T} {RT : Runtime T} {CO : Collaborators T}.

Record t : Type := {
  config : TransformerConfig.t;
  inference_only : bool;
  using_native_mha : bool;
  mha_qkv_bias : option (list T);
  mha_proj_bias : option (list T);
  dropout : option float;
  pos_embedding : Layers.PositionalEmbeddings;
  layers : list Transformer.TransformerEncoderBlock;
  final_process : Transformer.TransformerProcessBlock
}.

Definition __init__ (config : TransformerConfig.t) (inference_only : bool) : t :=
  let using_native_mha := inference_only && has_native_multi_head_attention in
  {| config := config;
     inference_only := inference_only;
     using_native_mha := using_native_mha;
     mha_qkv_bias :=
       if using_native_mha
       then Some (repeat zero (TransformerConfig.model_size config * 3)) else None;
     mha_proj_bias :=
       if using_native_mha
       then Some (repeat zero (TransformerConfig.model_size config)) else None;
     dropout := if PrimFloat.ltb 0 (TransformerConfig.dropout_prepost config)
                then Some (TransformerConfig.dropout_prepost config) else None;
     pos_embedding :=
       {| Layers.weight_type := TransformerConfig.positional_embedding_type config;
          Layers.num_embed := TransformerConfig.model_size config;
          Layers.max_seq_len := TransformerConfig.max_seq_len_source config;
          Layers.scale_up_input := true;
          Layers.scale_down_positions := false |};
     layers :=
       map (fun i => {| Transformer.block_config := config;
                        Transformer.block_inference_only := inference_only;
                        Transformer.index := i |})
           (seq 0 (TransformerConfig.num_layers config));
     final_process :=
       {| Transformer.sequence := TransformerConfig.preprocess_sequence config;
          Transformer.dropout := TransformerConfig.dropout_prepost config;
          Transformer.num_hidden := TransformerConfig.model_size config |} |}.

(** What [__init__] logs: the fallback warning of an inference-only
    encoder on a runtime without the native attention function. *)
Definition __init__warnings (inference_only : bool) : list string :=
  if inference_only && negb has_native_multi_head_attention
  then [("This version of PyTorch does not include a native multi-head attention function "
         ++ "(torch._native_multi_head_attention). Falling back to default implementation. Consider "
         ++ "installing PyTorch 1.12+ for faster encoder attention during inference.")%string]
  else [].

(** [single.unsqueeze(1).expand(-1, heads, -1).reshape((-1, max_len))
     .unsqueeze(1).expand(-1, max_len, -1)] *)
Definition expand_mask (single : list (list bool)) (heads max_len : nat)
  : list (list (list bool)) :=
  map (fun r => repeat r max_len) (flat_map (fun r => repeat r heads) single).

Definition run_layer (self : t) (att_mask : Transformer.att_mask)
    (st : Torch.tensor3 T * RNG) (layer : Transformer.TransformerEncoderBlock)
  : result (Torch.tensor3 T * RNG) :=
  TransformerEncoderBlock_forward layer (fst st) att_mask
    (if using_native_mha self then mha_qkv_bias self else None)
    (if using_native_mha self then mha_proj_bias self else None)
    (snd st).

Definition forward (self : t) (data : Torch.tensor3 T) (valid_length : list Z) (rng : RNG)
  : result (Torch.tensor3 T * list Z * list (list bool) * RNG) :=
  data <- PositionalEmbeddings_forward (pos_embedding self) data ;;
  let (data, rng) :=
    match dropout self with
    | Some p => Dropout_forward p data rng
    | None => (data, rng)
    end in
  let max_len := Torch.size1 data in
  let single_head_att_mask :=
    Layers.prepare_source_length_mask valid_length
      (TransformerConfig.attention_heads (config self)) max_len in
  let att_mask :=
    if negb (using_native_mha self)
    then Transformer.PerHead
           (expand_mask single_head_att_mask
              (TransformerConfig.attention_heads (config self)) max_len)
    else Transformer.SingleHead single_head_att_mask in
  let data := if negb (using_native_mha self) then Torch.transpose01 data else data in
  st <- foldM (run_layer self att_mask) (layers self) (data, rng) ;;
  st <- TransformerProcessBlock_forward (final_process self) (fst st) (snd st) ;;
  let data := if negb (using_native_mha self) then Torch.transpose01 (fst st) else fst st in
  Ok (data, valid_length, single_head_att_mask, snd st).

#[global] Instance encoder : Encoder t := {|
  get_num_hidden := fun self => TransformerConfig.model_size (config self);
  get_encoded_seq_len := fun _ => Encoder_get_encoded_seq_len;
  get_max_seq_len := fun _ => Encoder_get_max_seq_len
|}.
End Def.
Arguments t T : clear implicits.
End TransformerEncoder.

Definition get_transformer_encoder {T : Type} {DT : DType T} {RT : Runtime T}
    {CO : Collaborators T} (config : TransformerConfig.t) (inference_only : bool)
  : TransformerEncoder.t T :=
  TransformerEncoder.__init__ config inference_only.

Definition get_encoder {T : Type} {DT : DType T} {RT : Runtime T} {CO : Collaborators T}
  : TransformerConfig.t -> bool -> TransformerEncoder.t T :=
  get_transformer_encoder.

(** ** Instances used to run the model *)

(** Exact integer arithmetic. *)
Definition Z_dtype : DType Z :=
  {| zero := 0%Z; add := Z.add; div_count := fun x n => (x / Z.of_nat n)%Z |}.

(** IEEE binary64, torch's [float64]. *)
Definition float64_dtype : DType float :=
  {| zero := 0%float;
     add := PrimFloat.add;
     div_count := fun x n =>
       PrimFloat.div x (PrimFloat.of_uint63 (Uint63.of_Z (Z.of_nat n))) |}.

(** A generator that is a counter; dropout at an odd state zeroes the whole
    tensor, at an even state it keeps it. *)
Definition counter_runtime (T : Type) {DT : DType T} : Runtime T :=
  {| RNG := nat;
     Dropout_forward := fun _ x r =>
       (Torch.map3 (fun v => if Nat.even r then v else zero) x, S r) |}.

Arguments counter_runtime T {DT}.

(** Collaborators that leave the data as it is. *)
Definition identity_collaborators (T : Type) {DT : DType T} (native : bool)
  : @Collaborators T (counter_runtime T) :=
  {| PositionalEmbeddings_forward := fun _ x => Ok x;
     TransformerEncoderBlock_forward := fun _ x _ _ _ (r : @RNG T (counter_runtime T)) => Ok (x, r);
     TransformerProcessBlock_forward := fun _ x (r : @RNG T (counter_runtime T)) => Ok (x, r);
     has_native_multi_head_attention := native |}.

Arguments identity_collaborators T {DT} native.

Definition Z_runtime : Runtime Z := @counter_runtime Z Z_dtype.

(** ** The embedding seen position by position

    Every tensor [Embedding.forward] handles is computed from the row of
    indices at one (batch, sequence) position; the definitions below are the
    combination of [forward] at a single position. *)

Definition pointwise {A B : Type} (g : A -> B) (data : list (list A)) : list (list B) :=
  map (map g) data.

Section EmbeddingView.
Context {T : Type} {DT : DType T}.
Variable C : Constants.

(** The branch of the loop a combination mode takes. *)
Definition is_concat (c : string) : bool :=
  String.eqb c (FACTORS_COMBINE_CONCAT C).
Definition is_sum (c : string) : bool :=
  negb (String.eqb c (FACTORS_COMBINE_CONCAT C)) && String.eqb c (FACTORS_COMBINE_SUM C).
Definition is_average (c : string) : bool :=
  negb (String.eqb c (FACTORS_COMBINE_CONCAT C)) &&
  negb (String.eqb c (FACTORS_COMBINE_SUM C)) &&
  String.eqb c (FACTORS_COMBINE_AVERAGE C).

Definition stream : Type := (nat * (Torch.nnEmbedding T * string))%type.
Definition stream_table (it : stream) : Torch.nnEmbedding T := fst (snd it).
Definition stream_mode (it : stream) : string := snd (snd it).

(** The factor streams the loop of [forward] walks: column, table, mode. *)
Definition streams (self : Embedding.t T) : list stream :=
  enumerate (combine (Embedding.factor_embeds self) (Embedding.factor_combinations self)) 1.

Definition stream_row (ids : list Z) (it : stream) : list T :=
  Torch.row (stream_table it) (nth (fst it) ids 0%Z).

Definition bucket_rows (p : string -> bool) (its : list stream) (ids : list Z)
  : list (list T) :=
  map (stream_row ids) (filter (fun it => p (stream_mode it)) its).

Definition embed_position (self : Embedding.t T) (ids : list Z) : list T :=
  let embedded := Torch.row (Embedding.embedding self) (nth 0 ids 0%Z) in
  if 1 <? Embedding.num_factors self then
    let average := bucket_rows is_average (streams self) ids in
    let embedded :=
      if is_empty average then embedded
      else map (fun x => div_count x (S (length average)))
               (fold_left (zip_with add) average embedded) in
    let embedded := fold_left (zip_with add) (bucket_rows is_sum (streams self) ids) embedded in
    fold_left (@app T) (bucket_rows is_concat (streams self) ids) embedded
  else embedded.

(** The tensors of a bucket, each read off [data] position by position. *)
Definition bucket_tensors (data : list (list (list Z))) (its : list stream)
  : list (Torch.tensor3 T) :=
  map (fun it => pointwise (fun ids => stream_row ids it) data) its.

(** *** Well-formed inputs *)

Definition in_range (e : Torch.nnEmbedding T) (id : Z) : Prop :=
  (0 <= id < Z.of_nat (Torch.num_embeddings e))%Z.

Definition stream_valid (ids : list Z) (it : stream) : Prop :=
  fst it < length ids /\ in_range (stream_table it) (nth (fst it) ids 0%Z).

(** A position holds an index for the primary table and for every factor,
    each inside its table. *)
Definition valid_position (self : Embedding.t T) (ids : list Z) : Prop :=
  0 < length ids /\
  in_range (Embedding.embedding self) (nth 0 ids 0%Z) /\
  Forall (stream_valid ids) (streams self).

Definition valid_data (self : Embedding.t T) (data : list (list (list Z))) : Prop :=
  Forall (Forall (valid_position self)) data.

Definition known_modes (self : Embedding.t T) : Prop :=
  Forall (known_mode C) (Embedding.factor_combinations self).

(** Summed and averaged factors have the width of the primary embedding. *)
Definition widths_agree (self : Embedding.t T) : Prop :=
  Forall (fun it => is_concat (stream_mode it) = false ->
                    Torch.embedding_dim (stream_table it)
                    = Torch.embedding_dim (Embedding.embedding self))
         (streams self).

(** Summed width of the tables of the concatenated factors. *)
Definition concat_tables_width (self : Embedding.t T) : nat :=
  list_sum (map (fun it => Torch.embedding_dim (stream_table it))
                (filter (fun it => is_concat (stream_mode it)) (streams self))).

(** *** The combination as the specification words it *)

Definition rows_of_mode (m : string) (self : Embedding.t T) (ids : list Z) : list (list T) :=
  map (stream_row ids)
      (filter (fun it => String.eqb (stream_mode it) m) (streams self)).

(** Elementwise mean of stacked vectors. *)
Definition mean_rows (rows : list (list T)) : list T :=
  match rows with
  | [] => []
  | r :: rest => map (fun x => div_count x (length rows)) (fold_left (zip_with add) rest r)
  end.

Definition spec_position (self : Embedding.t T) (ids : list Z) : list T :=
  let primary := Torch.row (Embedding.embedding self) (nth 0 ids 0%Z) in
  let averaged := mean_rows (primary :: rows_of_mode (FACTORS_COMBINE_AVERAGE C) self ids) in
  let summed := fold_left (zip_with add) (rows_of_mode (FACTORS_COMBINE_SUM C) self ids) averaged in
  summed ++ concat (rows_of_mode (FACTORS_COMBINE_CONCAT C) self ids).

Definition forward_spec (self : Embedding.t T) (data : list (list (list Z)))
  : Torch.tensor3 T :=
  pointwise (spec_position self) data.

(** The part of [embed_position] that precedes the concatenation. *)
Definition summed_position (self : Embedding.t T) (ids : list Z) : list T :=
  let embedded := Torch.row (Embedding.embedding self) (nth 0 ids 0%Z) in
  let average := bucket_rows is_average (streams self) ids in
  fold_left (zip_with add) (bucket_rows is_sum (streams self) ids)
    (if is_empty average then embedded
     else map (fun x => div_count x (S (length average)))
              (fold_left (zip_with add) average embedded)).

(** *** Reordering the factors *)

(** What the loop pairs up at one position: for each factor its table, its
    combination mode and the index read from its column of the data. *)
Definition position_streams (self : Embedding.t T) (ids : list Z)
  : list (Torch.nnEmbedding T * string * Z) :=
  map (fun it => (stream_table it, stream_mode it, nth (fst it) ids 0%Z)) (streams self).

Definition concat_streams (l : list (Torch.nnEmbedding T * string * Z))
  : list (Torch.nnEmbedding T * string * Z) :=
  filter (fun s => is_concat (snd (fst s))) l.

(** Two positions hold the same factors, the factors of the second being
    those of the first in another order that keeps the concatenated factors
    in their relative order. *)
Definition reordered (self1 self2 : Embedding.t T) (ids1 ids2 : list Z) : Prop :=
  nth 0 ids1 0%Z = nth 0 ids2 0%Z /\
  Permutation (position_streams self1 ids1) (position_streams self2 ids2) /\
  concat_streams (position_streams self1 ids1) = concat_streams (position_streams self2 ids2).

Definition sum_streams (l : list (Torch.nnEmbedding T * string * Z))
  : list (Torch.nnEmbedding T * string * Z) :=
  filter (fun s => is_sum (snd (fst s))) l.

Definition average_streams (l : list (Torch.nnEmbedding T * string * Z))
  : list (Torch.nnEmbedding T * string * Z) :=
  filter (fun s => is_average (snd (fst s))) l.

(** A reordering that only moves factors past factors of other buckets:
    the summed factors keep their relative order, and so do the averaged and
    the concatenated ones. *)
Definition reordered_across_buckets (self1 self2 : Embedding.t T) (ids1 ids2 : list Z)
  : Prop :=
  reordered self1 self2 ids1 ids2 /\
  (sum_streams (position_streams self1 ids1)
   = sum_streams (position_streams self2 ids2)) /\
  (average_streams (position_streams self1 ids1)
   = average_streams (position_streams self2 ids2)).
End EmbeddingView.

(** ** The object [Embedding.__init__] builds, read off the configuration *)

Section InitView.
Context {T : Type}.

Definition factor_list (cfg : EmbeddingConfig.t) : list FactorConfig.t :=
  match EmbeddingConfig.factor_configs cfg with
  | Some fcs => fcs
  | None => []
  end.

(** The table of factor [fst ifc]: the primary table when the factor
    shares it, a table of the factor's own sizes otherwise. *)
Definition factor_table (cfg : EmbeddingConfig.t) (params : nat -> nat -> nat -> T)
    (primary : Torch.nnEmbedding T) (ifc : nat * FactorConfig.t) : Torch.nnEmbedding T :=
  if FactorConfig.share_embedding (snd ifc) then primary
  else nn_Embedding (FactorConfig.vocab_size (snd ifc)) (FactorConfig.num_embed (snd ifc))
                    (EmbeddingConfig.allow_sparse_grad cfg) (params (fst ifc)).

(** Width of the vectors a factor contributes. *)
Definition factor_width (cfg : EmbeddingConfig.t) (fc : FactorConfig.t) : nat :=
  if FactorConfig.share_embedding fc then EmbeddingConfig.num_embed cfg
  else FactorConfig.num_embed fc.

(** A pre-existing primary table has the configured width. *)
Definition given_table_fits (cfg : EmbeddingConfig.t) (emb : option (Torch.nnEmbedding T))
  : Prop :=
  match emb with
  | Some e => Torch.embedding_dim e = EmbeddingConfig.num_embed cfg
  | None => True
  end.

Definition same_shape (x y : Torch.tensor3 T) : Prop :=
  Forall2 (Forall2 (fun u v : list T => length u = length v)) x y.

Definition all_width (n : nat) (x : Torch.tensor3 T) : Prop :=
  Forall (Forall (fun v : list T => length v = n)) x.
End InitView.

(** ** Example inputs *)

Section Examples.
Local Open Scope string_scope.

(** The closed set of combination modes of the specification. *)
Definition spec_modes : Constants :=
  {| FACTORS_COMBINE_SUM := "sum";
     FACTORS_COMBINE_AVERAGE := "average";
     FACTORS_COMBINE_CONCAT := "concatenate" |}.

Definition example_factor (mode : string) (vocab width : nat) (share : bool)
  : FactorConfig.t :=
  {| FactorConfig.vocab_size := vocab;
     FactorConfig.num_embed := width;
     FactorConfig.combine := mode;
     FactorConfig.share_embedding := share |}.

(** A primary vocabulary of 5 entries of width 2 and four factors: one
    summed, one averaged, one concatenated with a table of width 3, one
    concatenated that shares the primary table although it is configured
    with width 7. *)
Definition example_config (p : float) : EmbeddingConfig.t :=
  {| EmbeddingConfig.vocab_size := 5;
     EmbeddingConfig.num_embed := 2;
     EmbeddingConfig.dropout := p;
     EmbeddingConfig.factor_configs :=
       Some [example_factor "sum" 4 2 false;
             example_factor "average" 4 2 false;
             example_factor "concatenate" 4 3 false;
             example_factor "concatenate" 9 7 true];
     EmbeddingConfig.allow_sparse_grad := false |}.

Definition example_params (t r c : nat) : Z := Z.of_nat (100 * t + 10 * r + c).

(** One sentence of two positions, five streams each. *)
Definition example_data : list (list (list Z)) :=
  [[[1; 2; 3; 0; 4]; [0; 0; 0; 0; 0]]]%Z.

(** The example configuration with a further factor of a mode outside the
    closed set. *)
Definition unknown_mode_config : EmbeddingConfig.t :=
  {| EmbeddingConfig.vocab_size := 5;
     EmbeddingConfig.num_embed := 2;
     EmbeddingConfig.dropout := 0;
     EmbeddingConfig.factor_configs :=
       Some [example_factor "sum" 4 2 false; example_factor "multiply" 4 2 false];
     EmbeddingConfig.allow_sparse_grad := false |}.

(** Two layers of width 16 with two heads, at most 100 source positions. *)
Definition example_transformer_config (p : float) : TransformerConfig.t :=
{| TransformerConfig.model_size := 16;
   TransformerConfig.attention_heads := 2;
   TransformerConfig.num_layers := 2;
   TransformerConfig.dropout_prepost := p;
   TransformerConfig.positional_embedding_type := "fixed";
   TransformerConfig.preprocess_sequence := "n";
   TransformerConfig.max_seq_len_source := 100 |}.

(** A batch of two sentences of three positions of width 1. *)
Definition example_embedded : Torch.tensor3 Z :=
[[[1]; [2]; [3]]; [[4]; [5]; [6]]]%Z.

(** A primary table and two summed factors, each table of one row, or two
    for the second factor, holding one constant: [w0], [w1] and [w2]. *)
Definition first_factor : FactorConfig.t := example_factor "sum" 1 1 false.
Definition second_factor : FactorConfig.t := example_factor "sum" 2 1 false.

Definition two_sums_config (fa fb : FactorConfig.t) : EmbeddingConfig.t :=
{| EmbeddingConfig.vocab_size := 1;
   EmbeddingConfig.num_embed := 1;
   EmbeddingConfig.dropout := 0;
   EmbeddingConfig.factor_configs := Some [fa; fb];
   EmbeddingConfig.allow_sparse_grad := false |}.

Definition constant_tables {T : Type} (w0 w1 w2 : T) (t r c : nat) : T :=
match t with
| 0 => w0
| 1 => w1
| _ => w2
end.

(** The two factors in configured order and swapped, the tables and the
    columns of the data moving with them. *)
Definition two_sums {T : Type} (w0 w1 w2 : T) : Embedding.t T :=
Embedding.__init__ (two_sums_config first_factor second_factor) None
  (constant_tables w0 w1 w2).
Definition two_sums_swapped {T : Type} (w0 w1 w2 : T) : Embedding.t T :=
Embedding.__init__ (two_sums_config second_factor first_factor) None
  (constant_tables w0 w2 w1).
Definition two_sums_data : list (list (list Z)) := [[[0; 0; 1]]]%Z.
Definition two_sums_swapped_data : list (list (list Z)) := [[[0; 1; 0]]]%Z.

(** Averaged factors over the same tables, and the object of any two of
    these factors. *)
Definition first_averaged_factor : FactorConfig.t := example_factor "average" 1 1 false.
Definition second_averaged_factor : FactorConfig.t := example_factor "average" 2 1 false.

Definition two_factors {T : Type} (fa fb : FactorConfig.t) (w0 w1 w2 : T) : Embedding.t T :=
Embedding.__init__ (two_sums_config fa fb) None (constant_tables w0 w1 w2).

(** 2^60, a number that binary64 (and binary32) holds exactly. *)
Definition two_to_60 : float := 1152921504606846976%float.
End Examples.

(** ** Which exceptions a computation may raise *)

Definition raises_only {A : Type} (P : error -> Prop) (c : result A) : Prop :=
  forall e, c = Raise e -> P e.

(** The exceptions of the tensor runtime, as opposed to the [ValueError] of
    [Embedding.forward]. *)
Definition runtime_error (e : error) : Prop :=
  e = IndexError \/ e = RuntimeError.

(** ** Outputs of a run, the generator state left aside *)

Definition output {A R : Type} (r : result (A * R)) : result A :=
match r with
| Ok (a, _) => Ok a
| Raise e => Raise e
end.

(** Number of positions a mask row marks valid. *)
Definition count_valid (row : list bool) : nat :=
length (filter (fun b => b) row).

Definition Z_collaborators (native : bool) : @Collaborators Z Z_runtime :=
@identity_collaborators Z Z_dtype native.

(** ** Shapes *)

(** Two nested lists over the same batch and sequence axes. *)
Definition same_outer {A B : Type} (x : list (list A)) (y : list (list B)) : Prop :=
  Forall2 (fun r o => length o = length r) x y.

(** A tensor of shape (b, s, w). *)
Definition has_shape {T : Type} (b s w : nat) (t : Torch.tensor3 T) : Prop :=
  length t = b /\
  Forall (fun r => length r = s /\ Forall (fun v : list T => length v = w) r) t.

(** A vocabulary of 100 entries of width 8 and no factors. *)
Definition plain_config : EmbeddingConfig.t :=
  {| EmbeddingConfig.vocab_size := 100;
     EmbeddingConfig.num_embed := 8;
     EmbeddingConfig.dropout := 0;
     EmbeddingConfig.factor_configs := None;
     EmbeddingConfig.allow_sparse_grad := false |}.

(** A primary table of width 3 and one summed factor of width 1. *)
Definition broadcast_config : EmbeddingConfig.t :=
  {| EmbeddingConfig.vocab_size := 5;
     EmbeddingConfig.num_embed := 3;
     EmbeddingConfig.dropout := 0;
     EmbeddingConfig.factor_configs := Some [example_factor "sum" 4 1 false];
     EmbeddingConfig.allow_sparse_grad := false |}.

(** ** Inputs on which the widths disagree *)

(** A primary table of width 1 and one summed factor with a table of
    width 3. *)
Definition narrow_primary_config : EmbeddingConfig.t :=
  {| EmbeddingConfig.vocab_size := 5;
     EmbeddingConfig.num_embed := 1;
     EmbeddingConfig.dropout := 0;
     EmbeddingConfig.factor_configs := Some [example_factor "sum" 4 3 false];
     EmbeddingConfig.allow_sparse_grad := false |}.

(** A pre-existing table of 7 rows of width 3, to be passed to the
    constructor with [plain_config], which configures width 8. *)
Definition given_table : Torch.nnEmbedding Z :=
  nn_Embedding 7 3 false (example_params 0).

(** ** Collaborators with other encoder blocks *)

(** The collaborators [CO] with the forward function of the encoder blocks
    replaced by [blocks]. *)
Definition with_blocks {T : Type} {RT : Runtime T} (CO : Collaborators T)
    (blocks : Transformer.TransformerEncoderBlock -> Torch.tensor3 T ->
              Transformer.att_mask -> option (list T) -> option (list T) -> RNG ->
              result (Torch.tensor3 T * RNG))
  : Collaborators T :=
  {| PositionalEmbeddings_forward := @PositionalEmbeddings_forward T RT CO;
     TransformerEncoderBlock_forward := blocks;
     TransformerProcessBlock_forward := @TransformerProcessBlock_forward T RT CO;
     has_native_multi_head_attention := @has_native_multi_head_attention T RT CO |}.

Fixpoint list_eqb {A : Type} (eqb : A -> A -> bool) (l1 l2 : list A) : bool :=
  match l1, l2 with
  | [], [] => true
  | x :: l1', y :: l2' => eqb x y && list_eqb eqb l1' l2'
  | _, _ => false
  end.

Definition option_eqb {A : Type} (eqb : A -> A -> bool) (o1 o2 : option A) : bool :=
  match o1, o2 with
  | None, None => true
  | Some x, Some y => eqb x y
  | _, _ => false
  end.

Definition att_mask_eqb (m1 m2 : Transformer.att_mask) : bool :=
  match m1, m2 with
  | Transformer.PerHead a, Transformer.PerHead b =>
      list_eqb (list_eqb (list_eqb Bool.eqb)) a b
  | Transformer.SingleHead a, Transformer.SingleHead b =>
      list_eqb (list_eqb Bool.eqb) a b
  | _, _ => false
  end.

Definition has_shapeb {T : Type} (b s w : nat) (t : Torch.tensor3 T) : bool :=
  Nat.eqb (length t) b &&
  forallb (fun r => Nat.eqb (length r) s &&
                    forallb (fun v : list T => Nat.eqb (length v) w) r) t.

(** Encoder blocks that leave the data as it is when they are given the
    mask [expected] and the biases [qkv] and [proj], and raise on anything
    else. *)
Definition mask_checking_blocks (expected : Transformer.att_mask)
    (qkv proj : option (list Z))
    (blk : Transformer.TransformerEncoderBlock) (x : Torch.tensor3 Z)
    (m : Transformer.att_mask) (q p : option (list Z)) (r : @RNG Z Z_runtime)
  : result (Torch.tensor3 Z * @RNG Z Z_runtime) :=
  if att_mask_eqb m expected
     && option_eqb (list_eqb Z.eqb) q qkv
     && option_eqb (list_eqb Z.eqb) p proj
  then Ok (x, r) else Raise RuntimeError.

(** Encoder blocks that leave the data as it is when it has shape
    (b, s, w), and raise on data of any other shape. *)
Definition shape_checking_blocks (b s w : nat)
    (blk : Transformer.TransformerEncoderBlock) (x : Torch.tensor3 Z)
    (m : Transformer.att_mask) (q p : option (list Z)) (r : @RNG Z Z_runtime)
  : result (Torch.tensor3 Z * @RNG Z Z_runtime) :=
  if has_shapeb b s w x then Ok (x, r) else Raise RuntimeError.

(** * Properties *)

(** ** The exception monad over lists *)

Lemma mapM_ok {A B : Type} (f : A -> result B) (g : A -> B) (l : list A) :
  Forall (fun x => f x = Ok (g x)) l -> mapM f l = Ok (map g l).
Proof.
  induction 1 as [|x l Hx _ IH]; simpl; [reflexivity|].
  now rewrite Hx, IH.
Qed.

Lemma mapM_map {A B D : Type} (f : B -> result D) (g : A -> B) (l : list A) :
  mapM f (map g l) = mapM (fun x => f (g x)) l.
Proof.
  induction l as [|x l IH]; simpl; [reflexivity|].
  now rewrite IH.
Qed.

Lemma foldM_guard {A B : Type} (f : A -> B -> result A) (l : list B) (a : A) :
  (if is_empty l then Ok a else foldM f l a) = foldM f l a.
Proof. now destruct l. Qed.

Lemma mapM2_ok {A B : Type} (f : A -> result B) (g : A -> B) (data : list (list A)) :
  Forall (Forall (fun x => f x = Ok (g x))) data ->
  mapM (mapM f) data = Ok (pointwise g data).
Proof.
  intros H. unfold pointwise. apply mapM_ok.
  eapply Forall_impl; [|exact H].
  intros r Hr. now apply mapM_ok.
Qed.

Lemma zipM_map {A U V W : Type} (h : U -> V -> result W) (g1 : A -> U) (g2 : A -> V)
    (g3 : A -> W) (l : list A) :
  Forall (fun x => h (g1 x) (g2 x) = Ok (g3 x)) l ->
  zipM h (map g1 l) (map g2 l) = Ok (map g3 l).
Proof.
  induction 1 as [|x l Hx _ IH]; simpl; [reflexivity|].
  now rewrite Hx, IH.
Qed.

Lemma zipM2_pointwise {A U V W : Type} (h : U -> V -> result W) (g1 : A -> U)
    (g2 : A -> V) (g3 : A -> W) (data : list (list A)) :
  (forall x, h (g1 x) (g2 x) = Ok (g3 x)) ->
  zipM (zipM h) (pointwise g1 data) (pointwise g2 data) = Ok (pointwise g3 data).
Proof.
  intros H. unfold pointwise. apply zipM_map.
  apply Forall_forall. intros r _. apply zipM_map.
  apply Forall_forall. intros x _. apply H.
Qed.

Lemma zipM_pure {U V W : Type} (f : U -> V -> W) (u : list U) (v : list V) :
  length u = length v ->
  zipM (fun x y => Ok (f x y)) u v = Ok (zip_with f u v).
Proof.
  revert v. induction u as [|x u IH]; intros [|y v] Hl; simpl in *; try discriminate.
  - reflexivity.
  - rewrite IH by lia. reflexivity.
Qed.

Lemma zip_with_length {U V W : Type} (f : U -> V -> W) (u : list U) (v : list V) :
  length u = length v -> length (zip_with f u v) = length u.
Proof.
  intros Hl. unfold zip_with. rewrite length_map, length_combine. lia.
Qed.

(** A left fold of a partial binary operation over tensors that are all
    computed position by position from one [data]. *)
Lemma foldM_pointwise {A V : Type} (h : V -> V -> result V) (h' : V -> V -> V)
    (P : V -> Prop) (data : list (list A)) :
  (forall u v, P u -> P v -> h u v = Ok (h' u v) /\ P (h' u v)) ->
  forall (gs : list (A -> V)) (g0 : A -> V),
    (forall x, P (g0 x)) ->
    Forall (fun g => forall x, P (g x)) gs ->
    foldM (zipM (zipM h)) (map (fun g => pointwise g data) gs) (pointwise g0 data)
    = Ok (pointwise (fun x => fold_left h' (map (fun g => g x) gs) (g0 x)) data).
Proof.
  intros Hh gs. induction gs as [|g gs IH]; intros g0 H0 Hgs; simpl.
  - reflexivity.
  - inversion Hgs as [|? ? Hg Hgs']; subst.
    rewrite (zipM2_pointwise h g0 g (fun x => h' (g0 x) (g x)) data).
    + simpl. apply IH; [|assumption].
      intros x. now apply Hh.
    + intros x. now apply Hh.
Qed.

Lemma pointwise_ext {A B : Type} (f g : A -> B) (data : list (list A)) :
  Forall (Forall (fun x => f x = g x)) data -> pointwise f data = pointwise g data.
Proof.
  intros H. unfold pointwise. apply map_ext_Forall.
  eapply Forall_impl; [|exact H].
  intros r Hr. now apply map_ext_Forall.
Qed.

Lemma pointwise_map {A B D : Type} (f : B -> D) (g : A -> B) (data : list (list A)) :
  map (map f) (pointwise g data) = pointwise (fun x => f (g x)) data.
Proof.
  unfold pointwise. rewrite map_map. apply map_ext. intros r. apply map_map.
Qed.

Lemma Forall2_swap {A B : Type} (P : A -> B -> Prop) (data : list (list A)) (l : list B) :
  Forall (Forall (fun x => Forall (P x) l)) data ->
  Forall (fun y => Forall (Forall (fun x => P x y)) data) l.
Proof.
  intros H. apply Forall_forall. intros y Hy.
  eapply Forall_impl; [|exact H]. intros r Hr.
  eapply Forall_impl; [|exact Hr]. intros x Hx.
  rewrite Forall_forall in Hx. now apply Hx.
Qed.

(** ** Tensor operations on tensors computed position by position *)

Section TorchLemmas.
Context {T : Type} {DT : DType T}.

Lemma row_length (e : Torch.nnEmbedding T) (id : Z) :
  length (Torch.row e id) = Torch.embedding_dim e.
Proof. unfold Torch.row. now rewrite length_map, length_seq. Qed.

Lemma lookup_in_range (e : Torch.nnEmbedding T) (id : Z) :
  in_range e id -> Torch.lookup e id = Ok (Torch.row e id).
Proof.
  unfold in_range, Torch.lookup. intros [H0 H1].
  apply Z.leb_le in H0. apply Z.ltb_lt in H1. now rewrite H0, H1.
Qed.

Lemma select_last_ok (data : list (list (list Z))) (i : nat) :
  Forall (Forall (fun ids => i < length ids)) data ->
  Torch.select_last data i = Ok (pointwise (fun ids => nth i ids 0%Z) data).
Proof.
  intros H. unfold Torch.select_last. apply mapM2_ok.
  eapply Forall_impl; [|exact H]. intros r Hr.
  eapply Forall_impl; [|exact Hr]. intros ids Hi. simpl in Hi.
  destruct (nth_error ids i) as [id|] eqn:E.
  - now rewrite (nth_error_nth _ _ _ E).
  - apply nth_error_None in E. lia.
Qed.

Lemma embedding_forward_ok (e : Torch.nnEmbedding T) (g : list Z -> Z)
    (data : list (list (list Z))) :
  Forall (Forall (fun ids => in_range e (g ids))) data ->
  Torch.embedding_forward e (pointwise g data)
  = Ok (pointwise (fun ids => Torch.row e (g ids)) data).
Proof.
  intros H. unfold Torch.embedding_forward, pointwise.
  rewrite mapM_map. apply mapM_ok.
  eapply Forall_impl; [|exact H]. intros r Hr. simpl in Hr.
  rewrite mapM_map. apply mapM_ok.
  eapply Forall_impl; [|exact Hr]. intros ids Hi.
  now apply lookup_in_range.
Qed.

Lemma fold_zip_length (w : nat) (rows : list (list T)) (r : list T) :
  length r = w -> Forall (fun r' => length r' = w) rows ->
  length (fold_left (zip_with add) rows r) = w.
Proof.
  revert r. induction rows as [|r' rows IH]; intros r Hr Hrows; simpl; [assumption|].
  inversion Hrows; subst. apply IH; [|assumption].
  rewrite zip_with_length; congruence.
Qed.

Lemma add_broadcast_same (u v : list T) :
  length u = length v -> Torch.add_broadcast u v = Ok (zip_with add u v).
Proof.
  intros H. unfold Torch.add_broadcast.
  apply Nat.eqb_eq in H. now rewrite H.
Qed.

(** Sum of tensors of one width, as [pt.stack] and [pt.mean] see them. *)
Lemma fold_strict_add_pointwise (w : nat) (data : list (list (list Z)))
    (gs : list (list Z -> list T)) (g0 : list Z -> list T) :
  (forall ids, length (g0 ids) = w) ->
  Forall (fun g => forall ids, length (g ids) = w) gs ->
  foldM (Torch.strict3 add) (map (fun g => pointwise g data) gs) (pointwise g0 data)
  = Ok (pointwise (fun ids => fold_left (zip_with add) (map (fun g => g ids) gs) (g0 ids)) data).
Proof.
  intros H0 Hgs. unfold Torch.strict3.
  apply (foldM_pointwise (zipM (fun x y => Ok (add x y))) (zip_with add)
           (fun v => length v = w)); try assumption.
  intros u v Hu Hv. split.
  - apply zipM_pure. congruence.
  - rewrite zip_with_length; congruence.
Qed.

Lemma fold_tensor_add_pointwise (w : nat) (data : list (list (list Z)))
    (gs : list (list Z -> list T)) (g0 : list Z -> list T) :
  (forall ids, length (g0 ids) = w) ->
  Forall (fun g => forall ids, length (g ids) = w) gs ->
  foldM Torch.tensor_add (map (fun g => pointwise g data) gs) (pointwise g0 data)
  = Ok (pointwise (fun ids => fold_left (zip_with add) (map (fun g => g ids) gs) (g0 ids)) data).
Proof.
  intros H0 Hgs. unfold Torch.tensor_add.
  apply (foldM_pointwise Torch.add_broadcast (zip_with add)
           (fun v => length v = w)); try assumption.
  intros u v Hu Hv. split.
  - apply add_broadcast_same. congruence.
  - rewrite zip_with_length; congruence.
Qed.

Lemma fold_cat_pointwise (data : list (list (list Z)))
    (gs : list (list Z -> list T)) (g0 : list Z -> list T) :
  foldM (zipM (zipM (fun u v : list T => Ok (u ++ v))))
        (map (fun g => pointwise g data) gs) (pointwise g0 data)
  = Ok (pointwise (fun ids => fold_left (@app T) (map (fun g => g ids) gs) (g0 ids)) data).
Proof.
  apply (foldM_pointwise (fun u v : list T => Ok (u ++ v)) (@app T) (fun _ => True)).
  - intros u v _ _. split; [reflexivity|exact I].
  - intros _. exact I.
  - apply Forall_forall. intros g _ _. exact I.
Qed.
End TorchLemmas.

(** ** The loop over the factors *)

Section EmbeddingLemmas.
Context {T : Type} {DT : DType T}.
Variable C : Constants.

Lemma known_mode_branch (m : string) :
  known_mode C m ->
  is_concat C m = true \/ is_sum C m = true \/ is_average C m = true.
Proof.
  unfold known_mode, is_concat, is_sum, is_average.
  destruct (String.eqb_spec m (FACTORS_COMBINE_CONCAT C)); [now left|].
  destruct (String.eqb_spec m (FACTORS_COMBINE_SUM C)); [right; now left|].
  destruct (String.eqb_spec m (FACTORS_COMBINE_AVERAGE C)); [right; now right|].
  intros [H|[H|H]]; contradiction.
Qed.

Lemma loop_ok (data : list (list (list Z))) (its : list (stream (T:=T))) :
  Forall (fun it => known_mode C (stream_mode it)) its ->
  Forall (fun it => Forall (Forall (fun ids => stream_valid ids it)) data) its ->
  forall a c s : list stream,
    foldM (Embedding.loop_body C data) its
      {| Embedding.average_factors_embeds := bucket_tensors data a;
         Embedding.concat_factors_embeds := bucket_tensors data c;
         Embedding.sum_factors_embeds := bucket_tensors data s |}
    = Ok {| Embedding.average_factors_embeds :=
              bucket_tensors data (a ++ filter (fun it => is_average C (stream_mode it)) its);
            Embedding.concat_factors_embeds :=
              bucket_tensors data (c ++ filter (fun it => is_concat C (stream_mode it)) its);
            Embedding.sum_factors_embeds :=
              bucket_tensors data (s ++ filter (fun it => is_sum C (stream_mode it)) its) |}.
Proof.
  induction its as [|[i [e m]] its IH]; intros Hm Hv a c s; simpl.
  - now rewrite !app_nil_r.
  - inversion Hm as [|? ? Hm1 Hm2]; subst. inversion Hv as [|? ? Hv1 Hv2]; subst.
    unfold stream_valid, stream_table, stream_mode in Hv1, Hm1 |- *. simpl in Hv1, Hm1 |- *.
    rewrite select_last_ok.
    2:{ eapply Forall_impl; [|exact Hv1]. intros r Hr.
        eapply Forall_impl; [|exact Hr]. intros ids [Hi _]. exact Hi. }
    simpl. rewrite embedding_forward_ok.
    2:{ eapply Forall_impl; [|exact Hv1]. intros r Hr.
        eapply Forall_impl; [|exact Hr]. intros ids [_ Hi]. exact Hi. }
    simpl.
    assert (Hb : forall l : list stream,
               bucket_tensors data l
               ++ [pointwise (fun ids => Torch.row e (nth i ids 0%Z)) data]
               = bucket_tensors data (l ++ [(i, (e, m))])).
    { intros l. unfold bucket_tensors. now rewrite map_app. }
    apply known_mode_branch in Hm1.
    unfold is_concat, is_sum, is_average in Hm1 |- *.
    destruct (String.eqb m (FACTORS_COMBINE_CONCAT C)); simpl in *.
    { rewrite Hb, IH by assumption. now rewrite <- app_assoc. }
    destruct (String.eqb m (FACTORS_COMBINE_SUM C)); simpl in *.
    { rewrite Hb, IH by assumption. now rewrite <- app_assoc. }
    destruct (String.eqb m (FACTORS_COMBINE_AVERAGE C)); simpl in *.
    { rewrite Hb, IH by assumption. now rewrite <- app_assoc. }
    destruct Hm1 as [H|[H|H]]; discriminate.
Qed.

Lemma streams_modes (P : string -> Prop) (self : Embedding.t T) :
  Forall P (Embedding.factor_combinations self) ->
  Forall (fun it => P (stream_mode it)) (streams self).
Proof.
  intros H. apply Forall_forall. intros [i [e m]] Hin.
  unfold streams, enumerate in Hin.
  apply in_combine_r in Hin. apply in_combine_r in Hin.
  rewrite Forall_forall in H. now apply H.
Qed.

Lemma bucket_tensors_map (data : list (list (list Z))) (its : list (stream (T:=T))) :
  bucket_tensors data its
  = map (fun g => pointwise g data) (map (fun it ids => stream_row ids it) its).
Proof. unfold bucket_tensors. now rewrite map_map. Qed.

Lemma bucket_rows_map (ids : list Z) (its : list (stream (T:=T))) :
  map (fun g : list Z -> list T => g ids) (map (fun it ids' => stream_row ids' it) its)
  = map (stream_row ids) its.
Proof. now rewrite map_map. Qed.

(** [forward], before the dropout, acts on every position on its own. *)
Lemma forward_embedded_pointwise (self : Embedding.t T) (data : list (list (list Z))) :
  known_modes C self -> widths_agree C self -> valid_data self data ->
  Embedding.forward_embedded C self data = Ok (pointwise (embed_position C self) data).
Proof.
  intros Hm Hw Hv. unfold Embedding.forward_embedded.
  rewrite select_last_ok.
  2:{ eapply Forall_impl; [|exact Hv]. intros r Hr.
      eapply Forall_impl; [|exact Hr]. intros ids [Hi _]. exact Hi. }
  cbn [bind]. rewrite embedding_forward_ok.
  2:{ eapply Forall_impl; [|exact Hv]. intros r Hr.
      eapply Forall_impl; [|exact Hr]. intros ids [_ [Hi _]]. exact Hi. }
  cbn [bind]. unfold embed_position, bucket_rows.
  destruct (1 <? Embedding.num_factors self); [|reflexivity].
  fold (streams self).
  pose proof (@loop_ok data (streams self) (streams_modes (P:=known_mode C) self Hm)) as Hloop.
  assert (Hv' : Forall (fun it => Forall (Forall (fun ids => stream_valid ids it)) data)
                  (streams self)).
  { apply Forall2_swap.
    eapply Forall_impl; [|exact Hv]. intros r Hr.
    eapply Forall_impl; [|exact Hr]. intros ids [_ [_ Hi]]. exact Hi. }
  specialize (Hloop Hv' [] [] []).
  cbn [app] in Hloop.
  match goal with
  | |- context [foldM (Embedding.loop_body C data) ?l ?b0] =>
      rewrite (Hloop : foldM (Embedding.loop_body C data) l b0 = _)
  end.
  clear Hloop.
  cbn [bind Embedding.average_factors_embeds Embedding.concat_factors_embeds
       Embedding.sum_factors_embeds].
  set (w := Torch.embedding_dim (Embedding.embedding self)).
  assert (HwA : Forall (fun g : list Z -> list T => forall ids, length (g ids) = w)
                  (map (fun it ids => stream_row ids it)
                     (filter (fun it => is_average C (stream_mode it)) (streams self)))).
  { apply Forall_map, Forall_forall. intros it Hin ids.
    apply filter_In in Hin. destruct Hin as [Hin Hp].
    unfold stream_row. rewrite row_length.
    unfold widths_agree in Hw. rewrite Forall_forall in Hw. apply Hw; [assumption|].
    unfold is_average, is_concat in *. now destruct (String.eqb _ _). }
  assert (HwS : Forall (fun g : list Z -> list T => forall ids, length (g ids) = w)
                  (map (fun it ids => stream_row ids it)
                     (filter (fun it => is_sum C (stream_mode it)) (streams self)))).
  { apply Forall_map, Forall_forall. intros it Hin ids.
    apply filter_In in Hin. destruct Hin as [Hin Hp].
    unfold stream_row. rewrite row_length.
    unfold widths_agree in Hw. rewrite Forall_forall in Hw. apply Hw; [assumption|].
    unfold is_sum, is_concat in *. now destruct (String.eqb _ _). }
  set (A := filter (fun it => is_average C (stream_mode it)) (streams self)) in *.
  set (S' := filter (fun it => is_sum C (stream_mode it)) (streams self)) in *.
  set (K := filter (fun it => is_concat C (stream_mode it)) (streams self)) in *.
  set (g1 := fun ids : list Z =>
               if is_empty (map (stream_row ids) A)
               then Torch.row (Embedding.embedding self) (nth 0 ids 0%Z)
               else map (fun x => div_count x (S (length (map (stream_row ids) A))))
                        (fold_left (zip_with add) (map (stream_row ids) A)
                           (Torch.row (Embedding.embedding self) (nth 0 ids 0%Z)))).
  match goal with
  | |- bind ?c _ = _ => assert (H1 : c = Ok (pointwise g1 data))
  end.
  { subst g1. destruct A as [|a A'] eqn:EA; [reflexivity|].
    change (is_empty (bucket_tensors data (a :: A'))) with false. cbv iota.
    unfold Torch.mean_stack.
    assert (HL : forall t0 : Torch.tensor3 T,
               length (t0 :: bucket_tensors data (a :: A')) = S (length (a :: A'))).
    { intros t0. unfold bucket_tensors. cbn [length]. now rewrite !length_map. }
    rewrite HL. clear HL.
    rewrite bucket_tensors_map.
    rewrite (fold_strict_add_pointwise (w:=w)); [|intros; apply row_length|assumption].
    cbn [bind]. unfold Torch.map3. rewrite pointwise_map.
    f_equal. apply pointwise_ext.
    apply Forall_forall. intros r _. apply Forall_forall. intros ids _.
    rewrite bucket_rows_map, length_map. reflexivity. }
  rewrite H1. clear H1. cbn [bind].
  assert (Hg1 : forall ids, length (g1 ids) = w).
  { intros ids. subst g1. cbv beta.
    destruct (is_empty (map (stream_row ids) A)).
    - apply row_length.
    - rewrite length_map. apply fold_zip_length; [apply row_length|].
      apply Forall_map. rewrite Forall_map in HwA.
      eapply Forall_impl; [|exact HwA]. intros it Hit. apply Hit. }
  rewrite foldM_guard, bucket_tensors_map.
  rewrite (fold_tensor_add_pointwise (w:=w)); [|assumption|assumption].
  cbn [bind].
  destruct K as [|k K'] eqn:EK.
  - simpl. f_equal. apply pointwise_ext.
    apply Forall_forall. intros r _. apply Forall_forall. intros ids _.
    now rewrite bucket_rows_map.
  - change (is_empty (bucket_tensors data (k :: K'))) with false. cbv iota.
    unfold Torch.cat_last.
    rewrite !bucket_tensors_map, fold_cat_pointwise.
    f_equal. apply pointwise_ext.
    apply Forall_forall. intros r _. apply Forall_forall. intros ids _.
    now rewrite !bucket_rows_map.
Qed.
End EmbeddingLemmas.

(** ** The object [Embedding.__init__] builds *)

Lemma enumerate_combine_maps {A B D : Type} (f : nat * A -> B) (g : nat * A -> D)
    (l : list A) (s : nat) :
  enumerate (combine (map f (enumerate l s)) (map g (enumerate l s))) s
  = map (fun ia => (fst ia, (f ia, g ia))) (enumerate l s).
Proof.
  unfold enumerate. revert s. induction l as [|x l IH]; intros s; simpl; [reflexivity|].
  f_equal. apply IH.
Qed.

Lemma combine_map_same {A B D : Type} (f : A -> B) (g : A -> D) (l : list A) :
  combine (map f l) (map g l) = map (fun x => (f x, g x)) l.
Proof.
  induction l as [|x l IH]; simpl; [reflexivity|]. now rewrite IH.
Qed.

Lemma filter_map_comm {A B : Type} (p : B -> bool) (f : A -> B) (l : list A) :
  filter p (map f l) = map f (filter (fun x => p (f x)) l).
Proof.
  induction l as [|x l IH]; simpl; [reflexivity|].
  destruct (p (f x)); simpl; now rewrite IH.
Qed.

Lemma filter_enumerate {A : Type} (p : A -> bool) (l : list A) (s : nat) :
  map snd (filter (fun ia => p (snd ia)) (enumerate l s)) = filter p l.
Proof.
  unfold enumerate. revert s. induction l as [|x l IH]; intros s; simpl; [reflexivity|].
  destruct (p x); simpl; now rewrite IH.
Qed.

Section InitLemmas.
Context {T : Type} {DT : DType T}.
Variable C : Constants.
Variables (cfg : EmbeddingConfig.t) (emb : option (Torch.nnEmbedding T))
          (params : nat -> nat -> nat -> T).

Lemma init_streams :
  streams (Embedding.__init__ cfg emb params)
  = map (fun ifc =>
           (fst ifc,
            (factor_table cfg params
               (Embedding.embedding (Embedding.__init__ cfg emb params)) ifc,
             FactorConfig.combine (snd ifc))))
        (enumerate (factor_list cfg) 1).
Proof.
  unfold streams, Embedding.__init__, factor_list, factor_table.
  cbn [Embedding.factor_embeds Embedding.factor_combinations Embedding.embedding].
  destruct (EmbeddingConfig.factor_configs cfg) as [fcs|]; [|reflexivity].
  etransitivity; [apply enumerate_combine_maps|].
  apply map_ext. intros [i fc]. reflexivity.
Qed.

Lemma init_num_factors :
  Embedding.num_factors (Embedding.__init__ cfg emb params)
  = 1 + length (streams (Embedding.__init__ cfg emb params)).
Proof.
  rewrite init_streams, length_map. unfold enumerate.
  rewrite length_combine, length_seq, Nat.min_id.
  unfold Embedding.__init__, factor_list, EmbeddingConfig.num_factors. cbn.
  now destruct (EmbeddingConfig.factor_configs cfg).
Qed.

Lemma init_primary_dim :
  given_table_fits cfg emb ->
  Torch.embedding_dim (Embedding.embedding (Embedding.__init__ cfg emb params))
  = EmbeddingConfig.num_embed cfg.
Proof.
  unfold given_table_fits, Embedding.__init__. cbn.
  destruct emb; [intros H; exact H|reflexivity].
Qed.

Lemma init_factor_dim (ifc : nat * FactorConfig.t) :
  given_table_fits cfg emb ->
  Torch.embedding_dim
    (factor_table cfg params (Embedding.embedding (Embedding.__init__ cfg emb params)) ifc)
  = factor_width cfg (snd ifc).
Proof.
  intros H. unfold factor_table, factor_width.
  destruct (FactorConfig.share_embedding (snd ifc)); [now apply init_primary_dim|reflexivity].
Qed.
End InitLemmas.

(** ** The combination at one position against the specification *)

Section SpecLemmas.
Context {T : Type} {DT : DType T}.
Variable C : Constants.

Lemma distinct_is_sum (m : string) :
  distinct_modes C -> is_sum C m = String.eqb m (FACTORS_COMBINE_SUM C).
Proof.
  intros [H1 [H2 H3]]. unfold is_sum.
  destruct (String.eqb_spec m (FACTORS_COMBINE_CONCAT C)) as [E1|E1];
    destruct (String.eqb_spec m (FACTORS_COMBINE_SUM C)) as [E2|E2];
    try reflexivity.
  exfalso. apply H1. congruence.
Qed.

Lemma distinct_is_average (m : string) :
  distinct_modes C -> is_average C m = String.eqb m (FACTORS_COMBINE_AVERAGE C).
Proof.
  intros [H1 [H2 H3]]. unfold is_average.
  destruct (String.eqb_spec m (FACTORS_COMBINE_CONCAT C)) as [E1|E1];
    destruct (String.eqb_spec m (FACTORS_COMBINE_SUM C)) as [E2|E2];
    destruct (String.eqb_spec m (FACTORS_COMBINE_AVERAGE C)) as [E3|E3];
    try reflexivity; exfalso; [apply H2|apply H2|apply H3]; congruence.
Qed.

Lemma fold_app_concat (rows : list (list T)) (v : list T) :
  fold_left (@app T) rows v = v ++ concat rows.
Proof.
  revert v. induction rows as [|r rows IH]; intros v; simpl.
  - now rewrite app_nil_r.
  - now rewrite IH, app_assoc.
Qed.

Lemma bucket_rows_sum (self : Embedding.t T) (ids : list Z) :
  distinct_modes C ->
  bucket_rows (is_sum C) (streams self) ids = rows_of_mode (FACTORS_COMBINE_SUM C) self ids.
Proof.
  intros HC. unfold bucket_rows, rows_of_mode. f_equal.
  apply filter_ext. intros it. now apply distinct_is_sum.
Qed.

Lemma bucket_rows_average (self : Embedding.t T) (ids : list Z) :
  distinct_modes C ->
  bucket_rows (is_average C) (streams self) ids
  = rows_of_mode (FACTORS_COMBINE_AVERAGE C) self ids.
Proof.
  intros HC. unfold bucket_rows, rows_of_mode. f_equal.
  apply filter_ext. intros it. now apply distinct_is_average.
Qed.

Lemma mean_rows_single (v : list T) :
  (forall x : T, div_count x 1 = x) -> mean_rows [v] = v.
Proof.
  intros H1. unfold mean_rows. simpl.
  rewrite (map_ext _ (fun x => x)) by exact H1. apply map_id.
Qed.

Lemma embed_position_spec (self : Embedding.t T) (ids : list Z) :
  distinct_modes C ->
  (forall x : T, div_count x 1 = x) ->
  Embedding.num_factors self = 1 + length (streams self) ->
  embed_position C self ids = spec_position C self ids.
Proof.
  intros HC H1 Hn. unfold embed_position, spec_position.
  destruct (1 <? Embedding.num_factors self) eqn:E.
  - rewrite bucket_rows_sum, bucket_rows_average by assumption.
    rewrite fold_app_concat. f_equal. f_equal.
    destruct (rows_of_mode (FACTORS_COMBINE_AVERAGE C) self ids) as [|a l].
    + simpl is_empty. cbv iota. now rewrite mean_rows_single.
    + reflexivity.
  - apply Nat.ltb_ge in E.
    assert (Hs : streams self = []) by (apply length_zero_iff_nil; lia).
    unfold rows_of_mode. rewrite Hs.
    change (Torch.row (Embedding.embedding self) (nth 0 ids 0%Z)
            = mean_rows [Torch.row (Embedding.embedding self) (nth 0 ids 0%Z)] ++ []).
    now rewrite mean_rows_single, app_nil_r.
Qed.
End SpecLemmas.

(** ** Claims on [Embedding.forward] *)

(** C2. Before the dropout, [Embedding.forward] returns, at every position,
    the elementwise mean of the primary embedding stacked with the
    average-mode factor embeddings, plus every sum-mode factor embedding,
    followed along the feature axis by every concatenate-mode factor
    embedding: [forward_spec] words the combination this way, averaging and
    summing before concatenating. *)
Theorem embedding_forward_is_mean_sum_then_concat
    (T : Type) (DT : DType T) (C : Constants)
    (cfg : EmbeddingConfig.t) (emb : option (Torch.nnEmbedding T))
    (params : nat -> nat -> nat -> T) (data : list (list (list Z))) :
  distinct_modes C ->
  (forall x : T, div_count x 1 = x) ->
  known_modes C (Embedding.__init__ cfg emb params) ->
  widths_agree C (Embedding.__init__ cfg emb params) ->
  valid_data (Embedding.__init__ cfg emb params) data ->
  Embedding.forward_embedded C (Embedding.__init__ cfg emb params) data
  = Ok (forward_spec C (Embedding.__init__ cfg emb params) data).
Proof.
  intros HC H1 Hm Hw Hv.
  rewrite (forward_embedded_pointwise Hm Hw Hv).
  f_equal. unfold forward_spec. apply pointwise_ext.
  apply Forall_forall. intros r _. apply Forall_forall. intros ids _.
  apply embed_position_spec; try assumption.
  apply init_num_factors.
Qed.

(** ** Feature width of the output *)

Lemma same_shape_width {T : Type} (n : nat) (x y : Torch.tensor3 T) :
  same_shape y x -> all_width n x -> all_width n y.
Proof.
  unfold same_shape, all_width. intros H. induction H as [|ry rx y' x' Hr _ IH]; intros Hx.
  - constructor.
  - inversion Hx as [|? ? Hrx Hx']; subst. constructor; [|now apply IH].
    clear IH Hx Hx'. induction Hr as [|v u ry' rx' Hl _ IH]; [constructor|].
    inversion Hrx; subst. constructor; [congruence|now apply IH].
Qed.

Lemma pointwise_width {A T : Type} (n : nat) (g : A -> list T) (data : list (list A)) :
  (forall x, length (g x) = n) -> all_width n (pointwise g data).
Proof.
  intros H. unfold all_width, pointwise.
  apply Forall_map, Forall_forall. intros r _.
  apply Forall_map, Forall_forall. intros x _. apply H.
Qed.

Lemma filter_none {A : Type} (p : A -> bool) (l : list A) :
  Forall (fun x => p x = false) l -> filter p l = [].
Proof.
  induction 1 as [|x l Hx _ IH]; simpl; [reflexivity|]. now rewrite Hx.
Qed.

Section WidthLemmas.
Context {T : Type} {DT : DType T}.
Variable C : Constants.

Lemma bucket_rows_width (p : string -> bool) (self : Embedding.t T) (ids : list Z) :
  (forall m, p m = true -> is_concat C m = false) ->
  widths_agree C self ->
  Forall (fun r : list T => length r = Torch.embedding_dim (Embedding.embedding self))
         (bucket_rows p (streams self) ids).
Proof.
  intros Hp Hw. unfold bucket_rows. apply Forall_map, Forall_forall.
  intros it Hin. apply filter_In in Hin. destruct Hin as [Hin Hpm].
  unfold stream_row. rewrite row_length.
  unfold widths_agree in Hw. rewrite Forall_forall in Hw. apply Hw; [assumption|].
  now apply Hp.
Qed.

Lemma embed_position_length (self : Embedding.t T) (ids : list Z) :
  widths_agree C self ->
  Embedding.num_factors self = 1 + length (streams self) ->
  length (embed_position C self ids)
  = Torch.embedding_dim (Embedding.embedding self) + concat_tables_width C self.
Proof.
  intros Hw Hn. unfold embed_position, concat_tables_width.
  destruct (1 <? Embedding.num_factors self) eqn:E.
  - rewrite fold_app_concat, length_app, length_concat. f_equal.
    + apply fold_zip_length.
      * destruct (is_empty (bucket_rows (is_average C) (streams self) ids)).
        -- apply row_length.
        -- rewrite length_map. apply fold_zip_length; [apply row_length|].
           apply bucket_rows_width; [|assumption].
           intros m. unfold is_average, is_concat. now destruct (String.eqb _ _).
      * apply bucket_rows_width; [|assumption].
        intros m. unfold is_sum, is_concat. now destruct (String.eqb _ _).
    + unfold bucket_rows. rewrite map_map. f_equal.
      apply map_ext. intros it. apply row_length.
  - apply Nat.ltb_ge in E.
    assert (Hs : streams self = []) by (apply length_zero_iff_nil; lia).
    rewrite Hs. simpl. now rewrite row_length, Nat.add_0_r.
Qed.

Lemma init_concat_width (cfg : EmbeddingConfig.t) (emb : option (Torch.nnEmbedding T))
    (params : nat -> nat -> nat -> T) :
  given_table_fits cfg emb ->
  concat_tables_width C (Embedding.__init__ cfg emb params)
  = list_sum (map (factor_width cfg)
                  (filter (fun fc => is_concat C (FactorConfig.combine fc))
                          (factor_list cfg))).
Proof.
  intros Hfit. unfold concat_tables_width.
  rewrite init_streams, filter_map_comm, map_map.
  unfold stream_table, stream_mode. cbn [fst snd].
  rewrite <- (filter_enumerate (fun fc => is_concat C (FactorConfig.combine fc))
                (factor_list cfg) 1).
  rewrite map_map. f_equal. apply map_ext. intros ifc.
  now apply init_factor_dim.
Qed.
End WidthLemmas.

Lemma example_output :
  @Embedding.forward_embedded Z Z_dtype spec_modes
    (Embedding.__init__ (example_config 0) None example_params) example_data
  = Ok [[[240; 242; 300; 301; 302; 40; 41]; [200; 202; 300; 301; 302; 0; 1]]]%Z.
Proof. reflexivity. Qed.

Lemma spec_modes_distinct : distinct_modes spec_modes.
Proof. unfold distinct_modes, spec_modes; cbn. repeat split; discriminate. Qed.

Lemma example_known_modes (p : float) :
  known_modes spec_modes (@Embedding.__init__ Z (example_config p) None example_params).
Proof.
  unfold known_modes. cbn.
  repeat apply Forall_cons; try apply Forall_nil; unfold known_mode; cbn; auto.
Qed.

Lemma example_widths_agree (p : float) :
  widths_agree spec_modes (@Embedding.__init__ Z (example_config p) None example_params).
Proof.
  unfold widths_agree. cbn. repeat constructor; cbn; try reflexivity; discriminate.
Qed.

Lemma example_valid_data (p : float) :
  valid_data (@Embedding.__init__ Z (example_config p) None example_params) example_data.
Proof.
  unfold valid_data, valid_position, stream_valid, in_range. cbn.
  repeat constructor; cbn; lia.
Qed.

Lemma embedding_forward_is_mean_sum_then_concat_witness :
  @Embedding.forward_embedded Z Z_dtype spec_modes
    (Embedding.__init__ (example_config 0) None example_params) example_data
  = Ok (@forward_spec Z Z_dtype spec_modes
          (Embedding.__init__ (example_config 0) None example_params) example_data).
Proof.
  apply (@embedding_forward_is_mean_sum_then_concat Z Z_dtype spec_modes
           (example_config 0) None example_params example_data).
  - exact spec_modes_distinct.
  - intros x. cbn. apply Z.div_1_r.
  - apply example_known_modes.
  - apply example_widths_agree.
  - apply example_valid_data.
Defined.

Lemma map3_same_shape {T : Type} (f : T -> T) (x : Torch.tensor3 T) :
  same_shape (Torch.map3 f x) x.
Proof.
  unfold same_shape, Torch.map3.
  induction x as [|r x IH]; simpl; constructor; [|exact IH].
  clear IH. induction r as [|v r IH]; simpl; constructor; [|exact IH].
  apply length_map.
Qed.

Lemma pointwise_same_outer {A B : Type} (g : A -> B) (data : list (list A)) :
  same_outer data (pointwise g data).
Proof.
  unfold same_outer, pointwise.
  induction data as [|r data IH]; simpl; constructor; [apply length_map|exact IH].
Qed.

Lemma same_shape_outer {T A : Type} (data : list (list A)) (out pre : Torch.tensor3 T) :
  same_shape out pre -> same_outer data pre -> same_outer data out.
Proof.
  unfold same_shape, same_outer. intros H. revert data.
  induction H as [|o p out pre Hop H IH]; intros data Hd; inversion Hd; subst;
    constructor; [|now apply IH].
  rewrite (Forall2_length Hop). assumption.
Qed.

(** [forward] succeeds on a valid input; its output has the batch and
    sequence axes of the input and its vectors have one width. *)
Lemma forward_all_width
    (T : Type) (DT : DType T) (RT : Runtime T) (C : Constants)
    (cfg : EmbeddingConfig.t) (emb : option (Torch.nnEmbedding T))
    (params : nat -> nat -> nat -> T) (data : list (list (list Z))) (rng : RNG) :
  (forall p x r, same_shape (fst (Dropout_forward p x r)) x) ->
  given_table_fits cfg emb ->
  known_modes C (Embedding.__init__ cfg emb params) ->
  widths_agree C (Embedding.__init__ cfg emb params) ->
  valid_data (Embedding.__init__ cfg emb params) data ->
  exists out rng',
    Embedding.forward C (Embedding.__init__ cfg emb params) data rng = Ok (out, rng') /\
    same_outer data out /\
    all_width (EmbeddingConfig.num_embed cfg
               + list_sum (map (factor_width cfg)
                             (filter (fun fc => is_concat C (FactorConfig.combine fc))
                                     (factor_list cfg)))) out.
Proof.
  intros Hd Hfit Hm Hw Hv.
  set (self := Embedding.__init__ cfg emb params) in *.
  set (n := EmbeddingConfig.num_embed cfg
            + list_sum (map (factor_width cfg)
                          (filter (fun fc => is_concat C (FactorConfig.combine fc))
                                  (factor_list cfg)))).
  assert (Hpre : all_width n (pointwise (embed_position C self) data)).
  { apply pointwise_width. intros ids.
    rewrite embed_position_length; [|assumption|apply init_num_factors].
    unfold n, self. rewrite init_primary_dim, (init_concat_width C) by assumption.
    reflexivity. }
  unfold Embedding.forward. rewrite (forward_embedded_pointwise Hm Hw Hv). cbn [bind].
  destruct (Embedding.dropout self) as [p|].
  - destruct (Dropout_forward p (pointwise (embed_position C self) data) rng)
      as [out rng'] eqn:E.
    exists out, rng'. split; [reflexivity|].
    specialize (Hd p (pointwise (embed_position C self) data) rng).
    rewrite E in Hd. cbn [fst] in Hd. split.
    + apply same_shape_outer with (pre := pointwise (embed_position C self) data);
        [assumption|apply pointwise_same_outer].
    + apply same_shape_width with (x := pointwise (embed_position C self) data);
        assumption.
  - eexists; eexists; split; [reflexivity|].
    split; [apply pointwise_same_outer|assumption].
Qed.

(** C3. On a valid input, when the summed and averaged factors have tables
    of the primary width and a pre-existing primary table has the configured
    width, [Embedding.forward] returns a tensor over the batch and sequence
    axes of the input whose vectors have width [num_embed] plus the widths
    of the embeddings of the concatenated factors, hence [num_embed] when no
    factor is concatenated. The width of a factor's embedding is that of the
    table it looks up. *)
Theorem embedding_forward_width
    (T : Type) (DT : DType T) (RT : Runtime T) (C : Constants)
    (cfg : EmbeddingConfig.t) (emb : option (Torch.nnEmbedding T))
    (params : nat -> nat -> nat -> T) (data : list (list (list Z))) (rng : RNG) :
  (forall p x r, same_shape (fst (Dropout_forward p x r)) x) ->
  given_table_fits cfg emb ->
  known_modes C (Embedding.__init__ cfg emb params) ->
  widths_agree C (Embedding.__init__ cfg emb params) ->
  valid_data (Embedding.__init__ cfg emb params) data ->
  exists out rng',
    Embedding.forward C (Embedding.__init__ cfg emb params) data rng = Ok (out, rng') /\
    same_outer data out /\
    all_width (EmbeddingConfig.num_embed cfg
               + list_sum (map (factor_width cfg)
                             (filter (fun fc => is_concat C (FactorConfig.combine fc))
                                     (factor_list cfg)))) out /\
    (Forall (fun fc => is_concat C (FactorConfig.combine fc) = false) (factor_list cfg) ->
     all_width (EmbeddingConfig.num_embed cfg) out).
Proof.
  intros Hd Hfit Hm Hw Hv.
  destruct (@forward_all_width T DT RT C cfg emb params data rng Hd Hfit Hm Hw Hv)
    as [out [rng' [Hout [Hs Hn]]]].
  exists out, rng'. repeat split; try assumption.
  intros Hnone. rewrite (filter_none _ Hnone) in Hn.
  cbn in Hn. now rewrite Nat.add_0_r in Hn.
Qed.

Lemma embedding_forward_width_witness :
  exists out rng',
    @Embedding.forward Z Z_dtype Z_runtime spec_modes
      (Embedding.__init__ (example_config 0.5) None example_params) example_data 1
    = Ok (out, rng') /\
    same_outer example_data out /\
    all_width (2 + list_sum (map (factor_width (example_config 0.5))
                               (filter (fun fc => is_concat spec_modes (FactorConfig.combine fc))
                                       (factor_list (example_config 0.5))))) out /\
    (Forall (fun fc => is_concat spec_modes (FactorConfig.combine fc) = false)
            (factor_list (example_config 0.5)) ->
     all_width 2 out).
Proof.
  apply (@embedding_forward_width Z Z_dtype Z_runtime spec_modes
           (example_config 0.5) None example_params example_data 1%nat).
  - intros p x r. apply map3_same_shape.
  - exact I.
  - apply example_known_modes.
  - apply example_widths_agree.
  - apply example_valid_data.
Defined.

(** Without the two conditions on the tables the width is not the
    configured one although every index lies inside its table and no factor
    is concatenated: a primary width of 1 with a summed factor of width 3
    gives vectors of width 3 (the sum broadcasts), and a pre-existing table
    of width 3 under a configured [num_embed] of 8 gives vectors of width 3. *)
Lemma embedding_width_counterexample :
  (known_modes spec_modes (@Embedding.__init__ Z narrow_primary_config None example_params) /\
   valid_data (@Embedding.__init__ Z narrow_primary_config None example_params) [[[1; 2]]]%Z /\
   Forall (fun fc => is_concat spec_modes (FactorConfig.combine fc) = false)
          (factor_list narrow_primary_config) /\
   @Embedding.forward Z Z_dtype Z_runtime spec_modes
     (Embedding.__init__ narrow_primary_config None example_params) [[[1; 2]]]%Z 0
   = Ok ([[[130; 131; 132]]]%Z, 0) /\
   ~ all_width (EmbeddingConfig.num_embed narrow_primary_config) [[[130; 131; 132]]]%Z) /\
  (known_modes spec_modes (@Embedding.__init__ Z plain_config (Some given_table) example_params) /\
   widths_agree spec_modes (@Embedding.__init__ Z plain_config (Some given_table) example_params) /\
   valid_data (@Embedding.__init__ Z plain_config (Some given_table) example_params) [[[3]]]%Z /\
   Forall (fun fc => is_concat spec_modes (FactorConfig.combine fc) = false)
          (factor_list plain_config) /\
   @Embedding.forward Z Z_dtype Z_runtime spec_modes
     (Embedding.__init__ plain_config (Some given_table) example_params) [[[3]]]%Z 0
   = Ok ([[[30; 31; 32]]]%Z, 0) /\
   ~ all_width (EmbeddingConfig.num_embed plain_config) [[[30; 31; 32]]]%Z).
Proof.
  split.
  - split; [|split; [|split; [|split]]].
    + unfold known_modes. cbn. repeat apply Forall_cons; try apply Forall_nil.
      unfold known_mode. cbn. auto.
    + unfold valid_data, valid_position, stream_valid, in_range.
      repeat apply Forall_cons; try apply Forall_nil; cbn; repeat split; try lia;
        repeat apply Forall_cons; try apply Forall_nil; cbn; repeat split; lia.
    + cbn. repeat apply Forall_cons; try apply Forall_nil; reflexivity.
    + vm_compute. reflexivity.
    + unfold all_width. intros H. inversion H as [|r t Hr Ht]; subst.
      inversion Hr as [|v s Hv Hs]; subst. cbn in Hv. discriminate.
  - split; [|split; [|split; [|split; [|split]]]].
    + unfold known_modes. cbn. apply Forall_nil.
    + unfold widths_agree. cbn. apply Forall_nil.
    + unfold valid_data, valid_position, stream_valid, in_range.
      repeat apply Forall_cons; try apply Forall_nil; cbn; repeat split; try lia;
        repeat apply Forall_cons; try apply Forall_nil; cbn; repeat split; lia.
    + cbn. apply Forall_nil.
    + vm_compute. reflexivity.
    + unfold all_width. intros H. inversion H as [|r t Hr Ht]; subst.
      inversion Hr as [|v s Hv Hs]; subst. cbn in Hv. discriminate.
Qed.

(** ** Shared embedding tables *)

Lemma nth_error_enumerate {A : Type} (l : list A) (s k : nat) (x : A) :
  nth_error l k = Some x -> nth_error (enumerate l s) k = Some (s + k, x).
Proof.
  unfold enumerate. revert s k. induction l as [|y l IH]; intros s [|k] H; simpl in *;
    try discriminate.
  - inversion H; subst. now rewrite Nat.add_0_r.
  - rewrite (IH (S s) k H). f_equal. f_equal. lia.
Qed.


Lemma init_factor_embeds {T : Type} (cfg : EmbeddingConfig.t)
    (emb : option (Torch.nnEmbedding T)) (params : nat -> nat -> nat -> T) :
  Embedding.factor_embeds (Embedding.__init__ cfg emb params)
  = map (factor_table cfg params (Embedding.embedding (Embedding.__init__ cfg emb params)))
        (enumerate (factor_list cfg) 1).
Proof.
  unfold Embedding.__init__, factor_list, factor_table.
  cbn [Embedding.factor_embeds Embedding.embedding].
  destruct (EmbeddingConfig.factor_configs cfg) as [fcs|]; [|reflexivity].
  apply map_ext. intros [i fc]. reflexivity.
Qed.

(** ** Exceptions of [Embedding.forward] *)

Lemma raises_bind {A B : Type} (P : error -> Prop) (c : result A) (k : A -> result B) :
  raises_only P c -> (forall a, raises_only P (k a)) -> raises_only P (bind c k).
Proof.
  intros Hc Hk e. destruct c as [a|e']; simpl.
  - apply Hk.
  - intros H. apply Hc. inversion H; subst. reflexivity.
Qed.

Lemma raises_ok {A : Type} (P : error -> Prop) (a : A) : raises_only P (Ok a).
Proof. intros e H. discriminate. Qed.

Lemma raises_mapM {A B : Type} (P : error -> Prop) (f : A -> result B) (l : list A) :
  (forall x, raises_only P (f x)) -> raises_only P (mapM f l).
Proof.
  intros Hf. induction l as [|x l IH]; simpl.
  - apply raises_ok.
  - apply raises_bind; [apply Hf|]. intros y.
    apply raises_bind; [exact IH|]. intros ys. apply raises_ok.
Qed.

Lemma raises_zipM {A B D : Type} (P : error -> Prop) (h : A -> B -> result D)
    (l1 : list A) (l2 : list B) :
  P RuntimeError -> (forall x y, raises_only P (h x y)) -> raises_only P (zipM h l1 l2).
Proof.
  intros HR Hh. revert l2. induction l1 as [|x l1 IH]; intros [|y l2]; simpl.
  - apply raises_ok.
  - intros e H. inversion H; subst. exact HR.
  - intros e H. inversion H; subst. exact HR.
  - apply raises_bind; [apply Hh|]. intros z.
    apply raises_bind; [apply IH|]. intros zs. apply raises_ok.
Qed.

Lemma raises_foldM {A B : Type} (P : error -> Prop) (f : A -> B -> result A)
    (l : list B) (a : A) :
  (forall a' x, In x l -> raises_only P (f a' x)) -> raises_only P (foldM f l a).
Proof.
  revert a. induction l as [|x l IH]; intros a Hf; simpl.
  - apply raises_ok.
  - apply raises_bind; [apply Hf; now left|]. intros a'.
    apply IH. intros a'' y Hy. apply Hf. now right.
Qed.

Section RaiseLemmas.
Context {T : Type} {DT : DType T}.
Variable C : Constants.

Lemma raises_select_last (data : list (list (list Z))) (i : nat) :
  raises_only runtime_error (Torch.select_last data i).
Proof.
  unfold Torch.select_last. apply raises_mapM. intros r. apply raises_mapM. intros ids.
  destruct (nth_error ids i); [apply raises_ok|].
  intros e H. inversion H; subst. now left.
Qed.

Lemma raises_embedding_forward (e : Torch.nnEmbedding T) (ids : list (list Z)) :
  raises_only runtime_error (Torch.embedding_forward e ids).
Proof.
  unfold Torch.embedding_forward. apply raises_mapM. intros r. apply raises_mapM.
  intros id. unfold Torch.lookup.
  destruct (_ && _); [apply raises_ok|].
  intros e' H. inversion H; subst. now left.
Qed.

Lemma raises_strict3 (f : T -> T -> T) (a b : Torch.tensor3 T) :
  raises_only runtime_error (Torch.strict3 f a b).
Proof.
  unfold Torch.strict3.
  apply raises_zipM; [now right|]. intros r1 r2.
  apply raises_zipM; [now right|]. intros u v.
  apply raises_zipM; [now right|]. intros x y. apply raises_ok.
Qed.

Lemma raises_mean_stack (ts : list (Torch.tensor3 T)) :
  raises_only runtime_error (Torch.mean_stack ts).
Proof.
  unfold Torch.mean_stack. destruct ts as [|t rest].
  - intros e H. inversion H; subst. now right.
  - apply raises_bind.
    + apply raises_foldM. intros a x _. apply raises_strict3.
    + intros s. apply raises_ok.
Qed.

Lemma raises_tensor_add (a b : Torch.tensor3 T) :
  raises_only runtime_error (Torch.tensor_add a b).
Proof.
  unfold Torch.tensor_add.
  apply raises_zipM; [now right|]. intros r1 r2.
  apply raises_zipM; [now right|]. intros u v.
  unfold Torch.add_broadcast.
  destruct (Nat.eqb _ _); [apply raises_ok|].
  destruct u as [|x [|x' u]]; destruct v as [|y [|y' v]];
    try apply raises_ok; intros e H; inversion H; subst; now right.
Qed.

Lemma raises_cat_last (ts : list (Torch.tensor3 T)) :
  raises_only runtime_error (Torch.cat_last ts).
Proof.
  unfold Torch.cat_last. destruct ts as [|t rest].
  - intros e H. inversion H; subst. now right.
  - apply raises_foldM. intros a x _.
    apply raises_zipM; [now right|]. intros r1 r2.
    apply raises_zipM; [now right|]. intros u v. apply raises_ok.
Qed.

Lemma raises_loop_body (data : list (list (list Z))) (b : Embedding.buckets)
    (it : stream (T:=T)) :
  known_mode C (stream_mode it) ->
  raises_only runtime_error (Embedding.loop_body C data b it).
Proof.
  destruct it as [i [e m]]. unfold stream_mode. cbn [snd]. intros Hm.
  unfold Embedding.loop_body.
  apply raises_bind; [apply raises_select_last|]. intros factor_data.
  apply raises_bind; [apply raises_embedding_forward|]. intros factor_embedded.
  apply known_mode_branch in Hm. unfold is_concat, is_sum, is_average in Hm.
  destruct (String.eqb m (FACTORS_COMBINE_CONCAT C)); [apply raises_ok|].
  destruct (String.eqb m (FACTORS_COMBINE_SUM C)); [apply raises_ok|].
  destruct (String.eqb m (FACTORS_COMBINE_AVERAGE C)); [apply raises_ok|].
  simpl in Hm. destruct Hm as [H|[H|H]]; discriminate.
Qed.

Lemma loop_body_unknown (data : list (list (list Z))) (b : Embedding.buckets)
    (it : stream (T:=T)) :
  ~ known_mode C (stream_mode it) ->
  exists e, Embedding.loop_body C data b it = Raise e.
Proof.
  destruct it as [i [e m]]. unfold stream_mode, known_mode. cbn [snd]. intros Hm.
  unfold Embedding.loop_body.
  destruct (Torch.select_last data i) as [fd|e1]; [|now exists e1]. cbn [bind].
  destruct (Torch.embedding_forward e fd) as [fe|e2]; [|now exists e2]. cbn [bind].
  destruct (String.eqb_spec m (FACTORS_COMBINE_CONCAT C)); [exfalso; auto|].
  destruct (String.eqb_spec m (FACTORS_COMBINE_SUM C)); [exfalso; auto|].
  destruct (String.eqb_spec m (FACTORS_COMBINE_AVERAGE C)); [exfalso; auto|].
  eexists. reflexivity.
Qed.

Lemma loop_raises (data : list (list (list Z))) (its : list (stream (T:=T))) :
  Exists (fun it => ~ known_mode C (stream_mode it)) its ->
  forall b, exists e, foldM (Embedding.loop_body C data) its b = Raise e.
Proof.
  induction 1 as [it its Hit|it its _ IH]; intros b; simpl.
  - destruct (loop_body_unknown data b it Hit) as [e He]. rewrite He. now exists e.
  - destruct (Embedding.loop_body C data b it) as [b'|e]; [apply IH|now exists e].
Qed.

Lemma forward_embedded_raises (self : Embedding.t T) (data : list (list (list Z))) :
  Embedding.num_factors self = 1 + length (streams self) ->
  Exists (fun it => ~ known_mode C (stream_mode it)) (streams self) ->
  exists e, Embedding.forward_embedded C self data = Raise e.
Proof.
  intros Hn Hex. unfold Embedding.forward_embedded.
  destruct (Torch.select_last data 0) as [pd|e1]; [|now exists e1]. cbn [bind].
  destruct (Torch.embedding_forward (Embedding.embedding self) pd) as [em|e2];
    [|now exists e2].
  cbn [bind].
  assert (E : (1 <? Embedding.num_factors self) = true).
  { apply Nat.ltb_lt. rewrite Hn. inversion Hex; subst; simpl; lia. }
  rewrite E. fold (streams self).
  destruct (loop_raises data Hex
              {| Embedding.average_factors_embeds := [];
                 Embedding.concat_factors_embeds := [];
                 Embedding.sum_factors_embeds := [] |}) as [e He].
  rewrite He. now exists e.
Qed.

Lemma forward_embedded_runtime_errors (self : Embedding.t T) (data : list (list (list Z))) :
  known_modes C self ->
  raises_only runtime_error (Embedding.forward_embedded C self data).
Proof.
  intros Hm. unfold Embedding.forward_embedded.
  apply raises_bind; [apply raises_select_last|]. intros pd.
  apply raises_bind; [apply raises_embedding_forward|]. intros em.
  destruct (1 <? Embedding.num_factors self); [|apply raises_ok].
  apply raises_bind.
  - apply raises_foldM. intros b it Hin. apply raises_loop_body.
    pose proof (streams_modes (P:=known_mode C) self Hm) as Hs.
    rewrite Forall_forall in Hs. now apply Hs.
  - intros b. apply raises_bind.
    + destruct (is_empty _); [apply raises_ok|apply raises_mean_stack].
    + intros em'. apply raises_bind.
      * rewrite foldM_guard. apply raises_foldM. intros a x _. apply raises_tensor_add.
      * intros em''. destruct (is_empty _); [apply raises_ok|apply raises_cat_last].
Qed.
End RaiseLemmas.

Lemma unknown_mode_example :
  @Embedding.forward Z Z_dtype Z_runtime spec_modes
    (Embedding.__init__ unknown_mode_config None example_params) [[[1; 2; 3]]]%Z 0
  = Raise (ValueError "Unknown combine value for factors: multiply").
Proof. reflexivity. Qed.

(** C5. A configuration with a combination mode outside the closed set
    makes [Embedding.forward] raise instead of returning an output (the
    constructor records the mode unchecked, the loop of [forward] rejects
    it); when every mode is in the set, [forward] never raises the
    [ValueError] of that branch. *)
Theorem unknown_combine_mode_fails
    (T : Type) (DT : DType T) (RT : Runtime T) (C : Constants)
    (cfg : EmbeddingConfig.t) (emb : option (Torch.nnEmbedding T))
    (params : nat -> nat -> nat -> T) :
  ((exists fc, In fc (factor_list cfg) /\ ~ known_mode C (FactorConfig.combine fc)) ->
   forall (data : list (list (list Z))) (rng : RNG),
   exists e, Embedding.forward C (Embedding.__init__ cfg emb params) data rng = Raise e) /\
  (Forall (fun fc => known_mode C (FactorConfig.combine fc)) (factor_list cfg) ->
   forall (data : list (list (list Z))) (rng : RNG) (msg : string),
     Embedding.forward C (Embedding.__init__ cfg emb params) data rng
     <> Raise (ValueError msg)).
Proof.
  split.
  - intros [fc [Hin Hfc]] data rng.
    destruct (@forward_embedded_raises T DT C (Embedding.__init__ cfg emb params) data)
      as [e He].
    + apply init_num_factors.
    + rewrite init_streams. apply Exists_exists.
      destruct (In_nth_error _ _ Hin) as [k Hk].
      exists (1 + k, (factor_table cfg params
                        (Embedding.embedding (Embedding.__init__ cfg emb params)) (1 + k, fc),
                      FactorConfig.combine fc)).
      split; [|exact Hfc].
      apply in_map_iff. exists (1 + k, fc). split; [reflexivity|].
      eapply nth_error_In. apply nth_error_enumerate. exact Hk.
    + exists e. unfold Embedding.forward. now rewrite He.
  - intros Hall data rng msg Hraise.
    assert (Hm : known_modes C (Embedding.__init__ cfg emb params)).
    { unfold known_modes, Embedding.__init__, factor_list in *.
      cbn [Embedding.factor_combinations].
      destruct (EmbeddingConfig.factor_configs cfg) as [fcs|]; [|constructor].
      apply Forall_map, Forall_forall. intros [i fc] Hin. cbn [snd].
      unfold enumerate in Hin. apply in_combine_r in Hin.
      rewrite Forall_forall in Hall. now apply Hall. }
    pose proof (@forward_embedded_runtime_errors T DT C _ data Hm) as Hrt.
    unfold Embedding.forward in Hraise.
    destruct (Embedding.forward_embedded C (Embedding.__init__ cfg emb params) data)
      as [out|e] eqn:E.
    + cbn [bind] in Hraise. destruct (Embedding.dropout _); discriminate.
    + cbn [bind] in Hraise. inversion Hraise; subst.
      destruct (Hrt _ eq_refl) as [H|H]; discriminate.
Qed.

Lemma unknown_combine_mode_fails_witness :
  (exists e,
     @Embedding.forward Z Z_dtype Z_runtime spec_modes
       (Embedding.__init__ unknown_mode_config None example_params) [[[1; 2; 3]]]%Z 0
     = Raise e) /\
  @Embedding.forward Z Z_dtype Z_runtime spec_modes
    (Embedding.__init__ (example_config 0) None example_params) example_data 0
  <> Raise (ValueError "Unknown combine value for factors: multiply").
Proof.
  split.
  - apply (proj1 (@unknown_combine_mode_fails Z Z_dtype Z_runtime spec_modes
                    unknown_mode_config None example_params)).
    exists (example_factor "multiply" 4 2 false). split.
    + cbn. right. left. reflexivity.
    + unfold known_mode. cbn. intros [H|[H|H]]; discriminate.
  - apply (proj2 (@unknown_combine_mode_fails Z Z_dtype Z_runtime spec_modes
                    (example_config 0) None example_params)).
    cbn. repeat apply Forall_cons; try apply Forall_nil; unfold known_mode; cbn; auto.
Defined.

(** ** The encoder interface *)

(** C6. [Embedding.get_num_hidden] returns the configured [num_embed],
    whatever the factors and their combination modes are, and
    [TransformerEncoder.get_num_hidden] returns the configured model width. *)
Theorem get_num_hidden_is_configured_width
    (T : Type) (DT : DType T) (RT : Runtime T) (CO : Collaborators T)
    (cfg : EmbeddingConfig.t) (emb : option (Torch.nnEmbedding T))
    (params : nat -> nat -> nat -> T)
    (tcfg : TransformerConfig.t) (inference_only : bool) :
  get_num_hidden (Embedding.__init__ cfg emb params) = EmbeddingConfig.num_embed cfg /\
  get_num_hidden (TransformerEncoder.__init__ tcfg inference_only)
  = TransformerConfig.model_size tcfg.
Proof. split; reflexivity. Qed.

(** With concatenated factors the vectors of the output are wider than
    [get_num_hidden] says. *)
Lemma get_num_hidden_ignores_concatenation :
  get_num_hidden (@Embedding.__init__ Z (example_config 0) None example_params) = 2 /\
  exists out,
    @Embedding.forward_embedded Z Z_dtype spec_modes
      (Embedding.__init__ (example_config 0) None example_params) example_data = Ok out /\
    all_width 7 out.
Proof.
  split; [reflexivity|]. eexists. split; [reflexivity|].
  unfold all_width. repeat constructor.
Qed.

(** C7, as the code has it. [get_max_seq_len] is the method of [Encoder],
    which neither encoder overrides: it returns [None] whatever maximum
    source length is configured. The constructor hands the configured
    maximum to the positional embeddings, as their [max_seq_len]. *)
Theorem get_max_seq_len_is_none
    (T : Type) (DT : DType T) (RT : Runtime T) (CO : Collaborators T)
    (cfg : EmbeddingConfig.t) (emb : option (Torch.nnEmbedding T))
    (params : nat -> nat -> nat -> T)
    (tcfg : TransformerConfig.t) (inference_only : bool) :
  get_max_seq_len (TransformerEncoder.__init__ tcfg inference_only) = None /\
  get_max_seq_len (Embedding.__init__ cfg emb params) = None /\
  Layers.max_seq_len (TransformerEncoder.pos_embedding
                        (TransformerEncoder.__init__ tcfg inference_only))
  = TransformerConfig.max_seq_len_source tcfg.
Proof. repeat split; reflexivity. Qed.

(** C7, as the claim states it, fails: an encoder configured with a maximum
    source length of 100 answers [None]. *)
Lemma get_max_seq_len_counterexample :
  ~ (forall tcfg : TransformerConfig.t,
       get_max_seq_len (@TransformerEncoder.__init__ Z Z_dtype Z_runtime
                          (Z_collaborators true) tcfg false)
       = Some (TransformerConfig.max_seq_len_source tcfg)).
Proof.
  intros H. specialize (H (example_transformer_config 0)). discriminate H.
Qed.

(** ** [TransformerEncoder.forward] *)

Section TransformerLemmas.
Context {T : Type} {DT : DType T} {RT : Runtime T} {CO : Collaborators T}.

(** What a returning [forward] returns beside the encoded sequence. *)
Lemma forward_returns (self : TransformerEncoder.t T) (data : Torch.tensor3 T)
    (valid_length : list Z) (rng : RNG)
    (enc : Torch.tensor3 T) (vl : list Z) (mask : list (list bool)) (rng' : RNG) :
  TransformerEncoder.forward self data valid_length rng = Ok (enc, vl, mask, rng') ->
  exists data1,
    PositionalEmbeddings_forward (TransformerEncoder.pos_embedding self) data = Ok data1 /\
    vl = valid_length /\
    mask = Layers.prepare_source_length_mask valid_length
             (TransformerConfig.attention_heads (TransformerEncoder.config self))
             (Torch.size1
                (fst match TransformerEncoder.dropout self with
                     | Some p => Dropout_forward p data1 rng
                     | None => (data1, rng)
                     end)).
Proof.
  unfold TransformerEncoder.forward. intros H.
  destruct (PositionalEmbeddings_forward (TransformerEncoder.pos_embedding self) data)
    as [data1|e]; [|discriminate].
  exists data1. split; [reflexivity|]. cbn [bind] in H.
  destruct (match TransformerEncoder.dropout self with
            | Some p => Dropout_forward p data1 rng
            | None => (data1, rng)
            end) as [data2 rng2].
  cbn [fst].
  destruct (foldM _ _ _) as [st|e]; [|discriminate]. cbn [bind] in H.
  destruct (TransformerProcessBlock_forward _ _ _) as [st'|e]; [|discriminate].
  cbn [bind] in H. inversion H; subst. split; reflexivity.
Qed.
End TransformerLemmas.

Lemma map_constant {A B : Type} (f : A -> B) (c : B) (l : list A) :
  (forall x, In x l -> f x = c) -> map f l = repeat c (length l).
Proof.
  induction l as [|x l IH]; intros H; simpl; [reflexivity|].
  rewrite H by now left. f_equal. apply IH. intros y Hy. apply H. now right.
Qed.

Lemma mask_row_length (len : Z) (n : nat) :
  length (map (fun j => (Z.of_nat j <? len)%Z) (seq 0 n)) = n.
Proof. now rewrite length_map, length_seq. Qed.

Lemma mask_row_nth (len : Z) (n j : nat) :
  j < n ->
  nth j (map (fun j => (Z.of_nat j <? len)%Z) (seq 0 n)) false = (Z.of_nat j <? len)%Z.
Proof.
  intros Hj.
  pose proof (map_nth (fun j => (Z.of_nat j <? len)%Z) (seq 0 n) 0 j) as H.
  cbv beta in H. rewrite seq_nth in H by exact Hj. cbn [Nat.add] in H.
  rewrite <- H. apply nth_indep. now rewrite length_map, length_seq.
Qed.

Lemma mask_row_prefix (len : Z) (n : nat) :
  (len <= Z.of_nat n)%Z ->
  map (fun j => (Z.of_nat j <? len)%Z) (seq 0 n)
  = repeat true (Z.to_nat len) ++ repeat false (n - Z.to_nat len).
Proof.
  intros Hle.
  replace n with (Z.to_nat len + (n - Z.to_nat len)) at 1 by lia.
  rewrite seq_app, map_app. f_equal.
  - rewrite (@map_constant _ _ _ true); [now rewrite length_seq|].
    intros j Hj. apply in_seq in Hj. apply Z.ltb_lt. lia.
  - rewrite (@map_constant _ _ _ false); [now rewrite length_seq|].
    intros j Hj. apply in_seq in Hj. apply Z.ltb_ge. lia.
Qed.

Lemma count_valid_prefix (a b : nat) :
  count_valid (repeat true a ++ repeat false b) = a.
Proof.
  unfold count_valid. rewrite filter_app, length_app.
  replace (filter (fun b0 : bool => b0) (repeat false b)) with (@nil bool).
  - replace (filter (fun b0 : bool => b0) (repeat true a)) with (repeat true a).
    + rewrite repeat_length. simpl. lia.
    + induction a; simpl; [reflexivity|]. now f_equal.
  - induction b; simpl; [reflexivity|assumption].
Qed.

(** C1. The third value of a returning [TransformerEncoder.forward] is the
    single-head mask of shape (batch, max_len), [max_len] being the sequence
    length of the input: row [i] marks position [j] valid exactly when
    [j < valid_length[i]], so with [valid_length[i] <= max_len] the valid
    positions are the first [valid_length[i]] ones and the rest is invalid.
    The positional embeddings and the dropout keep the shape of the data. *)
Theorem attention_mask_marks_valid_prefix
    (T : Type) (DT : DType T) (RT : Runtime T) (CO : Collaborators T)
    (self : TransformerEncoder.t T) (data : Torch.tensor3 T)
    (valid_length : list Z) (rng : RNG)
    (enc : Torch.tensor3 T) (vl : list Z) (mask : list (list bool)) (rng' : RNG) :
  (forall pe x y, PositionalEmbeddings_forward pe x = Ok y -> Torch.size1 y = Torch.size1 x) ->
  (forall p x r, Torch.size1 (fst (Dropout_forward p x r)) = Torch.size1 x) ->
  Forall (fun len => (len <= Z.of_nat (Torch.size1 data))%Z) valid_length ->
  TransformerEncoder.forward self data valid_length rng = Ok (enc, vl, mask, rng') ->
  length mask = length valid_length /\
  Forall2 (fun len row =>
             length row = Torch.size1 data /\
             (forall j, j < Torch.size1 data ->
                        nth j row false = true <-> (Z.of_nat j < len)%Z) /\
             row = repeat true (Z.to_nat len)
                   ++ repeat false (Torch.size1 data - Z.to_nat len) /\
             count_valid row = Z.to_nat len)
          valid_length mask.
Proof.
  intros Hpos Hdrop Hle Hfw.
  destruct (forward_returns _ _ _ _ Hfw) as [data1 [Hp [_ Hmask]]].
  assert (Hsize : Torch.size1
                    (fst match TransformerEncoder.dropout self with
                         | Some p => Dropout_forward p data1 rng
                         | None => (data1, rng)
                         end) = Torch.size1 data).
  { destruct (TransformerEncoder.dropout self) as [p|].
    - rewrite Hdrop. now apply Hpos with (pe := TransformerEncoder.pos_embedding self).
    - cbn [fst]. now apply Hpos with (pe := TransformerEncoder.pos_embedding self). }
  rewrite Hsize in Hmask. subst mask. unfold Layers.prepare_source_length_mask.
  split; [apply length_map|]. clear Hfw Hp Hsize.
  induction Hle as [|len lens Hlen _ IH]; simpl; [constructor|].
  constructor; [|exact IH].
  split; [apply mask_row_length|]. split; [|split].
  - intros j Hj. rewrite mask_row_nth by exact Hj. apply Z.ltb_lt.
  - now apply mask_row_prefix.
  - rewrite mask_row_prefix by exact Hlen. apply count_valid_prefix.
Qed.

Lemma map3_size1 {T : Type} (f : T -> T) (x : Torch.tensor3 T) :
  Torch.size1 (Torch.map3 f x) = Torch.size1 x.
Proof. destruct x as [|r x]; simpl; [reflexivity|apply length_map]. Qed.

Lemma attention_mask_marks_valid_prefix_witness :
  length [[true; true; false]; [true; true; true]] = length [2; 3]%Z /\
  Forall2 (fun len row =>
             length row = Torch.size1 example_embedded /\
             (forall j, j < Torch.size1 example_embedded ->
                        nth j row false = true <-> (Z.of_nat j < len)%Z) /\
             row = repeat true (Z.to_nat len)
                   ++ repeat false (Torch.size1 example_embedded - Z.to_nat len) /\
             count_valid row = Z.to_nat len)
          [2; 3]%Z [[true; true; false]; [true; true; true]].
Proof.
  apply (@attention_mask_marks_valid_prefix Z Z_dtype Z_runtime (Z_collaborators false)
           (TransformerEncoder.__init__ (DT:=Z_dtype) (CO:=Z_collaborators false)
              (example_transformer_config 0.5) false)
           example_embedded [2; 3]%Z 0%nat
           example_embedded [2; 3]%Z [[true; true; false]; [true; true; true]] 1%nat).
  - intros pe x y H. cbn in H. now inversion H.
  - intros p x r. apply map3_size1.
  - repeat constructor; cbn; lia.
  - reflexivity.
Defined.

(** C8. [get_encoded_seq_len] is the identity for both encoders, and the
    second value of a returning [TransformerEncoder.forward] is the
    [valid_length] it was given. *)
Theorem sequence_length_is_unchanged
    (T : Type) (DT : DType T) (RT : Runtime T) (CO : Collaborators T)
    (embedding : Embedding.t T) (encoder : TransformerEncoder.t T) (n : Z) :
  get_encoded_seq_len embedding n = n /\
  get_encoded_seq_len encoder n = n /\
  (forall (data : Torch.tensor3 T) (valid_length : list Z) (rng : RNG)
          (enc : Torch.tensor3 T) (vl : list Z) (mask : list (list bool)) (rng' : RNG),
     TransformerEncoder.forward encoder data valid_length rng = Ok (enc, vl, mask, rng') ->
     vl = valid_length).
Proof.
  repeat split.
  intros data valid_length rng enc vl mask rng' Hfw.
  destruct (forward_returns _ _ _ _ Hfw) as [data1 [_ [Hvl _]]]. exact Hvl.
Qed.

Lemma sequence_length_is_unchanged_witness :
  get_encoded_seq_len (@Embedding.__init__ Z (example_config 0) None example_params) 7 = 7%Z /\
  [2; 3]%Z = [2; 3]%Z.
Proof.
  pose proof (@sequence_length_is_unchanged Z Z_dtype Z_runtime (Z_collaborators true)
                (Embedding.__init__ (example_config 0) None example_params)
                (TransformerEncoder.__init__ (DT:=Z_dtype) (CO:=Z_collaborators true)
                   (example_transformer_config 0) true) 7%Z)
    as [He [_ Hvl]].
  split; [exact He|].
  apply (Hvl example_embedded [2; 3]%Z 1%nat example_embedded [2; 3]%Z
           [[true; true; false]; [true; true; true]] 1%nat).
  reflexivity.
Defined.

(** ** Dropout and determinism *)

Section DeterminismLemmas.
Context {T : Type} {DT : DType T} {RT : Runtime T} {CO : Collaborators T}.

Lemma output_bind {A B R : Type} (c1 c2 : result (A * R)) (k : A * R -> result (B * R)) :
  output c1 = output c2 ->
  (forall a r1 r2, output (k (a, r1)) = output (k (a, r2))) ->
  output (bind c1 k) = output (bind c2 k).
Proof.
  intros Hc Hk. destruct c1 as [[a1 r1]|e1]; destruct c2 as [[a2 r2]|e2];
    simpl in Hc; try discriminate.
  - inversion Hc; subst. simpl. apply Hk.
  - inversion Hc; subst. reflexivity.
Qed.

Lemma layers_deterministic (self : TransformerEncoder.t T) (m : Transformer.att_mask)
    (blocks : list Transformer.TransformerEncoderBlock) :
  (forall blk x q p r1 r2,
     In blk blocks ->
     output (TransformerEncoderBlock_forward blk x m q p r1)
     = output (TransformerEncoderBlock_forward blk x m q p r2)) ->
  forall x r1 r2,
    output (foldM (TransformerEncoder.run_layer self m) blocks (x, r1))
    = output (foldM (TransformerEncoder.run_layer self m) blocks (x, r2)).
Proof.
  induction blocks as [|blk blocks IH]; intros Hdet x r1 r2; simpl; [reflexivity|].
  apply output_bind.
  - unfold TransformerEncoder.run_layer. cbn [fst snd]. apply Hdet. now left.
  - intros a r1' r2'. apply IH. intros blk' x' q p s1 s2 Hin. apply Hdet. now right.
Qed.
End DeterminismLemmas.

(** C9. With a dropout probability of 0 neither constructor builds a dropout
    layer, and the outputs of two forward passes on the same input do not
    depend on the state of the random generator: [Embedding.forward] never
    reads it, and [TransformerEncoder.forward] hands it only to its blocks,
    which are deterministic when their own dropout is off. *)
Theorem zero_dropout_is_deterministic
    (T : Type) (DT : DType T) (RT : Runtime T) (CO : Collaborators T) (C : Constants)
    (cfg : EmbeddingConfig.t) (emb : option (Torch.nnEmbedding T))
    (params : nat -> nat -> nat -> T)
    (tcfg : TransformerConfig.t) (inference_only : bool) :
  EmbeddingConfig.dropout cfg = 0%float ->
  TransformerConfig.dropout_prepost tcfg = 0%float ->
  Embedding.dropout (Embedding.__init__ cfg emb params) = None /\
  TransformerEncoder.dropout (TransformerEncoder.__init__ tcfg inference_only) = None /\
  (forall (data : list (list (list Z))) (rng : RNG),
     Embedding.forward C (Embedding.__init__ cfg emb params) data rng
     = (embedded <- Embedding.forward_embedded C (Embedding.__init__ cfg emb params) data ;;
        Ok (embedded, rng))) /\
  (forall (data : list (list (list Z))) (rng1 rng2 : RNG),
     output (Embedding.forward C (Embedding.__init__ cfg emb params) data rng1)
     = output (Embedding.forward C (Embedding.__init__ cfg emb params) data rng2)) /\
  ((forall blk x m q p r1 r2,
      In blk (TransformerEncoder.layers (TransformerEncoder.__init__ tcfg inference_only)) ->
      output (TransformerEncoderBlock_forward blk x m q p r1)
      = output (TransformerEncoderBlock_forward blk x m q p r2)) ->
   (forall x r1 r2,
      output (TransformerProcessBlock_forward
                (TransformerEncoder.final_process
                   (TransformerEncoder.__init__ tcfg inference_only)) x r1)
      = output (TransformerProcessBlock_forward
                  (TransformerEncoder.final_process
                     (TransformerEncoder.__init__ tcfg inference_only)) x r2)) ->
   forall (data : Torch.tensor3 T) (valid_length : list Z) (rng1 rng2 : RNG),
     output (TransformerEncoder.forward
               (TransformerEncoder.__init__ tcfg inference_only) data valid_length rng1)
     = output (TransformerEncoder.forward
                 (TransformerEncoder.__init__ tcfg inference_only) data valid_length rng2)).
Proof.
  intros He Ht.
  assert (H1 : Embedding.dropout (Embedding.__init__ cfg emb params) = None).
  { unfold Embedding.__init__. cbn [Embedding.dropout]. now rewrite He. }
  assert (H2 : TransformerEncoder.dropout (TransformerEncoder.__init__ tcfg inference_only)
               = None).
  { unfold TransformerEncoder.__init__. cbn [TransformerEncoder.dropout]. now rewrite Ht. }
  repeat split; try assumption.
  - intros data rng. unfold Embedding.forward. now rewrite H1.
  - intros data rng1 rng2. unfold Embedding.forward. rewrite H1.
    destruct (Embedding.forward_embedded C _ data); reflexivity.
  - intros Hblk Hfin data valid_length rng1 rng2.
    unfold TransformerEncoder.forward. rewrite H2.
    destruct (PositionalEmbeddings_forward _ data) as [data1|e]; [|reflexivity].
    cbn [bind].
    set (self := TransformerEncoder.__init__ tcfg inference_only) in *.
    set (m := if negb (TransformerEncoder.using_native_mha self)
              then Transformer.PerHead _ else Transformer.SingleHead _).
    set (x := if negb (TransformerEncoder.using_native_mha self)
              then Torch.transpose01 data1 else data1).
    assert (HL : output (foldM (TransformerEncoder.run_layer self m)
                           (TransformerEncoder.layers self) (x, rng1))
                 = output (foldM (TransformerEncoder.run_layer self m)
                             (TransformerEncoder.layers self) (x, rng2))).
    { apply layers_deterministic. intros blk x' q p r1 r2 Hin. now apply Hblk. }
    destruct (foldM (TransformerEncoder.run_layer self m) (TransformerEncoder.layers self)
                (x, rng1)) as [[y1 s1]|e1];
      destruct (foldM (TransformerEncoder.run_layer self m) (TransformerEncoder.layers self)
                  (x, rng2)) as [[y2 s2]|e2];
      simpl in HL; try discriminate; [|inversion HL; subst; reflexivity].
    inversion HL; subst y2. cbn [bind fst snd].
    specialize (Hfin y1 s1 s2).
    destruct (TransformerProcessBlock_forward (TransformerEncoder.final_process self) y1 s1)
      as [[z1 t1]|e1];
      destruct (TransformerProcessBlock_forward (TransformerEncoder.final_process self) y1 s2)
        as [[z2 t2]|e2];
      simpl in Hfin; try discriminate; [|inversion Hfin; subst; reflexivity].
    inversion Hfin; subst z2. reflexivity.
Qed.

Lemma zero_dropout_is_deterministic_witness :
  Embedding.dropout (@Embedding.__init__ Z (example_config 0) None example_params) = None /\
  output (@Embedding.forward Z Z_dtype Z_runtime spec_modes
            (Embedding.__init__ (example_config 0) None example_params) example_data 0)
  = output (@Embedding.forward Z Z_dtype Z_runtime spec_modes
              (Embedding.__init__ (example_config 0) None example_params) example_data 1) /\
  output (TransformerEncoder.forward (CO:=Z_collaborators true)
            (TransformerEncoder.__init__ (DT:=Z_dtype) (CO:=Z_collaborators true)
               (example_transformer_config 0) true) example_embedded [2; 3]%Z 0)
  = output (TransformerEncoder.forward (CO:=Z_collaborators true)
              (TransformerEncoder.__init__ (DT:=Z_dtype) (CO:=Z_collaborators true)
                 (example_transformer_config 0) true) example_embedded [2; 3]%Z 1).
Proof.
  pose proof (@zero_dropout_is_deterministic Z Z_dtype Z_runtime (Z_collaborators true)
                spec_modes (example_config 0) None example_params
                (example_transformer_config 0) true eq_refl eq_refl)
    as [Hnone [_ [_ [Hemb Htr]]]].
  split; [exact Hnone|]. split; [apply Hemb|].
  apply Htr.
  - intros blk x m q p r1 r2 _. reflexivity.
  - intros x r1 r2. reflexivity.
Defined.

(** With dropout on, the output depends on the generator state. *)
Lemma dropout_depends_on_generator :
  output (@Embedding.forward Z Z_dtype Z_runtime spec_modes
            (Embedding.__init__ (example_config 0.5) None example_params) example_data 0)
  <> output (@Embedding.forward Z Z_dtype Z_runtime spec_modes
               (Embedding.__init__ (example_config 0.5) None example_params) example_data 1).
Proof. vm_compute. discriminate. Qed.

(** ** Order of the factors *)

Lemma Permutation_filter {A : Type} (p : A -> bool) (l l' : list A) :
  Permutation l l' -> Permutation (filter p l) (filter p l').
Proof.
  induction 1 as [|x l l' _ IH|x y l|l l' l'' _ IH1 _ IH2]; simpl.
  - constructor.
  - destruct (p x); [now constructor|assumption].
  - destruct (p x); destruct (p y); try apply Permutation_refl. apply perm_swap.
  - now apply Permutation_trans with (filter p l').
Qed.

Lemma fold_left_permutation {A B : Type} (f : A -> B -> A) (l l' : list B) :
  (forall a x y, f (f a x) y = f (f a y) x) ->
  Permutation l l' -> forall a, fold_left f l a = fold_left f l' a.
Proof.
  intros Hf. induction 1 as [|x l l' _ IH|x y l|l l' l'' _ IH1 _ IH2]; intros a; simpl.
  - reflexivity.
  - apply IH.
  - now rewrite Hf.
  - now rewrite IH1.
Qed.

Lemma pointwise_Forall2 {A B : Type} (f g : A -> B) (d1 d2 : list (list A)) :
  Forall2 (Forall2 (fun x y => f x = g y)) d1 d2 -> pointwise f d1 = pointwise g d2.
Proof.
  unfold pointwise. induction 1 as [|r1 r2 d1 d2 Hr _ IH]; simpl; [reflexivity|].
  f_equal; [|exact IH]. clear IH.
  induction Hr as [|x y r1 r2 Hxy _ IH]; simpl; [reflexivity|]. now f_equal.
Qed.

Section OrderLemmas.
Context {T : Type} {DT : DType T}.
Variable C : Constants.
Hypothesis add_comm : forall x y : T, add x y = add y x.
Hypothesis add_assoc : forall x y z : T, add x (add y z) = add (add x y) z.

Lemma zip_with_add_swap (a x y : list T) :
  zip_with add (zip_with add a x) y = zip_with add (zip_with add a y) x.
Proof.
  unfold zip_with. revert x y.
  induction a as [|a0 a IH]; intros [|x0 x] [|y0 y]; simpl; try reflexivity.
  f_equal; [|apply IH].
  rewrite <- !add_assoc. f_equal. apply add_comm.
Qed.

Lemma bucket_rows_position (p : string -> bool) (self : Embedding.t T) (ids : list Z) :
  bucket_rows p (streams self) ids
  = map (fun s => Torch.row (fst (fst s)) (snd s))
        (filter (fun s => p (snd (fst s))) (position_streams self ids)).
Proof.
  unfold bucket_rows, position_streams. rewrite filter_map_comm, map_map. reflexivity.
Qed.

Lemma bucket_rows_reordered (p : string -> bool) (self1 self2 : Embedding.t T)
    (ids1 ids2 : list Z) :
  reordered C self1 self2 ids1 ids2 ->
  Permutation (bucket_rows p (streams self1) ids1) (bucket_rows p (streams self2) ids2).
Proof.
  intros [_ [Hperm _]]. rewrite !bucket_rows_position.
  apply Permutation_map. now apply Permutation_filter.
Qed.

Lemma embed_position_reordered (self1 self2 : Embedding.t T) (ids1 ids2 : list Z) :
  Embedding.embedding self1 = Embedding.embedding self2 ->
  Embedding.num_factors self1 = Embedding.num_factors self2 ->
  reordered C self1 self2 ids1 ids2 ->
  embed_position C self1 ids1 = embed_position C self2 ids2.
Proof.
  intros He Hn Hre. unfold embed_position.
  pose proof (bucket_rows_reordered (is_average C) Hre) as HA.
  pose proof (bucket_rows_reordered (is_sum C) Hre) as HS.
  destruct Hre as [H0 [_ HK]].
  assert (HK' : bucket_rows (is_concat C) (streams self1) ids1
                = bucket_rows (is_concat C) (streams self2) ids2).
  { rewrite !bucket_rows_position. unfold concat_streams in HK. now rewrite HK. }
  rewrite He, Hn, H0, HK'.
  destruct (1 <? Embedding.num_factors self2); [|reflexivity].
  f_equal.
  set (e0 := Torch.row (Embedding.embedding self2) (nth 0 ids2 0%Z)).
  rewrite (fold_left_permutation _ zip_with_add_swap HS). f_equal.
  destruct (bucket_rows (is_average C) (streams self1) ids1) as [|a1 A1] eqn:E1.
  - apply Permutation_nil in HA. now rewrite HA.
  - destruct (bucket_rows (is_average C) (streams self2) ids2) as [|a2 A2] eqn:E2.
    + apply Permutation_sym, Permutation_nil in HA. discriminate.
    + cbn [is_empty].
      rewrite (Permutation_length HA).
      now rewrite (fold_left_permutation _ zip_with_add_swap HA).
Qed.
End OrderLemmas.

Section SplitLemmas.
Context {T : Type} {DT : DType T}.
Variable C : Constants.

Lemma embed_position_split (self : Embedding.t T) (ids : list Z) :
  Embedding.num_factors self = 1 + length (streams self) ->
  embed_position C self ids
  = summed_position C self ids ++ concat (bucket_rows (is_concat C) (streams self) ids).
Proof.
  intros Hn. unfold embed_position, summed_position.
  destruct (1 <? Embedding.num_factors self) eqn:E.
  - apply fold_app_concat.
  - apply Nat.ltb_ge in E.
    assert (Hs : streams self = []) by (apply length_zero_iff_nil; lia).
    rewrite Hs. simpl. now rewrite app_nil_r.
Qed.

Lemma summed_position_length (self : Embedding.t T) (ids : list Z) :
  widths_agree C self ->
  length (summed_position C self ids) = Torch.embedding_dim (Embedding.embedding self).
Proof.
  intros Hw. unfold summed_position. apply fold_zip_length.
  - destruct (is_empty (bucket_rows (is_average C) (streams self) ids)).
    + apply row_length.
    + rewrite length_map. apply fold_zip_length; [apply row_length|].
      apply bucket_rows_width with (C := C); [|assumption].
      intros m. unfold is_average, is_concat. now destruct (String.eqb _ _).
  - apply bucket_rows_width with (C := C); [|assumption].
    intros m. unfold is_sum, is_concat. now destruct (String.eqb _ _).
Qed.

Lemma init_concat_rows (cfg : EmbeddingConfig.t) (emb : option (Torch.nnEmbedding T))
    (params : nat -> nat -> nat -> T) (ids : list Z) :
  bucket_rows (is_concat C) (streams (Embedding.__init__ cfg emb params)) ids
  = map (fun ifc =>
           Torch.row (factor_table cfg params
                        (Embedding.embedding (Embedding.__init__ cfg emb params)) ifc)
                     (nth (fst ifc) ids 0%Z))
        (filter (fun ifc => is_concat C (FactorConfig.combine (snd ifc)))
                (enumerate (factor_list cfg) 1)).
Proof.
  unfold bucket_rows. rewrite init_streams, filter_map_comm, map_map. reflexivity.
Qed.
End SplitLemmas.

Section AcrossBucketsLemmas.
Context {T : Type} {DT : DType T}.
Variable C : Constants.

(** Moving factors past factors of other buckets changes no bucket. *)
Lemma embed_position_across_buckets (self1 self2 : Embedding.t T) (ids1 ids2 : list Z) :
  Embedding.embedding self1 = Embedding.embedding self2 ->
  Embedding.num_factors self1 = Embedding.num_factors self2 ->
  reordered_across_buckets C self1 self2 ids1 ids2 ->
  embed_position C self1 ids1 = embed_position C self2 ids2.
Proof.
  intros He Hn [[H0 [_ HK]] [HS HA]]. unfold embed_position.
  assert (HK' : bucket_rows (is_concat C) (streams self1) ids1
                = bucket_rows (is_concat C) (streams self2) ids2).
  { rewrite !bucket_rows_position. unfold concat_streams in HK. now rewrite HK. }
  assert (HS' : bucket_rows (is_sum C) (streams self1) ids1
                = bucket_rows (is_sum C) (streams self2) ids2).
  { rewrite !bucket_rows_position. unfold sum_streams in HS. now rewrite HS. }
  assert (HA' : bucket_rows (is_average C) (streams self1) ids1
                = bucket_rows (is_average C) (streams self2) ids2).
  { rewrite !bucket_rows_position. unfold average_streams in HA. now rewrite HA. }
  now rewrite He, Hn, H0, HK', HS', HA'.
Qed.
End AcrossBucketsLemmas.

(** C4, as the code has it. The concatenated factors follow the summed
    part along the feature axis in configured order, whatever the dtype.
    A reordering of the factors that keeps the order within the sum bucket,
    within the average bucket and within the concatenate bucket leaves the
    output (before dropout) unchanged, whatever the dtype. A reordering that
    permutes the summed factors among themselves or the averaged factors
    among themselves (the concatenated ones keeping their order) leaves the
    output unchanged when the addition of the dtype is commutative and
    associative. *)
Theorem factor_order_within_buckets
    (T : Type) (DT : DType T) (C : Constants)
    (cfg1 cfg2 : EmbeddingConfig.t) (emb : option (Torch.nnEmbedding T))
    (params1 params2 : nat -> nat -> nat -> T)
    (data1 data2 : list (list (list Z))) :
  known_modes C (Embedding.__init__ cfg1 emb params1) ->
  widths_agree C (Embedding.__init__ cfg1 emb params1) ->
  valid_data (Embedding.__init__ cfg1 emb params1) data1 ->
  (exists base : list Z -> list T,
     (forall ids, length (base ids)
                  = Torch.embedding_dim (Embedding.embedding (Embedding.__init__ cfg1 emb params1))) /\
     Embedding.forward_embedded C (Embedding.__init__ cfg1 emb params1) data1
     = Ok (pointwise
             (fun ids =>
                base ids
                ++ concat
                     (map (fun ifc =>
                             Torch.row
                               (factor_table cfg1 params1
                                  (Embedding.embedding (Embedding.__init__ cfg1 emb params1)) ifc)
                               (nth (fst ifc) ids 0%Z))
                          (filter (fun ifc => is_concat C (FactorConfig.combine (snd ifc)))
                                  (enumerate (factor_list cfg1) 1))))
             data1)) /\
  (known_modes C (Embedding.__init__ cfg2 emb params2) ->
   widths_agree C (Embedding.__init__ cfg2 emb params2) ->
   valid_data (Embedding.__init__ cfg2 emb params2) data2 ->
   Embedding.embedding (Embedding.__init__ cfg1 emb params1)
   = Embedding.embedding (Embedding.__init__ cfg2 emb params2) ->
   (Forall2 (Forall2 (reordered_across_buckets C (Embedding.__init__ cfg1 emb params1)
                                                 (Embedding.__init__ cfg2 emb params2)))
            data1 data2 ->
    Embedding.forward_embedded C (Embedding.__init__ cfg1 emb params1) data1
    = Embedding.forward_embedded C (Embedding.__init__ cfg2 emb params2) data2) /\
   ((forall x y : T, add x y = add y x) ->
    (forall x y z : T, add x (add y z) = add (add x y) z) ->
    Forall2 (Forall2 (reordered C (Embedding.__init__ cfg1 emb params1)
                                (Embedding.__init__ cfg2 emb params2))) data1 data2 ->
    Embedding.forward_embedded C (Embedding.__init__ cfg1 emb params1) data1
    = Embedding.forward_embedded C (Embedding.__init__ cfg2 emb params2) data2)).
Proof.
  intros Hm1 Hw1 Hv1.
  rewrite (forward_embedded_pointwise Hm1 Hw1 Hv1).
  split.
  - exists (summed_position C (Embedding.__init__ cfg1 emb params1)). split.
    + intros ids. now apply summed_position_length.
    + f_equal. apply pointwise_ext.
      apply Forall_forall. intros r _. apply Forall_forall. intros ids _.
      rewrite embed_position_split by apply init_num_factors.
      now rewrite init_concat_rows.
  - intros Hm2 Hw2 Hv2 He.
    rewrite (forward_embedded_pointwise Hm2 Hw2 Hv2).
    assert (Hnum : forall ids1 ids2,
               Permutation (position_streams (Embedding.__init__ cfg1 emb params1) ids1)
                           (position_streams (Embedding.__init__ cfg2 emb params2) ids2) ->
               Embedding.num_factors (Embedding.__init__ cfg1 emb params1)
               = Embedding.num_factors (Embedding.__init__ cfg2 emb params2)).
    { intros ids1 ids2 Hperm. rewrite !init_num_factors. f_equal.
      apply Permutation_length in Hperm.
      unfold position_streams in Hperm. now rewrite !length_map in Hperm. }
    split.
    + intros Hre. f_equal. apply pointwise_Forall2.
      eapply Forall2_impl; [|exact Hre]. intros r1 r2 Hr.
      eapply Forall2_impl; [|exact Hr]. intros ids1 ids2 Hids.
      apply embed_position_across_buckets; try assumption.
      destruct Hids as [[_ [Hperm _]] _]. exact (Hnum ids1 ids2 Hperm).
    + intros Hcomm Hassoc Hre. f_equal. apply pointwise_Forall2.
      eapply Forall2_impl; [|exact Hre]. intros r1 r2 Hr.
      eapply Forall2_impl; [|exact Hr]. intros ids1 ids2 Hids.
      apply embed_position_reordered with (C := C); try assumption.
      destruct Hids as [_ [Hperm _]]. exact (Hnum ids1 ids2 Hperm).
Qed.

Lemma two_factors_known_modes {T : Type} (fa fb : FactorConfig.t) (w0 w1 w2 : T) :
  known_mode spec_modes (FactorConfig.combine fa) ->
  known_mode spec_modes (FactorConfig.combine fb) ->
  known_modes spec_modes (two_factors fa fb w0 w1 w2).
Proof.
  intros Ha Hb. unfold known_modes. cbn.
  repeat apply Forall_cons; try apply Forall_nil; assumption.
Qed.

Lemma two_sums_known_modes {T : Type} (w0 w1 w2 : T) :
  known_modes spec_modes (two_sums w0 w1 w2) /\
  known_modes spec_modes (two_sums_swapped w0 w1 w2).
Proof.
  split; unfold known_modes; cbn;
    repeat apply Forall_cons; try apply Forall_nil; unfold known_mode; cbn; auto.
Qed.

Lemma two_sums_widths_agree {T : Type} (w0 w1 w2 : T) :
  widths_agree spec_modes (two_sums w0 w1 w2) /\
  widths_agree spec_modes (two_sums_swapped w0 w1 w2).
Proof.
  split; unfold widths_agree; cbn; repeat constructor.
Qed.

Lemma two_sums_valid_data {T : Type} (w0 w1 w2 : T) :
  valid_data (two_sums w0 w1 w2) two_sums_data /\
  valid_data (two_sums_swapped w0 w1 w2) two_sums_swapped_data.
Proof.
  split; unfold valid_data, valid_position, stream_valid, in_range; cbn;
    repeat constructor; cbn; lia.
Qed.

Lemma two_sums_reordered {T : Type} (w0 w1 w2 : T) :
  Forall2 (Forall2 (reordered spec_modes (two_sums w0 w1 w2) (two_sums_swapped w0 w1 w2)))
          two_sums_data two_sums_swapped_data.
Proof.
  repeat constructor.
Qed.

(** A summed factor before an averaged one, and the two swapped: a
    reordering across the buckets. *)
Lemma mixed_factors_across_buckets {T : Type} (w0 w1 w2 : T) :
  Forall2 (Forall2 (reordered_across_buckets spec_modes
                      (two_factors first_factor second_averaged_factor w0 w1 w2)
                      (two_factors second_averaged_factor first_factor w0 w2 w1)))
          two_sums_data two_sums_swapped_data.
Proof.
  repeat constructor.
Qed.

Lemma mixed_factors_valid_data {T : Type} (w0 w1 w2 : T) :
  valid_data (two_factors first_factor second_averaged_factor w0 w1 w2) two_sums_data /\
  valid_data (two_factors second_averaged_factor first_factor w0 w2 w1) two_sums_swapped_data.
Proof.
  split; unfold valid_data, valid_position, stream_valid, in_range; cbn;
    repeat constructor; cbn; lia.
Qed.

Lemma mixed_factors_widths_agree {T : Type} (w0 w1 w2 : T) :
  widths_agree spec_modes (two_factors first_factor second_averaged_factor w0 w1 w2) /\
  widths_agree spec_modes (two_factors second_averaged_factor first_factor w0 w2 w1).
Proof.
  split; unfold widths_agree; cbn; repeat constructor.
Qed.

(** The three parts at work: the concatenation order on the example
    configuration, a summed and an averaged factor swapped in binary64, and
    two summed factors swapped in exact integer arithmetic. *)
Lemma factor_order_within_buckets_witness :
  (exists base : list Z -> list Z,
     (forall ids, length (base ids) = 2) /\
     @Embedding.forward_embedded Z Z_dtype spec_modes
       (Embedding.__init__ (example_config 0) None example_params) example_data
     = Ok (pointwise
             (fun ids =>
                base ids
                ++ Torch.row (nn_Embedding 4 3 false (example_params 3)) (nth 3 ids 0%Z)
                ++ Torch.row (nn_Embedding 5 2 false (example_params 0)) (nth 4 ids 0%Z))
             example_data)) /\
  @Embedding.forward_embedded float float64_dtype spec_modes
    (two_factors first_factor second_averaged_factor
       two_to_60 1%float (PrimFloat.opp two_to_60)) two_sums_data
  = @Embedding.forward_embedded float float64_dtype spec_modes
      (two_factors second_averaged_factor first_factor
         two_to_60 (PrimFloat.opp two_to_60) 1%float) two_sums_swapped_data /\
  @Embedding.forward_embedded Z Z_dtype spec_modes (two_sums 5 1 7)%Z two_sums_data
  = @Embedding.forward_embedded Z Z_dtype spec_modes (two_sums_swapped 5 1 7)%Z
      two_sums_swapped_data.
Proof.
  split; [|split].
  - destruct (@factor_order_within_buckets Z Z_dtype spec_modes
                (example_config 0) (example_config 0) None example_params example_params
                example_data example_data
                (example_known_modes 0) (example_widths_agree 0) (example_valid_data 0))
      as [[base [Hlen Hout]] _].
    exists base. split; [exact Hlen|].
    exact Hout.
  - refine (proj1 (proj2 (@factor_order_within_buckets float float64_dtype spec_modes
                            (two_sums_config first_factor second_averaged_factor)
                            (two_sums_config second_averaged_factor first_factor) None
                            (constant_tables two_to_60 1%float (PrimFloat.opp two_to_60))
                            (constant_tables two_to_60 (PrimFloat.opp two_to_60) 1%float)
                            two_sums_data two_sums_swapped_data _ _ _) _ _ _ _) _).
    + apply two_factors_known_modes; unfold known_mode; cbn; auto.
    + apply mixed_factors_widths_agree.
    + apply mixed_factors_valid_data.
    + apply two_factors_known_modes; unfold known_mode; cbn; auto.
    + apply mixed_factors_widths_agree.
    + apply mixed_factors_valid_data.
    + reflexivity.
    + apply mixed_factors_across_buckets.
  - apply (@factor_order_within_buckets Z Z_dtype spec_modes
             (two_sums_config first_factor second_factor)
             (two_sums_config second_factor first_factor) None
             (constant_tables 5 1 7)%Z (constant_tables 5 7 1)%Z
             two_sums_data two_sums_swapped_data).
    + apply (two_sums_known_modes 5 1 7)%Z.
    + apply (two_sums_widths_agree 5 1 7)%Z.
    + apply (two_sums_valid_data 5 1 7)%Z.
    + apply (two_sums_known_modes 5 1 7)%Z.
    + apply (two_sums_widths_agree 5 1 7)%Z.
    + apply (two_sums_valid_data 5 1 7)%Z.
    + reflexivity.
    + intros x y. apply Z.add_comm.
    + intros x y z. apply Z.add_assoc.
    + apply (two_sums_reordered 5 1 7)%Z.
Defined.

(** C4, as the claim states it, fails in floating point, for the sum bucket
    and for the average bucket. With binary64 tables holding 2^60 (primary),
    1 and -2^60, two summed factors give (2^60 + 1) - 2^60 = 0 in configured
    order and (2^60 - 2^60) + 1 = 1 swapped; two averaged factors give
    ((2^60 + 1) - 2^60) / 3 = 0 in configured order and
    ((2^60 - 2^60) + 1) / 3 = 1/3 swapped. *)
Lemma bucket_order_counterexample :
  (Forall2 (Forall2 (reordered spec_modes
                       (two_sums two_to_60 1%float (PrimFloat.opp two_to_60))
                       (two_sums_swapped two_to_60 1%float (PrimFloat.opp two_to_60))))
           two_sums_data two_sums_swapped_data /\
   @Embedding.forward_embedded float float64_dtype spec_modes
     (two_sums two_to_60 1%float (PrimFloat.opp two_to_60)) two_sums_data
   = Ok [[[0%float]]] /\
   @Embedding.forward_embedded float float64_dtype spec_modes
     (two_sums_swapped two_to_60 1%float (PrimFloat.opp two_to_60)) two_sums_swapped_data
   = Ok [[[1%float]]] /\
   @Embedding.forward_embedded float float64_dtype spec_modes
     (two_sums two_to_60 1%float (PrimFloat.opp two_to_60)) two_sums_data
   <> @Embedding.forward_embedded float float64_dtype spec_modes
        (two_sums_swapped two_to_60 1%float (PrimFloat.opp two_to_60)) two_sums_swapped_data) /\
  (Forall2 (Forall2 (reordered spec_modes
                       (two_factors first_averaged_factor second_averaged_factor
                          two_to_60 1%float (PrimFloat.opp two_to_60))
                       (two_factors second_averaged_factor first_averaged_factor
                          two_to_60 (PrimFloat.opp two_to_60) 1%float)))
           two_sums_data two_sums_swapped_data /\
   @Embedding.forward_embedded float float64_dtype spec_modes
     (two_factors first_averaged_factor second_averaged_factor
        two_to_60 1%float (PrimFloat.opp two_to_60)) two_sums_data
   = Ok [[[0%float]]] /\
   @Embedding.forward_embedded float float64_dtype spec_modes
     (two_factors first_averaged_factor second_averaged_factor
        two_to_60 1%float (PrimFloat.opp two_to_60)) two_sums_data
   <> @Embedding.forward_embedded float float64_dtype spec_modes
        (two_factors second_averaged_factor first_averaged_factor
           two_to_60 (PrimFloat.opp two_to_60) 1%float) two_sums_swapped_data).
Proof.
  split.
  - split; [apply two_sums_reordered|].
    assert (H1 : @Embedding.forward_embedded float float64_dtype spec_modes
                   (two_sums two_to_60 1%float (PrimFloat.opp two_to_60)) two_sums_data
                 = Ok [[[0%float]]]) by (vm_compute; reflexivity).
    assert (H2 : @Embedding.forward_embedded float float64_dtype spec_modes
                   (two_sums_swapped two_to_60 1%float (PrimFloat.opp two_to_60))
                   two_sums_swapped_data
                 = Ok [[[1%float]]]) by (vm_compute; reflexivity).
    repeat split; try assumption.
    rewrite H1, H2. intros H.
    assert (E : 0%float = 1%float) by (inversion H; reflexivity).
    apply (f_equal (fun x => PrimFloat.eqb x 1%float)) in E.
    vm_compute in E. discriminate E.
  - split; [repeat constructor|].
    assert (H1 : @Embedding.forward_embedded float float64_dtype spec_modes
                   (two_factors first_averaged_factor second_averaged_factor
                      two_to_60 1%float (PrimFloat.opp two_to_60)) two_sums_data
                 = Ok [[[0%float]]]) by (vm_compute; reflexivity).
    split; [exact H1|].
    rewrite H1. intros H.
    apply (f_equal (fun r => match r with
                             | Ok [[[x]]] => PrimFloat.eqb x 0%float
                             | _ => false
                             end)) in H.
    vm_compute in H. discriminate H.
Qed.

(** * Further properties of the code *)

(** ** The factor lists of [Embedding.__init__] *)

Lemma length_enumerate {A : Type} (l : list A) (s : nat) :
  length (enumerate l s) = length l.
Proof. unfold enumerate. rewrite length_combine, length_seq. apply Nat.min_id. Qed.

Lemma map_fst_enumerate {A : Type} (l : list A) (s : nat) :
  map fst (enumerate l s) = seq s (length l).
Proof.
  unfold enumerate. revert s. induction l as [|x l IH]; intros s; simpl; [reflexivity|].
  now rewrite IH.
Qed.

Lemma map_snd_enumerate {A : Type} (l : list A) (s : nat) :
  map snd (enumerate l s) = l.
Proof.
  unfold enumerate. revert s. induction l as [|x l IH]; intros s; simpl; [reflexivity|].
  now rewrite IH.
Qed.

(** X1. [Embedding.__init__] builds one table and one combination mode per
    configured factor, in configured order, so the [zip] of [forward] drops
    nothing: the loop visits factor [k] (from 0) with column [k + 1] of the
    data, and [num_factors] counts the primary stream and these factors. *)
Theorem init_one_stream_per_factor
    (T : Type) (DT : DType T) (cfg : EmbeddingConfig.t)
    (emb : option (Torch.nnEmbedding T)) (params : nat -> nat -> nat -> T) :
  length (Embedding.factor_embeds (Embedding.__init__ cfg emb params))
  = length (factor_list cfg) /\
  Embedding.factor_combinations (Embedding.__init__ cfg emb params)
  = map FactorConfig.combine (factor_list cfg) /\
  map fst (streams (Embedding.__init__ cfg emb params)) = seq 1 (length (factor_list cfg)) /\
  map stream_mode (streams (Embedding.__init__ cfg emb params))
  = map FactorConfig.combine (factor_list cfg) /\
  Embedding.num_factors (Embedding.__init__ cfg emb params)
  = 1 + length (streams (Embedding.__init__ cfg emb params)).
Proof.
  repeat split.
  - now rewrite init_factor_embeds, length_map, length_enumerate.
  - unfold Embedding.__init__, factor_list. cbn [Embedding.factor_combinations].
    destruct (EmbeddingConfig.factor_configs cfg) as [fcs|]; [|reflexivity].
    rewrite <- (map_snd_enumerate fcs 1) at 2. now rewrite map_map.
  - rewrite init_streams, map_map. cbn [fst]. apply map_fst_enumerate.
  - rewrite init_streams, map_map. unfold stream_mode. cbn [snd].
    rewrite <- (map_snd_enumerate (factor_list cfg) 1) at 2. now rewrite map_map.
  - apply init_num_factors.
Qed.

(** ** Columns of the data that [forward] reads *)

Lemma mapM_Forall2 {A A' B : Type} (f : A -> result B) (g : A' -> result B)
    (l1 : list A) (l2 : list A') :
  Forall2 (fun x y => f x = g y) l1 l2 -> mapM f l1 = mapM g l2.
Proof.
  induction 1 as [|x y l1 l2 Hxy _ IH]; simpl; [reflexivity|].
  now rewrite Hxy, IH.
Qed.

Lemma foldM_ext_in {A B : Type} (f g : A -> B -> result A) (l : list B) (a : A) :
  (forall a' x, In x l -> f a' x = g a' x) -> foldM f l a = foldM g l a.
Proof.
  revert a. induction l as [|x l IH]; intros a H; simpl; [reflexivity|].
  rewrite (H a x) by now left.
  destruct (g a x) as [a'|e]; [|reflexivity]. simpl.
  apply IH. intros a'' y Hy. apply H. now right.
Qed.

Lemma select_last_firstn (n i : nat) (data1 data2 : list (list (list Z))) :
  i < n ->
  Forall2 (Forall2 (fun ids1 ids2 => firstn n ids1 = firstn n ids2)) data1 data2 ->
  Torch.select_last data1 i = Torch.select_last data2 i.
Proof.
  intros Hi H. unfold Torch.select_last. apply mapM_Forall2.
  eapply Forall2_impl; [|exact H]. intros r1 r2 Hr. apply mapM_Forall2.
  eapply Forall2_impl; [|exact Hr]. intros ids1 ids2 Hids. cbv beta.
  assert (E : nth_error ids1 i = nth_error ids2 i).
  { pose proof (nth_error_firstn n ids1 i) as H1.
    pose proof (nth_error_firstn n ids2 i) as H2.
    apply Nat.ltb_lt in Hi. rewrite Hi in H1, H2. now rewrite <- H1, <- H2, Hids. }
  now rewrite E.
Qed.

Lemma length_streams {T : Type} (self : Embedding.t T) :
  length (streams self)
  = length (combine (Embedding.factor_embeds self) (Embedding.factor_combinations self)).
Proof. apply length_enumerate. Qed.

Lemma streams_columns {T : Type} (self : Embedding.t T) (it : stream (T:=T)) :
  In it (streams self) -> 1 <= fst it <= length (streams self).
Proof.
  intros Hin. destruct it as [i x]. cbn [fst]. rewrite length_streams.
  unfold streams, enumerate in Hin. apply in_combine_l in Hin.
  apply in_seq in Hin. lia.
Qed.

(** X2. [Embedding.forward] reads column 0 and one column per factor; what
    the data holds in further columns changes neither the output nor the
    exception raised. *)
Theorem forward_ignores_further_columns
    (T : Type) (DT : DType T) (C : Constants) (self : Embedding.t T)
    (data1 data2 : list (list (list Z))) :
  Forall2 (Forall2 (fun ids1 ids2 =>
                      firstn (1 + length (streams self)) ids1
                      = firstn (1 + length (streams self)) ids2)) data1 data2 ->
  Embedding.forward_embedded C self data1 = Embedding.forward_embedded C self data2.
Proof.
  intros H. unfold Embedding.forward_embedded.
  rewrite (select_last_firstn (n := 1 + length (streams self)) (i := 0)
             (data1 := data1) (data2 := data2)) by (lia || exact H).
  destruct (Torch.select_last data2 0) as [pd|e]; [|reflexivity]. cbn [bind].
  destruct (Torch.embedding_forward (Embedding.embedding self) pd) as [em|e];
    [|reflexivity].
  cbn [bind]. destruct (1 <? Embedding.num_factors self); [|reflexivity].
  fold (streams self).
  rewrite (foldM_ext_in (Embedding.loop_body C data1) (Embedding.loop_body C data2)).
  - reflexivity.
  - intros b [i [e m]] Hin. unfold Embedding.loop_body.
    apply streams_columns in Hin. cbn [fst] in Hin.
    rewrite (select_last_firstn (n := 1 + length (streams self)) (i := i)
               (data1 := data1) (data2 := data2)) by (lia || exact H).
    reflexivity.
Qed.

Lemma forward_ignores_further_columns_witness :
  @Embedding.forward_embedded Z Z_dtype spec_modes
    (Embedding.__init__ (example_config 0) None example_params)
    [[[1; 2; 3; 0; 4; 99]; [0; 0; 0; 0; 0]]]%Z
  = @Embedding.forward_embedded Z Z_dtype spec_modes
      (Embedding.__init__ (example_config 0) None example_params) example_data.
Proof.
  apply (@forward_ignores_further_columns Z Z_dtype spec_modes
           (Embedding.__init__ (example_config 0) None example_params)
           [[[1; 2; 3; 0; 4; 99]; [0; 0; 0; 0; 0]]]%Z example_data).
  repeat constructor.
Defined.

(** ** When [Embedding.forward] returns *)

Lemma mapM_ok_inv {A B : Type} (f : A -> result B) (l : list A) (r : list B) :
  mapM f l = Ok r -> Forall (fun x => exists y, f x = Ok y) l.
Proof.
  revert r. induction l as [|x l IH]; intros r H; simpl in H; [constructor|].
  destruct (f x) as [y|e] eqn:E; [|discriminate]. cbn [bind] in H.
  destruct (mapM f l) as [ys|e]; [|discriminate].
  constructor; [now exists y|]. now apply (IH ys).
Qed.

Lemma mapM2_ok_inv {A B : Type} (f : A -> result B) (data : list (list A))
    (r : list (list B)) :
  mapM (mapM f) data = Ok r -> Forall (Forall (fun x => exists y, f x = Ok y)) data.
Proof.
  intros H. apply mapM_ok_inv in H.
  eapply Forall_impl; [|exact H]. intros row [ys Hys]. now apply mapM_ok_inv in Hys.
Qed.

Lemma Forall2_unswap {A B : Type} (P : A -> B -> Prop) (data : list (list A)) (l : list B) :
  Forall (fun y => Forall (Forall (fun x => P x y)) data) l ->
  Forall (Forall (fun x => Forall (P x) l)) data.
Proof.
  intros H. apply Forall_forall. intros r Hr. apply Forall_forall. intros x Hx.
  apply Forall_forall. intros y Hy. rewrite Forall_forall in H.
  specialize (H y Hy). rewrite Forall_forall in H. specialize (H r Hr).
  rewrite Forall_forall in H. now apply H.
Qed.

Section ReturnLemmas.
Context {T : Type} {DT : DType T}.
Variable C : Constants.

Lemma select_last_ok_inv (data : list (list (list Z))) (i : nat) (r : list (list Z)) :
  Torch.select_last data i = Ok r ->
  Forall (Forall (fun ids => i < length ids)) data.
Proof.
  intros H. unfold Torch.select_last in H. apply mapM2_ok_inv in H.
  eapply Forall_impl; [|exact H]. intros row Hrow.
  eapply Forall_impl; [|exact Hrow]. intros ids [y Hy]. cbv beta in Hy.
  destruct (nth_error ids i) eqn:E; [|discriminate].
  apply nth_error_Some. congruence.
Qed.

Lemma lookup_ok_inv (e : Torch.nnEmbedding T) (id : Z) (v : list T) :
  Torch.lookup e id = Ok v -> in_range e id.
Proof.
  unfold Torch.lookup, in_range. intros H.
  destruct (Z.leb_spec 0 id); destruct (Z.ltb_spec id (Z.of_nat (Torch.num_embeddings e)));
    simpl in H; try discriminate.
  lia.
Qed.

Lemma embedding_forward_ok_inv (e : Torch.nnEmbedding T) (g : list Z -> Z)
    (data : list (list (list Z))) (r : Torch.tensor3 T) :
  Torch.embedding_forward e (pointwise g data) = Ok r ->
  Forall (Forall (fun ids => in_range e (g ids))) data.
Proof.
  unfold Torch.embedding_forward, pointwise. intros H.
  rewrite mapM_map in H. apply mapM_ok_inv in H.
  eapply Forall_impl; [|exact H]. intros row [ys Hys]. cbv beta in Hys.
  rewrite mapM_map in Hys. apply mapM_ok_inv in Hys.
  eapply Forall_impl; [|exact Hys]. intros ids [v Hv]. now apply lookup_ok_inv in Hv.
Qed.

Lemma loop_body_ok_inv (data : list (list (list Z))) (b b' : Embedding.buckets)
    (it : stream (T:=T)) :
  Embedding.loop_body C data b it = Ok b' ->
  Forall (Forall (fun ids => stream_valid ids it)) data.
Proof.
  destruct it as [i [e m]]. unfold Embedding.loop_body. intros H.
  destruct (Torch.select_last data i) as [fd|e1] eqn:E1; [|discriminate]. cbn [bind] in H.
  destruct (Torch.embedding_forward e fd) as [fe|e2] eqn:E2; [|discriminate].
  pose proof (select_last_ok_inv _ _ E1) as Hlen.
  rewrite (select_last_ok Hlen) in E1. inversion E1; subst fd.
  apply embedding_forward_ok_inv in E2.
  apply Forall_forall. intros r Hr. apply Forall_forall. intros ids Hids.
  rewrite Forall_forall in Hlen, E2. specialize (Hlen r Hr). specialize (E2 r Hr).
  rewrite Forall_forall in Hlen, E2.
  split; [now apply Hlen|now apply E2].
Qed.

Lemma loop_ok_inv (data : list (list (list Z))) (its : list (stream (T:=T)))
    (b b' : Embedding.buckets) :
  foldM (Embedding.loop_body C data) its b = Ok b' ->
  Forall (fun it => Forall (Forall (fun ids => stream_valid ids it)) data) its.
Proof.
  revert b. induction its as [|it its IH]; intros b H; simpl in H; [constructor|].
  destruct (Embedding.loop_body C data b it) as [b1|e] eqn:E; [|discriminate].
  cbn [bind] in H. constructor; [now apply loop_body_ok_inv in E|now apply (IH b1)].
Qed.

(** The lookups of [forward] having returned, the data is valid. *)
Lemma lookups_valid (self : Embedding.t T) (data : list (list (list Z)))
    (pd : list (list Z)) (em : Torch.tensor3 T) :
  Torch.select_last data 0 = Ok pd ->
  Torch.embedding_forward (Embedding.embedding self) pd = Ok em ->
  Forall (fun it => Forall (Forall (fun ids => stream_valid ids it)) data) (streams self) ->
  valid_data self data.
Proof.
  intros E0 E1 Hs.
  pose proof (select_last_ok_inv _ _ E0) as Hlen.
  rewrite (select_last_ok Hlen) in E0. inversion E0; subst pd.
  apply embedding_forward_ok_inv in E1. apply Forall2_unswap in Hs.
  apply Forall_forall. intros r Hr. apply Forall_forall. intros ids Hids.
  rewrite Forall_forall in Hlen, E1, Hs.
  specialize (Hlen r Hr). specialize (E1 r Hr). specialize (Hs r Hr).
  rewrite Forall_forall in Hlen, E1, Hs.
  repeat split; [now apply Hlen|now apply E1|now apply E1|now apply Hs].
Qed.

Lemma forward_embedded_ok_valid (self : Embedding.t T) (data : list (list (list Z)))
    (out : Torch.tensor3 T) :
  Embedding.num_factors self = 1 + length (streams self) ->
  Embedding.forward_embedded C self data = Ok out -> valid_data self data.
Proof.
  intros Hn H. unfold Embedding.forward_embedded in H.
  destruct (Torch.select_last data 0) as [pd|e] eqn:E0; [|discriminate]. cbn [bind] in H.
  destruct (Torch.embedding_forward (Embedding.embedding self) pd) as [em|e] eqn:E1;
    [|discriminate].
  cbn [bind] in H. apply (lookups_valid self E0 E1).
  destruct (1 <? Embedding.num_factors self) eqn:En.
  - fold (streams self) in H.
    destruct (foldM (Embedding.loop_body C data) (streams self) _) as [b|e] eqn:EL;
      [|discriminate].
    now apply loop_ok_inv in EL.
  - apply Nat.ltb_ge in En.
    assert (Hs : streams self = []) by (apply length_zero_iff_nil; lia).
    rewrite Hs. constructor.
Qed.

Lemma raises_index_select_last (data : list (list (list Z))) (i : nat) :
  raises_only (fun e => e = IndexError) (Torch.select_last data i).
Proof.
  unfold Torch.select_last. apply raises_mapM. intros r. apply raises_mapM. intros ids.
  destruct (nth_error ids i); [apply raises_ok|].
  intros e H. now inversion H.
Qed.

Lemma raises_index_embedding_forward (e : Torch.nnEmbedding T) (ids : list (list Z)) :
  raises_only (fun e => e = IndexError) (Torch.embedding_forward e ids).
Proof.
  unfold Torch.embedding_forward. apply raises_mapM. intros r. apply raises_mapM.
  intros id. unfold Torch.lookup.
  destruct (_ && _); [apply raises_ok|].
  intros e' H. now inversion H.
Qed.

Lemma raises_index_loop_body (data : list (list (list Z))) (b : Embedding.buckets)
    (it : stream (T:=T)) :
  known_mode C (stream_mode it) ->
  raises_only (fun e => e = IndexError) (Embedding.loop_body C data b it).
Proof.
  destruct it as [i [e m]]. unfold stream_mode. cbn [snd]. intros Hm.
  unfold Embedding.loop_body.
  apply raises_bind; [apply raises_index_select_last|]. intros factor_data.
  apply raises_bind; [apply raises_index_embedding_forward|]. intros factor_embedded.
  apply known_mode_branch in Hm. unfold is_concat, is_sum, is_average in Hm.
  destruct (String.eqb m (FACTORS_COMBINE_CONCAT C)); [apply raises_ok|].
  destruct (String.eqb m (FACTORS_COMBINE_SUM C)); [apply raises_ok|].
  destruct (String.eqb m (FACTORS_COMBINE_AVERAGE C)); [apply raises_ok|].
  simpl in Hm. destruct Hm as [H|[H|H]]; discriminate.
Qed.

Lemma forward_embedded_raises_index (self : Embedding.t T) (data : list (list (list Z)))
    (e : error) :
  known_modes C self -> widths_agree C self ->
  Embedding.forward_embedded C self data = Raise e -> e = IndexError.
Proof.
  intros Hm Hw H. pose proof H as H'. unfold Embedding.forward_embedded in H.
  destruct (Torch.select_last data 0) as [pd|e0] eqn:E0.
  2:{ cbn [bind] in H. inversion H; subst.
      eapply raises_index_select_last. exact E0. }
  cbn [bind] in H.
  destruct (Torch.embedding_forward (Embedding.embedding self) pd) as [em|e1] eqn:E1.
  2:{ cbn [bind] in H. inversion H; subst.
      eapply raises_index_embedding_forward. exact E1. }
  cbn [bind] in H.
  destruct (1 <? Embedding.num_factors self) eqn:En; [|discriminate].
  fold (streams self) in H.
  destruct (foldM (Embedding.loop_body C data) (streams self) _) as [b|e2] eqn:EL.
  - exfalso. apply loop_ok_inv in EL.
    pose proof (lookups_valid self E0 E1 EL) as Hv.
    rewrite (forward_embedded_pointwise Hm Hw Hv) in H'. discriminate.
  - cbn [bind] in H. inversion H; subst.
    assert (Hr : raises_only (fun e => e = IndexError)
                   (foldM (Embedding.loop_body C data) (streams self)
                      {| Embedding.average_factors_embeds := [];
                         Embedding.concat_factors_embeds := [];
                         Embedding.sum_factors_embeds := [] |})).
    { apply raises_foldM. intros b it Hin. apply raises_index_loop_body.
      pose proof (streams_modes (P:=known_mode C) self Hm) as Hs.
      rewrite Forall_forall in Hs. now apply Hs. }
    now apply Hr.
Qed.
End ReturnLemmas.

(** X3. With known combination modes and summed and averaged factors of the
    primary width, [Embedding.forward] (before the dropout) returns exactly
    on the data whose every position holds an index for each stream inside
    its table; on any other data it raises [IndexError], never a shape
    error. *)
Theorem forward_returns_iff_valid
    (T : Type) (DT : DType T) (C : Constants)
    (cfg : EmbeddingConfig.t) (emb : option (Torch.nnEmbedding T))
    (params : nat -> nat -> nat -> T) (data : list (list (list Z))) :
  known_modes C (Embedding.__init__ cfg emb params) ->
  widths_agree C (Embedding.__init__ cfg emb params) ->
  (valid_data (Embedding.__init__ cfg emb params) data <->
   exists out, Embedding.forward_embedded C (Embedding.__init__ cfg emb params) data = Ok out) /\
  (~ valid_data (Embedding.__init__ cfg emb params) data ->
   Embedding.forward_embedded C (Embedding.__init__ cfg emb params) data = Raise IndexError).
Proof.
  intros Hm Hw.
  destruct (Embedding.forward_embedded C (Embedding.__init__ cfg emb params) data)
    as [out|e] eqn:E.
  - assert (Hv : valid_data (Embedding.__init__ cfg emb params) data).
    { eapply forward_embedded_ok_valid; [apply init_num_factors|exact E]. }
    split; [split; [now exists out|intros _; exact Hv]|]. intros Hn. contradiction.
  - assert (Hn : ~ valid_data (Embedding.__init__ cfg emb params) data).
    { intros Hv. rewrite (forward_embedded_pointwise Hm Hw Hv) in E. discriminate. }
    split; [split; [intros Hv; contradiction|intros [out Hout]; discriminate]|].
    intros _. f_equal. eapply forward_embedded_raises_index; eassumption.
Qed.

Lemma short_position_invalid :
  ~ valid_data (@Embedding.__init__ Z (example_config 0) None example_params)
      [[[1; 2; 3; 0]]]%Z.
Proof.
  unfold valid_data. intros H.
  inversion H as [|r rs Hr _]; subst. inversion Hr as [|ids rest Hp _]; subst.
  destruct Hp as [_ [_ Hs]]. rewrite Forall_forall in Hs.
  assert (Hin : exists it, In it (streams (@Embedding.__init__ Z (example_config 0) None
                                             example_params)) /\ fst it = 4).
  { eexists. split; [cbn; right; right; right; left; reflexivity|reflexivity]. }
  destruct Hin as [it [Hin Hfst]]. destruct (Hs it Hin) as [Hlen _].
  rewrite Hfst in Hlen. cbn in Hlen. lia.
Qed.

Lemma forward_returns_iff_valid_witness :
  (exists out,
     @Embedding.forward_embedded Z Z_dtype spec_modes
       (Embedding.__init__ (example_config 0) None example_params) example_data = Ok out) /\
  @Embedding.forward_embedded Z Z_dtype spec_modes
    (Embedding.__init__ (example_config 0) None example_params) [[[1; 2; 3; 0]]]%Z
  = Raise IndexError.
Proof.
  split.
  - apply (@forward_returns_iff_valid Z Z_dtype spec_modes (example_config 0) None
             example_params example_data);
      [apply example_known_modes|apply example_widths_agree|apply example_valid_data].
  - apply (@forward_returns_iff_valid Z Z_dtype spec_modes (example_config 0) None
             example_params [[[1; 2; 3; 0]]]%Z);
      [apply example_known_modes|apply example_widths_agree|apply short_position_invalid].
Defined.

(** ** Batch and sequence axes of the output *)

Lemma same_outer_refl {A : Type} (x : list (list A)) : same_outer x x.
Proof. unfold same_outer. induction x; constructor; auto. Qed.

Lemma same_outer_trans {A B D : Type} (x : list (list A)) (y : list (list B))
    (z : list (list D)) :
  same_outer x y -> same_outer y z -> same_outer x z.
Proof.
  unfold same_outer. intros H. revert z.
  induction H as [|r o x y Hro _ IH]; intros z Hz; inversion Hz; subst; constructor.
  - congruence.
  - now apply IH.
Qed.

Lemma mapM_length {A B : Type} (f : A -> result B) (l : list A) (r : list B) :
  mapM f l = Ok r -> length r = length l.
Proof.
  revert r. induction l as [|x l IH]; intros r H; simpl in H.
  - now inversion H.
  - destruct (f x) as [y|e]; [|discriminate]. cbn [bind] in H.
    destruct (mapM f l) as [ys|e]; [|discriminate]. cbn [bind] in H.
    inversion H; subst. simpl. f_equal. now apply IH.
Qed.

Lemma mapM2_same_outer {A B : Type} (f : A -> result B) (data : list (list A))
    (r : list (list B)) :
  mapM (mapM f) data = Ok r -> same_outer data r.
Proof.
  unfold same_outer. revert r. induction data as [|row data IH]; intros r H; simpl in H.
  - inversion H. constructor.
  - destruct (mapM f row) as [ys|e] eqn:E; [|discriminate]. cbn [bind] in H.
    destruct (mapM (mapM f) data) as [rs|e]; [|discriminate]. cbn [bind] in H.
    inversion H; subst. constructor; [now apply mapM_length in E|now apply IH].
Qed.

Lemma zipM_length {A B D : Type} (h : A -> B -> result D) (a : list A) (b : list B)
    (c : list D) :
  zipM h a b = Ok c -> length c = length a.
Proof.
  revert b c. induction a as [|x a IH]; intros [|y b] c H; simpl in H; try discriminate.
  - now inversion H.
  - destruct (h x y) as [z|e]; [|discriminate]. cbn [bind] in H.
    destruct (zipM h a b) as [zs|e] eqn:E; [|discriminate]. cbn [bind] in H.
    inversion H; subst. simpl. f_equal. now apply (IH b).
Qed.

Lemma zipM2_same_outer {A B D : Type} (h : A -> B -> result D) (a : list (list A))
    (b : list (list B)) (c : list (list D)) :
  zipM (zipM h) a b = Ok c -> same_outer a c.
Proof.
  unfold same_outer. revert b c.
  induction a as [|x a IH]; intros [|y b] c H; simpl in H; try discriminate.
  - inversion H. constructor.
  - destruct (zipM h x y) as [z|e] eqn:E; [|discriminate]. cbn [bind] in H.
    destruct (zipM (zipM h) a b) as [zs|e] eqn:E'; [|discriminate]. cbn [bind] in H.
    inversion H; subst. constructor; [now apply zipM_length in E|now apply (IH b)].
Qed.

Lemma foldM_same_outer {A B : Type} (f : list (list A) -> B -> result (list (list A)))
    (l : list B) (a c : list (list A)) :
  (forall a' x c', f a' x = Ok c' -> same_outer a' c') ->
  foldM f l a = Ok c -> same_outer a c.
Proof.
  intros Hf. revert a. induction l as [|x l IH]; intros a H; simpl in H.
  - inversion H. apply same_outer_refl.
  - destruct (f a x) as [a'|e] eqn:E; [|discriminate]. cbn [bind] in H.
    apply same_outer_trans with (y := a'); [now apply (Hf a x)|now apply IH].
Qed.

Lemma map_same_outer {A B : Type} (g : A -> B) (x : list (list A)) :
  same_outer x (map (map g) x).
Proof.
  unfold same_outer. induction x as [|r x IH]; simpl; constructor; [|exact IH].
  apply length_map.
Qed.

Section OuterLemmas.
Context {T : Type} {DT : DType T}.

Lemma mean_stack_same_outer (t : Torch.tensor3 T) (rest : list (Torch.tensor3 T))
    (c : Torch.tensor3 T) :
  Torch.mean_stack (t :: rest) = Ok c -> same_outer t c.
Proof.
  unfold Torch.mean_stack. intros H.
  destruct (foldM (Torch.strict3 add) rest t) as [s|e] eqn:E; [|discriminate].
  cbn [bind] in H. inversion H; subst.
  apply same_outer_trans with (y := s).
  - revert E. apply foldM_same_outer. intros a' x c'. apply zipM2_same_outer.
  - apply map_same_outer.
Qed.

Lemma sum_same_outer (l : list (Torch.tensor3 T)) (a c : Torch.tensor3 T) :
  foldM Torch.tensor_add l a = Ok c -> same_outer a c.
Proof. apply foldM_same_outer. intros a' x c'. apply zipM2_same_outer. Qed.

Lemma cat_last_same_outer (t : Torch.tensor3 T) (rest : list (Torch.tensor3 T))
    (c : Torch.tensor3 T) :
  Torch.cat_last (t :: rest) = Ok c -> same_outer t c.
Proof.
  unfold Torch.cat_last. apply foldM_same_outer. intros a' x c'. apply zipM2_same_outer.
Qed.
End OuterLemmas.

(** X4. Whenever [Embedding.forward] returns (before the dropout), its
    output has the batch size of the data and, sentence by sentence, the
    sequence length of the data: combining the factors only touches the
    feature axis. No assumption is made on the factors. *)
Theorem forward_keeps_batch_and_sequence
    (T : Type) (DT : DType T) (C : Constants) (self : Embedding.t T)
    (data : list (list (list Z))) (out : Torch.tensor3 T) :
  Embedding.forward_embedded C self data = Ok out ->
  length out = length data /\ same_outer data out.
Proof.
  intros H.
  assert (Hs : same_outer data out).
  { unfold Embedding.forward_embedded in H.
    destruct (Torch.select_last data 0) as [pd|e] eqn:E0; [|discriminate]. cbn [bind] in H.
    destruct (Torch.embedding_forward (Embedding.embedding self) pd) as [em|e] eqn:E1;
      [|discriminate].
    cbn [bind] in H.
    apply mapM2_same_outer in E0. apply mapM2_same_outer in E1.
    apply same_outer_trans with (y := pd); [exact E0|].
    apply same_outer_trans with (y := em); [exact E1|].
    destruct (1 <? Embedding.num_factors self).
    2:{ inversion H. apply same_outer_refl. }
    destruct (foldM (Embedding.loop_body C data) _ _) as [b|e]; [|discriminate].
    cbn [bind] in H.
    destruct (if is_empty (Embedding.average_factors_embeds b) then Ok em
              else Torch.mean_stack (em :: Embedding.average_factors_embeds b))
      as [em1|e] eqn:EA; [|discriminate].
    cbn [bind] in H. rewrite foldM_guard in H.
    destruct (foldM Torch.tensor_add (Embedding.sum_factors_embeds b) em1)
      as [em2|e] eqn:ES; [|discriminate].
    cbn [bind] in H.
    apply same_outer_trans with (y := em1).
    { destruct (is_empty (Embedding.average_factors_embeds b)).
      - inversion EA. apply same_outer_refl.
      - now apply mean_stack_same_outer in EA. }
    apply same_outer_trans with (y := em2); [now apply sum_same_outer in ES|].
    destruct (is_empty (Embedding.concat_factors_embeds b)).
    - inversion H. apply same_outer_refl.
    - now apply cat_last_same_outer in H. }
  split; [|exact Hs]. symmetry. apply (Forall2_length Hs).
Qed.

Lemma forward_keeps_batch_and_sequence_witness :
  length [[[240; 242; 300; 301; 302; 40; 41]; [200; 202; 300; 301; 302; 0; 1]]]%Z
  = length example_data /\
  same_outer example_data
    [[[240; 242; 300; 301; 302; 40; 41]; [200; 202; 300; 301; 302; 0; 1]]]%Z.
Proof.
  apply (@forward_keeps_batch_and_sequence Z Z_dtype spec_modes
           (Embedding.__init__ (example_config 0) None example_params) example_data).
  reflexivity.
Defined.

(** ** The exception of an unknown combination mode *)

Lemma enumerate_app {A : Type} (l1 l2 : list A) (s : nat) :
  enumerate (l1 ++ l2) s = enumerate l1 s ++ enumerate l2 (s + length l1).
Proof.
  unfold enumerate. revert s. induction l1 as [|x l1 IH]; intros s; simpl.
  - now rewrite Nat.add_0_r.
  - replace (s + S (length l1)) with (S s + length l1) by lia.
    now rewrite IH.
Qed.

Lemma foldM_app {A B : Type} (f : A -> B -> result A) (l1 l2 : list B) (a : A) :
  foldM f (l1 ++ l2) a = bind (foldM f l1 a) (foldM f l2).
Proof.
  revert a. induction l1 as [|x l1 IH]; intros a; simpl; [reflexivity|].
  destruct (f a x) as [a'|e]; [|reflexivity]. simpl. apply IH.
Qed.

Section UnknownModeLemmas.
Context {T : Type} {DT : DType T}.
Variable C : Constants.

Lemma loop_body_unknown_value (data : list (list (list Z))) (b : Embedding.buckets)
    (it : stream (T:=T)) :
  ~ known_mode C (stream_mode it) ->
  Forall (Forall (fun ids => stream_valid ids it)) data ->
  Embedding.loop_body C data b it
  = Raise (ValueError ("Unknown combine value for factors: " ++ stream_mode it)%string).
Proof.
  destruct it as [i [e m]]. unfold stream_mode, known_mode, stream_valid, stream_table.
  cbn [fst snd]. intros Hm Hv. unfold Embedding.loop_body.
  rewrite select_last_ok.
  2:{ eapply Forall_impl; [|exact Hv]. intros r Hr.
      eapply Forall_impl; [|exact Hr]. intros ids [Hi _]. exact Hi. }
  cbn [bind]. rewrite embedding_forward_ok.
  2:{ eapply Forall_impl; [|exact Hv]. intros r Hr.
      eapply Forall_impl; [|exact Hr]. intros ids [_ Hi]. exact Hi. }
  cbn [bind].
  destruct (String.eqb_spec m (FACTORS_COMBINE_CONCAT C)); [exfalso; auto|].
  destruct (String.eqb_spec m (FACTORS_COMBINE_SUM C)); [exfalso; auto|].
  destruct (String.eqb_spec m (FACTORS_COMBINE_AVERAGE C)); [exfalso; auto|].
  reflexivity.
Qed.

(** The loop looks a factor up before it tests its mode: whatever the
    mode, a missing column or an index outside the table raises
    [IndexError]. *)
Lemma loop_body_invalid (data : list (list (list Z))) (b : Embedding.buckets)
    (it : stream (T:=T)) :
  ~ Forall (Forall (fun ids => stream_valid ids it)) data ->
  Embedding.loop_body C data b it = Raise IndexError.
Proof.
  destruct it as [i [e m]]. intros Hn. unfold Embedding.loop_body.
  destruct (Torch.select_last data i) as [fd|e1] eqn:E1.
  2:{ cbn [bind]. f_equal. eapply raises_index_select_last. exact E1. }
  cbn [bind].
  destruct (Torch.embedding_forward e fd) as [fe|e2] eqn:E2.
  2:{ cbn [bind]. f_equal. eapply raises_index_embedding_forward. exact E2. }
  exfalso. apply Hn.
  pose proof (select_last_ok_inv _ _ E1) as Hlen.
  rewrite (select_last_ok Hlen) in E1. inversion E1; subst fd.
  apply embedding_forward_ok_inv in E2.
  apply Forall_forall. intros r Hr. apply Forall_forall. intros ids Hids.
  rewrite Forall_forall in Hlen, E2. specialize (Hlen r Hr). specialize (E2 r Hr).
  rewrite Forall_forall in Hlen, E2.
  split; [now apply Hlen|now apply E2].
Qed.

(** The loop up to the first factor of an unknown mode: the factors before
    it are bucketed, then the turn of that factor raises. *)
Lemma loop_first_unknown (data : list (list (list Z))) (pre post : list (stream (T:=T)))
    (it : stream (T:=T)) :
  Forall (fun it' => known_mode C (stream_mode it')) pre ->
  ~ known_mode C (stream_mode it) ->
  Forall (fun it' => Forall (Forall (fun ids => stream_valid ids it')) data) pre ->
  (Forall (Forall (fun ids => stream_valid ids it)) data ->
   foldM (Embedding.loop_body C data) (pre ++ it :: post)
     {| Embedding.average_factors_embeds := [];
        Embedding.concat_factors_embeds := [];
        Embedding.sum_factors_embeds := [] |}
   = Raise (ValueError ("Unknown combine value for factors: " ++ stream_mode it)%string)) /\
  (~ Forall (Forall (fun ids => stream_valid ids it)) data ->
   foldM (Embedding.loop_body C data) (pre ++ it :: post)
     {| Embedding.average_factors_embeds := [];
        Embedding.concat_factors_embeds := [];
        Embedding.sum_factors_embeds := [] |}
   = Raise IndexError).
Proof.
  intros Hpre Hit Hv1.
  rewrite foldM_app.
  pose proof (loop_ok Hpre Hv1 [] [] []) as Hloop.
  match goal with
  | |- context [foldM (Embedding.loop_body C data) pre ?b0] =>
      rewrite (Hloop : foldM (Embedding.loop_body C data) pre b0 = _)
  end.
  cbn [bind foldM]. split; intros Hvit.
  - now rewrite loop_body_unknown_value.
  - now rewrite loop_body_invalid.
Qed.
End UnknownModeLemmas.

(** X5. The loop looks a factor up before it tests its mode, and stops at
    the first failure. When the data is valid for the primary stream and for
    the factors before the first one whose mode is unknown, then: if the
    indices of that factor lie inside its table, [Embedding.forward] raises
    [ValueError("Unknown combine value for factors: <mode>")] for that mode;
    if its column is missing or one of its indices lies outside its table,
    [forward] raises [IndexError] instead, the mode not being tested. The
    factors after it are never reached: nothing is asked of them. *)
Theorem first_unknown_mode_is_reported
    (T : Type) (DT : DType T) (C : Constants)
    (cfg : EmbeddingConfig.t) (emb : option (Torch.nnEmbedding T))
    (params : nat -> nat -> nat -> T)
    (pre post : list FactorConfig.t) (fc : FactorConfig.t)
    (data : list (list (list Z))) :
  factor_list cfg = pre ++ fc :: post ->
  Forall (fun fc' => known_mode C (FactorConfig.combine fc')) pre ->
  ~ known_mode C (FactorConfig.combine fc) ->
  Forall (Forall (fun ids =>
                    0 < length ids /\
                    in_range (Embedding.embedding (Embedding.__init__ cfg emb params))
                             (nth 0 ids 0%Z) /\
                    Forall (stream_valid ids)
                           (firstn (length pre)
                                   (streams (Embedding.__init__ cfg emb params))))) data ->
  (Forall (Forall (fun ids =>
                     stream_valid ids
                       (S (length pre),
                        (factor_table cfg params
                           (Embedding.embedding (Embedding.__init__ cfg emb params))
                           (S (length pre), fc),
                         FactorConfig.combine fc)))) data ->
   Embedding.forward_embedded C (Embedding.__init__ cfg emb params) data
   = Raise (ValueError ("Unknown combine value for factors: "
                        ++ FactorConfig.combine fc)%string)) /\
  (~ Forall (Forall (fun ids =>
                       stream_valid ids
                         (S (length pre),
                          (factor_table cfg params
                             (Embedding.embedding (Embedding.__init__ cfg emb params))
                             (S (length pre), fc),
                           FactorConfig.combine fc)))) data ->
   Embedding.forward_embedded C (Embedding.__init__ cfg emb params) data
   = Raise IndexError).
Proof.
  intros Hfl Hpre Hfc Hv.
  set (self := Embedding.__init__ cfg emb params) in *.
  set (g := fun ifc : nat * FactorConfig.t =>
              (fst ifc, (factor_table cfg params (Embedding.embedding self) ifc,
                         FactorConfig.combine (snd ifc)))).
  assert (Hstreams : streams self
                     = map g (enumerate pre 1)
                       ++ g (1 + length pre, fc)
                       :: map g (enumerate post (1 + length pre + 1))).
  { unfold self. rewrite init_streams, Hfl, enumerate_app, map_app. f_equal.
    unfold enumerate at 1. simpl. f_equal.
    replace (S (S (length pre))) with (1 + length pre + 1) by lia. reflexivity. }
  assert (Hfirst : firstn (length pre) (streams self) = map g (enumerate pre 1)).
  { rewrite Hstreams.
    replace (length pre) with (length (map g (enumerate pre 1)) + 0) at 1
      by (rewrite length_map, length_enumerate; lia).
    rewrite firstn_app_2. cbn [firstn]. apply app_nil_r. }
  rewrite Hfirst in Hv.
  change (S (length pre), (factor_table cfg params (Embedding.embedding self)
                             (S (length pre), fc), FactorConfig.combine fc))
    with (g (1 + length pre, fc)).
  unfold Embedding.forward_embedded.
  rewrite select_last_ok.
  2:{ eapply Forall_impl; [|exact Hv]. intros r Hr.
      eapply Forall_impl; [|exact Hr]. intros ids [Hi _]. exact Hi. }
  cbn [bind]. rewrite embedding_forward_ok.
  2:{ eapply Forall_impl; [|exact Hv]. intros r Hr.
      eapply Forall_impl; [|exact Hr]. intros ids [_ [Hi _]]. exact Hi. }
  cbn [bind].
  assert (En : (1 <? Embedding.num_factors self) = true).
  { apply Nat.ltb_lt. unfold self. rewrite init_num_factors. fold self.
    rewrite Hstreams, length_app. simpl. lia. }
  rewrite En. fold (streams self). rewrite Hstreams.
  assert (Hloop := @loop_first_unknown T C data (map g (enumerate pre 1))
                     (map g (enumerate post (1 + length pre + 1)))
                     (g (1 + length pre, fc))).
  destruct Hloop as [Hvalue Hindex].
  - apply Forall_map, Forall_forall. intros [i fc'] Hin.
    unfold enumerate in Hin. apply in_combine_r in Hin.
    rewrite Forall_forall in Hpre. now apply Hpre.
  - exact Hfc.
  - apply Forall2_swap.
    eapply Forall_impl; [|exact Hv]. intros r Hr.
    eapply Forall_impl; [|exact Hr]. intros ids [_ [_ Hi]]. exact Hi.
  - split; intros Hit.
    + match goal with
      | |- bind ?c _ = _ =>
          replace c with (@Raise (@Embedding.buckets T)
                            (ValueError ("Unknown combine value for factors: "
                                         ++ stream_mode (g (1 + length pre, fc)))%string));
            [reflexivity|symmetry; now apply Hvalue]
      end.
    + match goal with
      | |- bind ?c _ = _ =>
          replace c with (@Raise (@Embedding.buckets T) IndexError);
            [reflexivity|symmetry; now apply Hindex]
      end.
Qed.

(** With the mode "multiply" on the second factor: indices inside the
    tables give the [ValueError]; an index of that factor outside its table
    of 4 rows, or a missing column, gives [IndexError]. *)
Lemma first_unknown_mode_is_reported_witness :
  @Embedding.forward_embedded Z Z_dtype spec_modes
    (Embedding.__init__ unknown_mode_config None example_params) [[[1; 2; 3]]]%Z
  = Raise (ValueError "Unknown combine value for factors: multiply") /\
  @Embedding.forward_embedded Z Z_dtype spec_modes
    (Embedding.__init__ unknown_mode_config None example_params) [[[1; 2; 9]]]%Z
  = Raise IndexError /\
  @Embedding.forward_embedded Z Z_dtype spec_modes
    (Embedding.__init__ unknown_mode_config None example_params) [[[1; 2]]]%Z
  = Raise IndexError.
Proof.
  split; [|split].
  - refine (proj1 (@first_unknown_mode_is_reported Z Z_dtype spec_modes unknown_mode_config
                     None example_params [example_factor "sum" 4 2 false] []
                     (example_factor "multiply" 4 2 false) [[[1; 2; 3]]]%Z _ _ _ _) _).
    + reflexivity.
    + repeat constructor.
    + unfold known_mode. cbn. intros [H|[H|H]]; discriminate.
    + unfold stream_valid, in_range. cbn. repeat constructor; cbn; lia.
    + unfold stream_valid, in_range. cbn. repeat constructor; cbn; lia.
  - refine (proj2 (@first_unknown_mode_is_reported Z Z_dtype spec_modes unknown_mode_config
                     None example_params [example_factor "sum" 4 2 false] []
                     (example_factor "multiply" 4 2 false) [[[1; 2; 9]]]%Z _ _ _ _) _).
    + reflexivity.
    + repeat constructor.
    + unfold known_mode. cbn. intros [H|[H|H]]; discriminate.
    + unfold stream_valid, in_range. cbn. repeat constructor; cbn; lia.
    + intros H. inversion H as [|r rs Hr _]; subst.
      inversion Hr as [|ids rest [_ Hin] _]; subst.
      unfold in_range in Hin. cbn in Hin. lia.
  - refine (proj2 (@first_unknown_mode_is_reported Z Z_dtype spec_modes unknown_mode_config
                     None example_params [example_factor "sum" 4 2 false] []
                     (example_factor "multiply" 4 2 false) [[[1; 2]]]%Z _ _ _ _) _).
    + reflexivity.
    + repeat constructor.
    + unfold known_mode. cbn. intros [H|[H|H]]; discriminate.
    + unfold stream_valid, in_range. cbn. repeat constructor; cbn; lia.
    + intros H. inversion H as [|r rs Hr _]; subst.
      inversion Hr as [|ids rest [Hlen _] _]; subst.
      cbn in Hlen. lia.
Defined.

(** ** The mask handed to the encoder blocks *)

Lemma flat_repeat_length {A : Type} (l : list A) (k : nat) :
  length (flat_map (fun r => repeat r k) l) = length l * k.
Proof.
  induction l as [|r l IH]; simpl; [reflexivity|].
  now rewrite length_app, repeat_length, IH.
Qed.

Lemma flat_repeat_nth {A : Type} (l : list A) (k b h : nat) (row : A) :
  nth_error l b = Some row -> h < k ->
  nth_error (flat_map (fun r => repeat r k) l) (b * k + h) = Some row.
Proof.
  revert b. induction l as [|r l IH]; intros [|b] Hb Hh; simpl in Hb; try discriminate.
  - inversion Hb; subst. simpl.
    rewrite nth_error_app1 by (rewrite repeat_length; exact Hh).
    now apply nth_error_repeat.
  - cbn [flat_map].
    rewrite nth_error_app2 by (rewrite repeat_length; simpl; lia).
    rewrite repeat_length.
    replace (S b * k + h - k) with (b * k + h) by (simpl; lia).
    now apply IH.
Qed.

Section BlockArgumentLemmas.
Context {T : Type} {DT : DType T} {RT : Runtime T}.

(** [forward] calls the blocks with one mask and one pair of biases only:
    blocks that agree there give the same run. *)
Lemma forward_with_blocks (CO : Collaborators T) (self : TransformerEncoder.t T)
    (blocks : Transformer.TransformerEncoderBlock -> Torch.tensor3 T ->
              Transformer.att_mask -> option (list T) -> option (list T) -> RNG ->
              result (Torch.tensor3 T * RNG))
    (data : Torch.tensor3 T) (valid_length : list Z) (rng : RNG)
    (m : Transformer.att_mask) (q p : option (list T)) :
  (forall x y, PositionalEmbeddings_forward (TransformerEncoder.pos_embedding self) x = Ok y ->
               Torch.size1 y = Torch.size1 x) ->
  (forall p' x r, Torch.size1 (fst (Dropout_forward p' x r)) = Torch.size1 x) ->
  m = (if negb (TransformerEncoder.using_native_mha self)
       then Transformer.PerHead
              (TransformerEncoder.expand_mask
                 (Layers.prepare_source_length_mask valid_length
                    (TransformerConfig.attention_heads (TransformerEncoder.config self))
                    (Torch.size1 data))
                 (TransformerConfig.attention_heads (TransformerEncoder.config self))
                 (Torch.size1 data))
       else Transformer.SingleHead
              (Layers.prepare_source_length_mask valid_length
                 (TransformerConfig.attention_heads (TransformerEncoder.config self))
                 (Torch.size1 data))) ->
  q = (if TransformerEncoder.using_native_mha self
       then TransformerEncoder.mha_qkv_bias self else None) ->
  p = (if TransformerEncoder.using_native_mha self
       then TransformerEncoder.mha_proj_bias self else None) ->
  (forall blk x r, In blk (TransformerEncoder.layers self) ->
                   blocks blk x m q p r = TransformerEncoderBlock_forward blk x m q p r) ->
  TransformerEncoder.forward (CO:=with_blocks CO blocks) self data valid_length rng
  = TransformerEncoder.forward (CO:=CO) self data valid_length rng.
Proof.
  intros Hpos Hdrop Hm Hq Hp Hagree.
  unfold TransformerEncoder.forward.
  change (@PositionalEmbeddings_forward T RT (with_blocks CO blocks))
    with (@PositionalEmbeddings_forward T RT CO).
  change (@TransformerProcessBlock_forward T RT (with_blocks CO blocks))
    with (@TransformerProcessBlock_forward T RT CO).
  destruct (PositionalEmbeddings_forward (TransformerEncoder.pos_embedding self) data)
    as [data1|e] eqn:E1; [|reflexivity].
  cbn [bind].
  assert (Hsize : Torch.size1
                    (fst match TransformerEncoder.dropout self with
                         | Some p' => Dropout_forward p' data1 rng
                         | None => (data1, rng)
                         end) = Torch.size1 data).
  { destruct (TransformerEncoder.dropout self) as [p'|].
    - rewrite Hdrop. now apply Hpos.
    - cbn [fst]. now apply Hpos. }
  destruct (match TransformerEncoder.dropout self with
            | Some p' => Dropout_forward p' data1 rng
            | None => (data1, rng)
            end) as [data2 rng2].
  cbn [fst] in Hsize. rewrite Hsize, <- Hm.
  match goal with
  | |- bind (foldM ?f ?l ?a) _ = bind (foldM ?g ?l ?a) _ =>
      rewrite (@foldM_ext_in _ _ f g l a); [reflexivity|]
  end.
  intros [x r] blk Hin. unfold TransformerEncoder.run_layer. cbn [fst snd].
  rewrite <- Hq, <- Hp.
  change (@TransformerEncoderBlock_forward T RT (with_blocks CO blocks)) with blocks.
  now apply Hagree.
Qed.
End BlockArgumentLemmas.

(** X6. The mask and the biases [TransformerEncoder.forward] hands to the
    encoder blocks. Outside the native path every block is called with the
    single-head length mask replicated per head and per query position and
    with no bias; on the native path with the single-head mask itself and
    the two bias buffers of the encoder: replacing the blocks by others that
    agree with them on these arguments leaves [forward] unchanged, whatever
    the others do on any other mask or bias. The replicated mask has
    batch * heads entries, and the entry of sentence [b] and head [h], at
    index [b * heads + h], holds the mask row of sentence [b] once per query
    position, [max_len] times. The positional embeddings and the dropout
    keep the sequence length of the data. *)
Theorem blocks_receive_expanded_mask
    (T : Type) (DT : DType T) (RT : Runtime T) (CO : Collaborators T)
    (self : TransformerEncoder.t T)
    (blocks : Transformer.TransformerEncoderBlock -> Torch.tensor3 T ->
              Transformer.att_mask -> option (list T) -> option (list T) -> RNG ->
              result (Torch.tensor3 T * RNG))
    (data : Torch.tensor3 T) (valid_length : list Z) (rng : RNG) :
  (forall x y, PositionalEmbeddings_forward (TransformerEncoder.pos_embedding self) x = Ok y ->
               Torch.size1 y = Torch.size1 x) ->
  (forall p x r, Torch.size1 (fst (Dropout_forward p x r)) = Torch.size1 x) ->
  (TransformerEncoder.using_native_mha self = false ->
   (forall blk x r,
      In blk (TransformerEncoder.layers self) ->
      blocks blk x
        (Transformer.PerHead
           (TransformerEncoder.expand_mask
              (Layers.prepare_source_length_mask valid_length
                 (TransformerConfig.attention_heads (TransformerEncoder.config self))
                 (Torch.size1 data))
              (TransformerConfig.attention_heads (TransformerEncoder.config self))
              (Torch.size1 data)))
        None None r
      = TransformerEncoderBlock_forward blk x
          (Transformer.PerHead
             (TransformerEncoder.expand_mask
                (Layers.prepare_source_length_mask valid_length
                   (TransformerConfig.attention_heads (TransformerEncoder.config self))
                   (Torch.size1 data))
                (TransformerConfig.attention_heads (TransformerEncoder.config self))
                (Torch.size1 data)))
          None None r) ->
   TransformerEncoder.forward (CO:=with_blocks CO blocks) self data valid_length rng
   = TransformerEncoder.forward (CO:=CO) self data valid_length rng) /\
  (TransformerEncoder.using_native_mha self = true ->
   (forall blk x r,
      In blk (TransformerEncoder.layers self) ->
      blocks blk x
        (Transformer.SingleHead
           (Layers.prepare_source_length_mask valid_length
              (TransformerConfig.attention_heads (TransformerEncoder.config self))
              (Torch.size1 data)))
        (TransformerEncoder.mha_qkv_bias self) (TransformerEncoder.mha_proj_bias self) r
      = TransformerEncoderBlock_forward blk x
          (Transformer.SingleHead
             (Layers.prepare_source_length_mask valid_length
                (TransformerConfig.attention_heads (TransformerEncoder.config self))
                (Torch.size1 data)))
          (TransformerEncoder.mha_qkv_bias self) (TransformerEncoder.mha_proj_bias self) r) ->
   TransformerEncoder.forward (CO:=with_blocks CO blocks) self data valid_length rng
   = TransformerEncoder.forward (CO:=CO) self data valid_length rng) /\
  (forall (single : list (list bool)) (heads max_len b h : nat) (row : list bool),
     nth_error single b = Some row ->
     h < heads ->
     length (TransformerEncoder.expand_mask single heads max_len) = length single * heads /\
     nth_error (TransformerEncoder.expand_mask single heads max_len) (b * heads + h)
     = Some (repeat row max_len)).
Proof.
  intros Hpos Hdrop. split; [|split].
  - intros Hnative Hagree.
    eapply forward_with_blocks; try eassumption; now rewrite Hnative.
  - intros Hnative Hagree.
    eapply forward_with_blocks; try eassumption; now rewrite Hnative.
  - intros single heads max_len b h row Hb Hh. unfold TransformerEncoder.expand_mask. split.
    + rewrite length_map. apply flat_repeat_length.
    + rewrite nth_error_map, (flat_repeat_nth _ _ Hb Hh). reflexivity.
Qed.

(** Two sentences of three positions, lengths 2 and 3, two heads. Blocks
    that raise unless they get the replicated mask written out below and no
    bias run as the identity blocks do, outside the native path; blocks that
    raise unless they get the single-head mask and the zero biases do so on
    the native path. *)
Lemma blocks_receive_expanded_mask_witness :
  TransformerEncoder.forward
    (CO:=with_blocks (Z_collaborators false)
           (mask_checking_blocks
              (Transformer.PerHead
                 [repeat [true; true; false] 3; repeat [true; true; false] 3;
                  repeat [true; true; true] 3; repeat [true; true; true] 3])
              None None))
    (TransformerEncoder.__init__ (DT:=Z_dtype) (CO:=Z_collaborators false)
       (example_transformer_config 0.5) false)
    example_embedded [2; 3]%Z 0
  = TransformerEncoder.forward (CO:=Z_collaborators false)
      (TransformerEncoder.__init__ (DT:=Z_dtype) (CO:=Z_collaborators false)
         (example_transformer_config 0.5) false)
      example_embedded [2; 3]%Z 0 /\
  TransformerEncoder.forward
    (CO:=with_blocks (Z_collaborators true)
           (mask_checking_blocks
              (Transformer.SingleHead [[true; true; false]; [true; true; true]])
              (Some (repeat 0%Z 48)) (Some (repeat 0%Z 16))))
    (TransformerEncoder.__init__ (DT:=Z_dtype) (CO:=Z_collaborators true)
       (example_transformer_config 0.5) true)
    example_embedded [2; 3]%Z 0
  = TransformerEncoder.forward (CO:=Z_collaborators true)
      (TransformerEncoder.__init__ (DT:=Z_dtype) (CO:=Z_collaborators true)
         (example_transformer_config 0.5) true)
      example_embedded [2; 3]%Z 0 /\
  nth_error (TransformerEncoder.expand_mask [[true; true; false]; [true; true; true]] 2 3)
            (1 * 2 + 0)
  = Some (repeat [true; true; true] 3).
Proof.
  split; [|split].
  - refine (proj1 (@blocks_receive_expanded_mask Z Z_dtype Z_runtime (Z_collaborators false)
                     (TransformerEncoder.__init__ (DT:=Z_dtype) (CO:=Z_collaborators false)
                        (example_transformer_config 0.5) false)
                     (mask_checking_blocks
                        (Transformer.PerHead
                           [repeat [true; true; false] 3; repeat [true; true; false] 3;
                            repeat [true; true; true] 3; repeat [true; true; true] 3])
                        None None)
                     example_embedded [2; 3]%Z 0%nat _ _) _ _).
    + intros x y H. cbn in H. now inversion H.
    + intros p x r. apply map3_size1.
    + reflexivity.
    + intros blk x r _. reflexivity.
  - refine (proj1 (proj2 (@blocks_receive_expanded_mask Z Z_dtype Z_runtime
                            (Z_collaborators true)
                            (TransformerEncoder.__init__ (DT:=Z_dtype) (CO:=Z_collaborators true)
                               (example_transformer_config 0.5) true)
                            (mask_checking_blocks
                               (Transformer.SingleHead
                                  [[true; true; false]; [true; true; true]])
                               (Some (repeat 0%Z 48)) (Some (repeat 0%Z 16)))
                            example_embedded [2; 3]%Z 0%nat _ _)) _ _).
    + intros x y H. cbn in H. now inversion H.
    + intros p x r. apply map3_size1.
    + reflexivity.
    + intros blk x r _. reflexivity.
  - refine (proj2 (proj2 (proj2 (@blocks_receive_expanded_mask Z Z_dtype Z_runtime
                                   (Z_collaborators false)
                                   (TransformerEncoder.__init__ (DT:=Z_dtype)
                                      (CO:=Z_collaborators false)
                                      (example_transformer_config 0.5) false)
                                   (fun _ x _ _ _ r => Ok (x, r))
                                   example_embedded [2; 3]%Z 0%nat _ _))
                            [[true; true; false]; [true; true; true]] 2 3 1 0
                            [true; true; true] _ _)).
    + intros x y H. cbn in H. now inversion H.
    + intros p x r. apply map3_size1.
    + reflexivity.
    + lia.
Defined.

(** Such blocks do check their arguments: with the single-head mask in
    place of the replicated one they raise, where the identity blocks let
    [forward] return. *)
Lemma mask_checking_blocks_raise :
  mask_checking_blocks
    (Transformer.PerHead
       [repeat [true; true; false] 3; repeat [true; true; false] 3;
        repeat [true; true; true] 3; repeat [true; true; true] 3])
    None None
    {| Transformer.block_config := example_transformer_config 0.5;
       Transformer.block_inference_only := false;
       Transformer.index := 0 |}
    example_embedded (Transformer.SingleHead [[true; true; false]; [true; true; true]])
    None None 0
  = Raise RuntimeError /\
  TransformerEncoder.forward (CO:=Z_collaborators false)
    (TransformerEncoder.__init__ (DT:=Z_dtype) (CO:=Z_collaborators false)
       (example_transformer_config 0.5) false)
    example_embedded [2; 3]%Z 0
  = Ok (example_embedded, [2; 3]%Z, [[true; true; false]; [true; true; true]], 1).
Proof. split; reflexivity. Qed.

(** ** Shape of the encoded sequence *)

Lemma transpose01_shape {T : Type} (b s w : nat) (t : Torch.tensor3 T) :
  0 < b -> has_shape b s w t -> has_shape s b w (Torch.transpose01 t).
Proof.
  intros Hb [Hlen Hrows]. destruct t as [|r t]; [simpl in Hlen; lia|].
  unfold Torch.transpose01.
  assert (Hr : length r = s) by (inversion Hrows as [|? ? [Hr _] _]; exact Hr).
  split; [now rewrite length_map, length_seq|].
  apply Forall_map, Forall_forall. intros j Hj. apply in_seq in Hj.
  split; [now rewrite length_map|].
  apply Forall_map. eapply Forall_impl; [|exact Hrows].
  intros r' [Hr' Hw]. cbv beta. rewrite Forall_forall in Hw. apply Hw.
  apply nth_In. lia.
Qed.

Lemma map3_shape {T : Type} (f : T -> T) (b s w : nat) (t : Torch.tensor3 T) :
  has_shape b s w t -> has_shape b s w (Torch.map3 f t).
Proof.
  intros [Hlen Hrows]. unfold Torch.map3. split; [now rewrite length_map|].
  apply Forall_map. eapply Forall_impl; [|exact Hrows].
  intros r [Hr Hw]. split; [now rewrite length_map|].
  apply Forall_map. eapply Forall_impl; [|exact Hw].
  intros v Hv. now rewrite length_map.
Qed.

Section EncoderShapeLemmas.
Context {T : Type} {DT : DType T} {RT : Runtime T} {CO : Collaborators T}.

Lemma layers_keep_shape (self : TransformerEncoder.t T) (m : Transformer.att_mask)
    (blocks : list Transformer.TransformerEncoderBlock) (b s w : nat) :
  (forall blk x m' q p r y r',
     In blk blocks ->
     TransformerEncoderBlock_forward blk x m' q p r = Ok (y, r') ->
     has_shape b s w x -> has_shape b s w y) ->
  forall x r y r',
    foldM (TransformerEncoder.run_layer self m) blocks (x, r) = Ok (y, r') ->
    has_shape b s w x -> has_shape b s w y.
Proof.
  induction blocks as [|blk blocks IH]; intros Hblk x r y r' H Hx; simpl in H.
  - now inversion H; subst.
  - destruct (TransformerEncoder.run_layer self m (x, r) blk) as [[x1 r1]|e] eqn:E;
      [|discriminate].
    cbn [bind] in H. apply (IH (fun blk' x' m' q p r0 y' r0' Hin => Hblk blk' x' m' q p r0 y' r0'
                                  (or_intror Hin)) x1 r1 y r' H).
    unfold TransformerEncoder.run_layer in E. cbn [fst snd] in E.
    apply (Hblk _ _ _ _ _ _ _ _ (or_introl eq_refl) E). exact Hx.
Qed.
End EncoderShapeLemmas.

(** X7. The layout the blocks work on, and the shape of the encoded
    sequence. Outside the native path [TransformerEncoder.forward] makes the
    data time major for the blocks and the final process block and batch
    major again before it returns; on the native path the data stays batch
    major. So, for a non-empty batch of shape (b, s, w) with non-empty
    sequences, positional embeddings and dropout that keep this shape, it is
    enough that the blocks and the final process block keep the shape
    (s, b, w) outside the native path, and (b, s, w) on it, for a returning
    [forward] to return data of the input's shape (b, s, w); nothing is
    asked of the blocks on data of another shape. *)
Theorem encoded_sequence_has_input_shape
    (T : Type) (DT : DType T) (RT : Runtime T) (CO : Collaborators T)
    (self : TransformerEncoder.t T) (data : Torch.tensor3 T)
    (valid_length : list Z) (rng : RNG)
    (enc : Torch.tensor3 T) (vl : list Z) (mask : list (list bool)) (rng' : RNG)
    (b s w : nat) :
  (forall x y,
     PositionalEmbeddings_forward (TransformerEncoder.pos_embedding self) x = Ok y ->
     has_shape b s w x -> has_shape b s w y) ->
  (forall p x r,
     has_shape b s w x -> has_shape b s w (fst (Dropout_forward p x r))) ->
  (forall blk x m q p r y r',
     In blk (TransformerEncoder.layers self) ->
     TransformerEncoderBlock_forward blk x m q p r = Ok (y, r') ->
     (TransformerEncoder.using_native_mha self = false ->
      has_shape s b w x -> has_shape s b w y) /\
     (TransformerEncoder.using_native_mha self = true ->
      has_shape b s w x -> has_shape b s w y)) ->
  (forall x r y r',
     TransformerProcessBlock_forward (TransformerEncoder.final_process self) x r = Ok (y, r') ->
     (TransformerEncoder.using_native_mha self = false ->
      has_shape s b w x -> has_shape s b w y) /\
     (TransformerEncoder.using_native_mha self = true ->
      has_shape b s w x -> has_shape b s w y)) ->
  0 < b -> 0 < s ->
  has_shape b s w data ->
  TransformerEncoder.forward self data valid_length rng = Ok (enc, vl, mask, rng') ->
  has_shape b s w enc.
Proof.
  intros Hpos Hdrop Hblk Hfin Hb Hs Hdata H.
  unfold TransformerEncoder.forward in H.
  destruct (PositionalEmbeddings_forward (TransformerEncoder.pos_embedding self) data)
    as [data1|e] eqn:E1; [|discriminate].
  cbn [bind] in H.
  assert (H1 : has_shape b s w data1) by now apply (Hpos _ _ E1).
  assert (H2 : has_shape b s w
                 (fst match TransformerEncoder.dropout self with
                      | Some p => Dropout_forward p data1 rng
                      | None => (data1, rng)
                      end)).
  { destruct (TransformerEncoder.dropout self); [now apply Hdrop|exact H1]. }
  destruct (match TransformerEncoder.dropout self with
            | Some p => Dropout_forward p data1 rng
            | None => (data1, rng)
            end) as [data2 rng2].
  cbn [fst] in H2.
  destruct (TransformerEncoder.using_native_mha self) eqn:En; cbn [negb] in H.
  - destruct (foldM _ _ _) as [[x1 r1]|e] eqn:EL; [|discriminate]. cbn [bind fst snd] in H.
    destruct (TransformerProcessBlock_forward _ x1 r1) as [[x2 r2]|e] eqn:EF; [|discriminate].
    cbn [bind fst snd] in H. inversion H; subst.
    apply (proj2 (Hfin _ _ _ _ EF) eq_refl).
    eapply layers_keep_shape; [|exact EL|exact H2].
    intros blk x m' q p r y r' Hin Hy Hx.
    exact (proj2 (Hblk _ _ _ _ _ _ _ _ Hin Hy) eq_refl Hx).
  - destruct (foldM _ _ _) as [[x1 r1]|e] eqn:EL; [|discriminate]. cbn [bind fst snd] in H.
    destruct (TransformerProcessBlock_forward _ x1 r1) as [[x2 r2]|e] eqn:EF; [|discriminate].
    cbn [bind fst snd] in H. inversion H; subst.
    apply transpose01_shape; [exact Hs|].
    apply (proj1 (Hfin _ _ _ _ EF) eq_refl).
    eapply layers_keep_shape; [|exact EL|now apply transpose01_shape].
    intros blk x m' q p r y r' Hin Hy Hx.
    exact (proj1 (Hblk _ _ _ _ _ _ _ _ Hin Hy) eq_refl Hx).
Qed.

Lemma has_shapeb_spec {T : Type} (b s w : nat) (t : Torch.tensor3 T) :
  has_shapeb b s w t = true -> has_shape b s w t.
Proof.
  unfold has_shapeb, has_shape. intros H.
  apply andb_prop in H. destruct H as [Hb Hr]. split; [now apply Nat.eqb_eq|].
  rewrite forallb_forall in Hr. apply Forall_forall. intros r Hin.
  specialize (Hr r Hin). apply andb_prop in Hr. destruct Hr as [Hs Hw].
  split; [now apply Nat.eqb_eq|].
  rewrite forallb_forall in Hw. apply Forall_forall. intros v Hv.
  now apply Nat.eqb_eq, Hw.
Qed.

(** Two sentences of three positions of width 1, outside the native path:
    blocks that raise on anything but time-major data of shape (3, 2, 1)
    let [forward] return, and the result has the input's shape (2, 3, 1). *)
Lemma encoded_sequence_has_input_shape_witness :
  TransformerEncoder.forward
    (CO:=with_blocks (Z_collaborators false) (shape_checking_blocks 3 2 1))
    (TransformerEncoder.__init__ (DT:=Z_dtype) (CO:=Z_collaborators false)
       (example_transformer_config 0.5) false)
    example_embedded [2; 3]%Z 0
  = Ok (example_embedded, [2; 3]%Z, [[true; true; false]; [true; true; true]], 1) /\
  has_shape 2 3 1 example_embedded.
Proof.
  split; [reflexivity|].
  apply (@encoded_sequence_has_input_shape Z Z_dtype Z_runtime
           (with_blocks (Z_collaborators false) (shape_checking_blocks 3 2 1))
           (TransformerEncoder.__init__ (DT:=Z_dtype) (CO:=Z_collaborators false)
              (example_transformer_config 0.5) false)
           example_embedded [2; 3]%Z 0%nat
           example_embedded [2; 3]%Z [[true; true; false]; [true; true; true]] 1%nat
           2 3 1).
  - intros x y H Hx. cbn in H. now inversion H; subst.
  - intros p x r Hx. now apply map3_shape.
  - intros blk x m q p r y r' _ H.
    change (shape_checking_blocks 3 2 1 blk x m q p r = Ok (y, r')) in H.
    unfold shape_checking_blocks in H.
    destruct (has_shapeb 3 2 1 x) eqn:E; [|discriminate].
    inversion H; subst. split; [intros _ Hx; exact Hx|intros Hn; discriminate Hn].
  - intros x r y r' H. cbn in H. inversion H; subst.
    split; intros _ Hx; exact Hx.
  - lia.
  - lia.
  - unfold has_shape. cbn. repeat constructor.
  - reflexivity.
Defined.

(** Blocks that only take batch-major data of shape (2, 3, 1) make the same
    run raise: outside the native path the blocks are not given the data in
    the layout of the input. *)
Lemma batch_major_blocks_raise :
  TransformerEncoder.forward
    (CO:=with_blocks (Z_collaborators false) (shape_checking_blocks 2 3 1))
    (TransformerEncoder.__init__ (DT:=Z_dtype) (CO:=Z_collaborators false)
       (example_transformer_config 0.5) false)
    example_embedded [2; 3]%Z 0
  = Raise RuntimeError.
Proof. reflexivity. Qed.

(** ** Batches *)

Lemma pointwise_app {A B : Type} (g : A -> B) (d1 d2 : list (list A)) :
  pointwise g (d1 ++ d2) = pointwise g d1 ++ pointwise g d2.
Proof. unfold pointwise. apply map_app. Qed.

(** X8. Sentences are embedded independently of the batch they come in:
    with known modes and agreeing widths, [Embedding.forward] (before the
    dropout) on two batches joined is the outputs on each joined, and it
    raises as soon as one of them does. *)
Theorem forward_of_joined_batches
    (T : Type) (DT : DType T) (C : Constants)
    (cfg : EmbeddingConfig.t) (emb : option (Torch.nnEmbedding T))
    (params : nat -> nat -> nat -> T) (data1 data2 : list (list (list Z))) :
  known_modes C (Embedding.__init__ cfg emb params) ->
  widths_agree C (Embedding.__init__ cfg emb params) ->
  Embedding.forward_embedded C (Embedding.__init__ cfg emb params) (data1 ++ data2)
  = (out1 <- Embedding.forward_embedded C (Embedding.__init__ cfg emb params) data1 ;;
     out2 <- Embedding.forward_embedded C (Embedding.__init__ cfg emb params) data2 ;;
     Ok (out1 ++ out2)).
Proof.
  intros Hm Hw.
  set (self := Embedding.__init__ cfg emb params) in *.
  assert (Hn : Embedding.num_factors self = 1 + length (streams self))
    by apply init_num_factors.
  assert (Hjoin : forall e, Embedding.forward_embedded C self (data1 ++ data2) = Raise e ->
                            e = IndexError).
  { intros e He. eapply forward_embedded_raises_index; eassumption. }
  destruct (Embedding.forward_embedded C self data1) as [out1|e1] eqn:E1.
  - pose proof (forward_embedded_ok_valid C self data1 Hn E1) as Hv1. cbn [bind].
    destruct (Embedding.forward_embedded C self data2) as [out2|e2] eqn:E2.
    + pose proof (forward_embedded_ok_valid C self data2 Hn E2) as Hv2. cbn [bind].
      rewrite (forward_embedded_pointwise Hm Hw Hv1) in E1.
      rewrite (forward_embedded_pointwise Hm Hw Hv2) in E2.
      inversion E1; inversion E2; subst.
      rewrite forward_embedded_pointwise; try assumption.
      * now rewrite pointwise_app.
      * unfold valid_data. apply Forall_app. split; assumption.
    + cbn [bind].
      assert (He2 : e2 = IndexError) by (eapply forward_embedded_raises_index; eassumption).
      subst e2.
      destruct (Embedding.forward_embedded C self (data1 ++ data2)) as [out|e] eqn:E.
      * exfalso. apply (forward_embedded_ok_valid C self (data1 ++ data2) Hn) in E.
        unfold valid_data in E. apply Forall_app in E. destruct E as [_ Hv2].
        rewrite (forward_embedded_pointwise Hm Hw Hv2) in E2. discriminate.
      * f_equal. now apply Hjoin.
  - cbn [bind].
    assert (He1 : e1 = IndexError) by (eapply forward_embedded_raises_index; eassumption).
    subst e1.
    destruct (Embedding.forward_embedded C self (data1 ++ data2)) as [out|e] eqn:E.
    + exfalso. apply (forward_embedded_ok_valid C self (data1 ++ data2) Hn) in E.
      unfold valid_data in E. apply Forall_app in E. destruct E as [Hv1 _].
      rewrite (forward_embedded_pointwise Hm Hw Hv1) in E1. discriminate.
    + f_equal. now apply Hjoin.
Qed.

Lemma forward_of_joined_batches_witness :
  @Embedding.forward_embedded Z Z_dtype spec_modes
    (Embedding.__init__ (example_config 0) None example_params)
    (example_data ++ [[[1; 2; 3; 0]]]%Z)
  = (out1 <- @Embedding.forward_embedded Z Z_dtype spec_modes
               (Embedding.__init__ (example_config 0) None example_params) example_data ;;
     out2 <- @Embedding.forward_embedded Z Z_dtype spec_modes
               (Embedding.__init__ (example_config 0) None example_params)
               [[[1; 2; 3; 0]]]%Z ;;
     Ok (out1 ++ out2)).
Proof.
  apply (@forward_of_joined_batches Z Z_dtype spec_modes (example_config 0) None
           example_params example_data [[[1; 2; 3; 0]]]%Z).
  - apply example_known_modes.
  - apply example_widths_agree.
Defined.

(** ** An embedding without factors *)

(** X9. Without factors ([factor_configs] absent or empty) [forward] is the
    lookup of column 0 in the primary table, the table handed to
    [__init__] when there is one, with the exceptions of that lookup; the
    combination modes play no part. *)
Theorem forward_without_factors
    (T : Type) (DT : DType T) (C : Constants)
    (cfg : EmbeddingConfig.t) (emb : option (Torch.nnEmbedding T))
    (params : nat -> nat -> nat -> T) (data : list (list (list Z))) :
  factor_list cfg = [] ->
  Embedding.forward_embedded C (Embedding.__init__ cfg emb params) data
  = (primary_data <- Torch.select_last data 0 ;;
     Torch.embedding_forward
       match emb with
       | Some e => e
       | None => nn_Embedding (EmbeddingConfig.vocab_size cfg)
                   (EmbeddingConfig.num_embed cfg)
                   (EmbeddingConfig.allow_sparse_grad cfg) (params 0)
       end primary_data).
Proof.
  intros Hfl. unfold Embedding.forward_embedded.
  assert (Hn : Embedding.num_factors (Embedding.__init__ cfg emb params) = 1).
  { unfold Embedding.__init__, EmbeddingConfig.num_factors, factor_list in *.
    cbn [Embedding.num_factors].
    destruct (EmbeddingConfig.factor_configs cfg); [now subst|reflexivity]. }
  rewrite Hn. cbn [Nat.ltb Nat.leb].
  destruct (Torch.select_last data 0) as [pd|e]; [|reflexivity]. cbn [bind].
  unfold Embedding.__init__. cbn [Embedding.embedding].
  destruct (Torch.embedding_forward _ pd); reflexivity.
Qed.

Lemma forward_without_factors_witness :
  @Embedding.forward_embedded Z Z_dtype spec_modes
    (Embedding.__init__ plain_config None example_params) [[[3]; [100]]]%Z
  = (primary_data <- Torch.select_last [[[3]; [100]]]%Z 0 ;;
     Torch.embedding_forward (nn_Embedding 100 8 false (example_params 0)) primary_data).
Proof.
  apply (@forward_without_factors Z Z_dtype spec_modes plain_config None example_params
           [[[3]; [100]]]%Z).
  reflexivity.
Defined.

(** ** A summed factor of width 1 *)

Lemma add_broadcast_single {T : Type} {DT : DType T} (u : list T) (y : T) :
  Torch.add_broadcast u [y] = Ok (map (fun x => add x y) u).
Proof.
  unfold Torch.add_broadcast. destruct u as [|x [|x' u]]; reflexivity.
Qed.

(** X10. The width of a summed factor is not checked against the primary
    width: a summed factor whose own table has width 1 is added to every
    feature of the primary embedding, whatever the primary width. *)
Theorem width_one_sum_factor_is_broadcast
    (T : Type) (DT : DType T) (C : Constants)
    (cfg : EmbeddingConfig.t) (emb : option (Torch.nnEmbedding T))
    (params : nat -> nat -> nat -> T) (fc : FactorConfig.t)
    (data : list (list (list Z))) :
  FACTORS_COMBINE_CONCAT C <> FACTORS_COMBINE_SUM C ->
  factor_list cfg = [fc] ->
  FactorConfig.combine fc = FACTORS_COMBINE_SUM C ->
  FactorConfig.share_embedding fc = false ->
  FactorConfig.num_embed fc = 1 ->
  valid_data (Embedding.__init__ cfg emb params) data ->
  Embedding.forward_embedded C (Embedding.__init__ cfg emb params) data
  = Ok (pointwise
          (fun ids =>
             map (fun x => add x (params 1 (Z.to_nat (nth 1 ids 0%Z)) 0))
                 (Torch.row (Embedding.embedding (Embedding.__init__ cfg emb params))
                            (nth 0 ids 0%Z)))
          data).
Proof.
  intros HC Hfl Hsum Hshare Hone Hv.
  set (self := Embedding.__init__ cfg emb params) in *.
  set (it := (1, (nn_Embedding (FactorConfig.vocab_size fc) 1
                    (EmbeddingConfig.allow_sparse_grad cfg) (params 1),
                  FACTORS_COMBINE_SUM C)) : stream (T:=T)).
  assert (Hstreams : streams self = [it]).
  { unfold self. rewrite init_streams, Hfl. cbn. unfold factor_table. cbn [fst snd].
    now rewrite Hshare, Hone, Hsum. }
  assert (Hcat : is_concat C (FACTORS_COMBINE_SUM C) = false).
  { unfold is_concat. apply String.eqb_neq. congruence. }
  assert (His : is_sum C (FACTORS_COMBINE_SUM C) = true).
  { unfold is_sum. unfold is_concat in Hcat. now rewrite Hcat, String.eqb_refl. }
  assert (Hia : is_average C (FACTORS_COMBINE_SUM C) = false).
  { unfold is_average. unfold is_concat in Hcat. now rewrite Hcat, String.eqb_refl. }
  unfold Embedding.forward_embedded.
  rewrite select_last_ok.
  2:{ eapply Forall_impl; [|exact Hv]. intros r Hr.
      eapply Forall_impl; [|exact Hr]. intros ids [Hi _]. exact Hi. }
  cbn [bind]. rewrite embedding_forward_ok.
  2:{ eapply Forall_impl; [|exact Hv]. intros r Hr.
      eapply Forall_impl; [|exact Hr]. intros ids [_ [Hi _]]. exact Hi. }
  cbn [bind].
  assert (En : (1 <? Embedding.num_factors self) = true).
  { apply Nat.ltb_lt. unfold self. rewrite init_num_factors. fold self.
    rewrite Hstreams. simpl. lia. }
  rewrite En. fold (streams self).
  assert (Hloop : foldM (Embedding.loop_body C data) (streams self)
                    {| Embedding.average_factors_embeds := [];
                       Embedding.concat_factors_embeds := [];
                       Embedding.sum_factors_embeds := [] |}
                  = Ok {| Embedding.average_factors_embeds := [];
                          Embedding.concat_factors_embeds := [];
                          Embedding.sum_factors_embeds :=
                            [pointwise (fun ids => stream_row ids it) data] |}).
  { assert (Hk : Forall (fun it' : stream (T:=T) => known_mode C (stream_mode it'))
                   (streams self)).
    { rewrite Hstreams. constructor; [|constructor]. left. reflexivity. }
    assert (Hvs : Forall (fun it' => Forall (Forall (fun ids => stream_valid ids it')) data)
                    (streams self)).
    { apply Forall2_swap.
      eapply Forall_impl; [|exact Hv]. intros r Hr.
      eapply Forall_impl; [|exact Hr]. intros ids [_ [_ Hi]]. exact Hi. }
    pose proof (loop_ok Hk Hvs [] [] []) as HL.
    rewrite Hstreams in HL |- *. cbn [filter app] in HL.
    unfold stream_mode, it in HL. cbn [snd] in HL.
    rewrite Hcat, His, Hia in HL. exact HL. }
  match goal with
  | |- bind ?c _ = _ => replace c with (Ok {| Embedding.average_factors_embeds := [];
                          Embedding.concat_factors_embeds := [];
                          Embedding.sum_factors_embeds :=
                            [pointwise (fun ids => stream_row ids it) data] |})
                        by (symmetry; exact Hloop)
  end.
  cbn [bind Embedding.average_factors_embeds Embedding.sum_factors_embeds
       Embedding.concat_factors_embeds is_empty foldM].
  unfold Torch.tensor_add.
  rewrite (zipM2_pointwise Torch.add_broadcast
             (fun ids => Torch.row (Embedding.embedding self) (nth 0 ids 0%Z))
             (fun ids => stream_row ids it)
             (fun ids => map (fun x => add x (params 1 (Z.to_nat (nth 1 ids 0%Z)) 0))
                             (Torch.row (Embedding.embedding self) (nth 0 ids 0%Z)))).
  - reflexivity.
  - intros ids. unfold stream_row, it, stream_table. cbn [fst snd].
    unfold Torch.row at 2. cbn [Torch.embedding_dim nn_Embedding seq map Torch.weight].
    apply add_broadcast_single.
Qed.

Lemma width_one_sum_factor_is_broadcast_witness :
  @Embedding.forward_embedded Z Z_dtype spec_modes
    (Embedding.__init__ broadcast_config None example_params) [[[1; 2]]]%Z
  = Ok (pointwise
          (fun ids =>
             map (fun x => @add Z Z_dtype x (example_params 1 (Z.to_nat (nth 1 ids 0%Z)) 0))
                 (Torch.row (Embedding.embedding
                               (@Embedding.__init__ Z broadcast_config None example_params))
                            (nth 0 ids 0%Z)))
          [[[1; 2]]]%Z).
Proof.
  apply (@width_one_sum_factor_is_broadcast Z Z_dtype spec_modes broadcast_config None
           example_params (example_factor "sum" 4 1 false) [[[1; 2]]]%Z).
  - cbn. discriminate.
  - reflexivity.
  - reflexivity.
  - reflexivity.
  - reflexivity.
  - unfold valid_data, valid_position, stream_valid, in_range. cbn.
    repeat constructor; cbn; lia.
Defined.

(** * Shared embedding tables in [forward] *)

Section SharedLemmas.
Context {T : Type} {DT : DType T}.
Variable C : Constants.
Variables (cfg : EmbeddingConfig.t) (emb : option (Torch.nnEmbedding T))
          (params : nat -> nat -> nat -> T).



End SharedLemmas.


